(** * stress-ng: the periodic statistics sampler (vmstat / thermalstat / iostat)

    A shallow embedding of the sampler that lives in the second document of
    [src/stress-ping-sock.c] (the [core-vmstat] code): the option setters
    [stress_set_vmstat], [stress_set_thermalstat], [stress_set_iostat], the
    block device discovery [stress_iostat_iostat_name], the readers
    [stress_read_vmstat] / [stress_read_iostat], the delta engines
    [stress_get_vmstat] / [stress_get_iostat] and the sampling loop of
    [stress_vmstat_start].  The Linux build is the one modelled
    ([__linux__] and [HAVE_SYS_SYSMACROS_H] defined).

    Integers of the C code are [Z] with the wrap-around of their type written
    out; [double] is the kernel's binary64 [float]; files are the lists of
    lines [fgets] returns. *)

From Stdlib Require Import ZArith List String Ascii Bool Lia.
From Stdlib Require Import Floats.
From Stdlib Require DecimalString DecimalPos DecimalN.
Import ListNotations.

Local Open Scope string_scope.
Local Open Scope Z_scope.

(* ================================================================== *)
(** * Machine arithmetic *)
(* ================================================================== *)

Definition wrap_u64 (z : Z) : Z := z mod 2 ^ 64.
Definition wrap_u32 (z : Z) : Z := z mod 2 ^ 32.
Definition wrap_i32 (z : Z) : Z := (z + 2 ^ 31) mod 2 ^ 32 - 2 ^ 31.
Definition wrap_i64 (z : Z) : Z := (z + 2 ^ 63) mod 2 ^ 64 - 2 ^ 63.

Definition is_u64 (z : Z) : Prop := 0 <= z < 2 ^ 64.
Definition is_i32 (z : Z) : Prop := - 2 ^ 31 <= z < 2 ^ 31.

Definition INT_MAX : Z := 2 ^ 31 - 1.
Definition LLONG_MAX : Z := 2 ^ 63 - 1.
Definition LLONG_MIN : Z := - 2 ^ 63.
Definition EXIT_FAILURE : Z := 1.

(** Modelled from the spec: [STRESS_MINIMUM] is a macro of [stress-ng.h],
    which is not part of the sources at hand; the scheduler "computes the
    next wake time as the minimum", so the macro is the usual
    [((a) < (b)) ? (a) : (b)]. *)
Definition STRESS_MINIMUM (a b : Z) : Z := if a <? b then a else b.

(** Modelled from the spec: [STRESS_DBL_NANOSECOND] is a constant of
    [stress-ng.h]; the number of nanoseconds in a second, as a double. *)
Definition STRESS_DBL_NANOSECOND : float := 1000000000%float.

(** [(double)z] for an integer [z]: round to nearest, ties to even. *)
Definition Z_to_double (z : Z) : float :=
  SF2Prim (binary_normalize 53 1024 z 0 false).

(** [(uint64_t)f] for a finite positive double: truncation towards zero
    (the loop only converts when [f > 0]). *)
Definition double_to_u64 (f : float) : Z :=
  match Prim2SF f with
  | S754_finite false m e =>
      wrap_u64 (if 0 <=? e then Z.pos m * 2 ^ e else Z.pos m / 2 ^ (- e))
  | _ => 0
  end.

(* ================================================================== *)
(** * Data: the two counter structures *)
(* ================================================================== *)

(** [stress_vmstat_t]: every field is a [uint64_t]. *)
Record stress_vmstat_t : Type := mk_vmstat {
  procs_running : Z;       (* r *)
  procs_blocked : Z;       (* b *)
  swap_total : Z;          (* swpd info, total *)
  swap_free : Z;           (* swpd info, free *)
  swap_used : Z;           (* swpd used = total - free *)
  memory_free : Z;         (* free *)
  memory_buff : Z;         (* buff *)
  memory_cached : Z;       (* cached *)
  memory_reclaimable : Z;  (* reclaimable cached *)
  swap_in : Z;             (* si *)
  swap_out : Z;            (* so *)
  block_in : Z;            (* bi *)
  block_out : Z;           (* bo *)
  interrupt : Z;           (* in *)
  context_switch : Z;      (* cs *)
  user_time : Z;           (* us *)
  system_time : Z;         (* sy *)
  idle_time : Z;           (* id *)
  wait_time : Z;           (* wa *)
  stolen_time : Z          (* st *)
}.

(** [memset(&v, 0, sizeof(v))] *)
Definition vmstat_zero : stress_vmstat_t :=
  mk_vmstat 0 0 0 0 0 0 0 0 0 0 0 0 0 0 0 0 0 0 0 0.

(** [stress_iostat_t], from [/sys/block/$dev/stat]: every field a [uint64_t]. *)
Record stress_iostat_t : Type := mk_iostat {
  read_io : Z;
  read_merges : Z;
  read_sectors : Z;
  read_ticks : Z;
  write_io : Z;
  write_merges : Z;
  write_sectors : Z;
  write_ticks : Z;
  in_flight : Z;
  io_ticks : Z;
  time_in_queue : Z;
  discard_io : Z;
  discard_merges : Z;
  discard_sectors : Z;
  discard_ticks : Z
}.

Definition iostat_zero : stress_iostat_t :=
  mk_iostat 0 0 0 0 0 0 0 0 0 0 0 0 0 0 0.

(** The named fields, used to quantify over "every field". *)
Inductive vmstat_field : Type :=
  | Fprocs_running | Fprocs_blocked | Fswap_total | Fswap_free | Fswap_used
  | Fmemory_free | Fmemory_buff | Fmemory_cached | Fmemory_reclaimable
  | Fswap_in | Fswap_out | Fblock_in | Fblock_out | Finterrupt
  | Fcontext_switch | Fuser_time | Fsystem_time | Fidle_time | Fwait_time
  | Fstolen_time.

Definition vmstat_get (f : vmstat_field) (v : stress_vmstat_t) : Z :=
  match f with
  | Fprocs_running => procs_running v
  | Fprocs_blocked => procs_blocked v
  | Fswap_total => swap_total v
  | Fswap_free => swap_free v
  | Fswap_used => swap_used v
  | Fmemory_free => memory_free v
  | Fmemory_buff => memory_buff v
  | Fmemory_cached => memory_cached v
  | Fmemory_reclaimable => memory_reclaimable v
  | Fswap_in => swap_in v
  | Fswap_out => swap_out v
  | Fblock_in => block_in v
  | Fblock_out => block_out v
  | Finterrupt => interrupt v
  | Fcontext_switch => context_switch v
  | Fuser_time => user_time v
  | Fsystem_time => system_time v
  | Fidle_time => idle_time v
  | Fwait_time => wait_time v
  | Fstolen_time => stolen_time v
  end.

(** [vmstat->field = x] *)
Definition vmstat_set (f : vmstat_field) (x : Z) (v : stress_vmstat_t)
  : stress_vmstat_t :=
  let 'mk_vmstat a1 a2 a3 a4 a5 a6 a7 a8 a9 a10
                 a11 a12 a13 a14 a15 a16 a17 a18 a19 a20 := v in
  match f with
  | Fprocs_running => mk_vmstat x a2 a3 a4 a5 a6 a7 a8 a9 a10 a11 a12 a13 a14 a15 a16 a17 a18 a19 a20
  | Fprocs_blocked => mk_vmstat a1 x a3 a4 a5 a6 a7 a8 a9 a10 a11 a12 a13 a14 a15 a16 a17 a18 a19 a20
  | Fswap_total => mk_vmstat a1 a2 x a4 a5 a6 a7 a8 a9 a10 a11 a12 a13 a14 a15 a16 a17 a18 a19 a20
  | Fswap_free => mk_vmstat a1 a2 a3 x a5 a6 a7 a8 a9 a10 a11 a12 a13 a14 a15 a16 a17 a18 a19 a20
  | Fswap_used => mk_vmstat a1 a2 a3 a4 x a6 a7 a8 a9 a10 a11 a12 a13 a14 a15 a16 a17 a18 a19 a20
  | Fmemory_free => mk_vmstat a1 a2 a3 a4 a5 x a7 a8 a9 a10 a11 a12 a13 a14 a15 a16 a17 a18 a19 a20
  | Fmemory_buff => mk_vmstat a1 a2 a3 a4 a5 a6 x a8 a9 a10 a11 a12 a13 a14 a15 a16 a17 a18 a19 a20
  | Fmemory_cached => mk_vmstat a1 a2 a3 a4 a5 a6 a7 x a9 a10 a11 a12 a13 a14 a15 a16 a17 a18 a19 a20
  | Fmemory_reclaimable => mk_vmstat a1 a2 a3 a4 a5 a6 a7 a8 x a10 a11 a12 a13 a14 a15 a16 a17 a18 a19 a20
  | Fswap_in => mk_vmstat a1 a2 a3 a4 a5 a6 a7 a8 a9 x a11 a12 a13 a14 a15 a16 a17 a18 a19 a20
  | Fswap_out => mk_vmstat a1 a2 a3 a4 a5 a6 a7 a8 a9 a10 x a12 a13 a14 a15 a16 a17 a18 a19 a20
  | Fblock_in => mk_vmstat a1 a2 a3 a4 a5 a6 a7 a8 a9 a10 a11 x a13 a14 a15 a16 a17 a18 a19 a20
  | Fblock_out => mk_vmstat a1 a2 a3 a4 a5 a6 a7 a8 a9 a10 a11 a12 x a14 a15 a16 a17 a18 a19 a20
  | Finterrupt => mk_vmstat a1 a2 a3 a4 a5 a6 a7 a8 a9 a10 a11 a12 a13 x a15 a16 a17 a18 a19 a20
  | Fcontext_switch => mk_vmstat a1 a2 a3 a4 a5 a6 a7 a8 a9 a10 a11 a12 a13 a14 x a16 a17 a18 a19 a20
  | Fuser_time => mk_vmstat a1 a2 a3 a4 a5 a6 a7 a8 a9 a10 a11 a12 a13 a14 a15 x a17 a18 a19 a20
  | Fsystem_time => mk_vmstat a1 a2 a3 a4 a5 a6 a7 a8 a9 a10 a11 a12 a13 a14 a15 a16 x a18 a19 a20
  | Fidle_time => mk_vmstat a1 a2 a3 a4 a5 a6 a7 a8 a9 a10 a11 a12 a13 a14 a15 a16 a17 x a19 a20
  | Fwait_time => mk_vmstat a1 a2 a3 a4 a5 a6 a7 a8 a9 a10 a11 a12 a13 a14 a15 a16 a17 a18 x a20
  | Fstolen_time => mk_vmstat a1 a2 a3 a4 a5 a6 a7 a8 a9 a10 a11 a12 a13 a14 a15 a16 a17 a18 a19 x
  end.

(** [vmstat->field += x], in [uint64_t] arithmetic. *)
Definition vmstat_add (f : vmstat_field) (x : Z) (v : stress_vmstat_t)
  : stress_vmstat_t :=
  vmstat_set f (wrap_u64 (vmstat_get f v + x)) v.

(** Every field holds a [uint64_t] value. *)
Definition vmstat_wf (v : stress_vmstat_t) : Prop :=
  forall f, is_u64 (vmstat_get f v).

Inductive iostat_field : Type :=
  | Fread_io | Fread_merges | Fread_sectors | Fread_ticks
  | Fwrite_io | Fwrite_merges | Fwrite_sectors | Fwrite_ticks
  | Fin_flight | Fio_ticks | Ftime_in_queue
  | Fdiscard_io | Fdiscard_merges | Fdiscard_sectors | Fdiscard_ticks.

Definition iostat_get (f : iostat_field) (i : stress_iostat_t) : Z :=
  match f with
  | Fread_io => read_io i
  | Fread_merges => read_merges i
  | Fread_sectors => read_sectors i
  | Fread_ticks => read_ticks i
  | Fwrite_io => write_io i
  | Fwrite_merges => write_merges i
  | Fwrite_sectors => write_sectors i
  | Fwrite_ticks => write_ticks i
  | Fin_flight => in_flight i
  | Fio_ticks => io_ticks i
  | Ftime_in_queue => time_in_queue i
  | Fdiscard_io => discard_io i
  | Fdiscard_merges => discard_merges i
  | Fdiscard_sectors => discard_sectors i
  | Fdiscard_ticks => discard_ticks i
  end.

Definition iostat_wf (i : stress_iostat_t) : Prop :=
  forall f, is_u64 (iostat_get f i).

(* ================================================================== *)
(** * Configuration: the three interval knobs *)
(* ================================================================== *)

(** The file-scope [static int32_t vmstat_delay, thermalstat_delay,
    iostat_delay], all initialised to 0. *)
Record config : Type := mk_config {
  vmstat_delay : Z;
  thermalstat_delay : Z;
  iostat_delay : Z
}.

Definition config_init : config := mk_config 0 0 0.

Inductive knob : Type := KVmstat | KThermalstat | KIostat.

Definition knob_name (k : knob) : string :=
  match k with
  | KVmstat => "vmstat"
  | KThermalstat => "thermalstat"
  | KIostat => "iostat"
  end.

Definition get_delay (k : knob) (c : config) : Z :=
  match k with
  | KVmstat => vmstat_delay c
  | KThermalstat => thermalstat_delay c
  | KIostat => iostat_delay c
  end.

(** [*delay = v] through the pointer the setter was given. *)
Definition set_delay (k : knob) (v : Z) (c : config) : config :=
  match k with
  | KVmstat => mk_config v (thermalstat_delay c) (iostat_delay c)
  | KThermalstat => mk_config (vmstat_delay c) v (iostat_delay c)
  | KIostat => mk_config (vmstat_delay c) (thermalstat_delay c) v
  end.

(** What the setters and [stress_vmstat_start] see and change of the
    process they run in. *)
Record process : Type := mk_process {
  delays : config;
  opt_flags_tz_info : bool;   (* the OPT_FLAGS_TZ_INFO bit of g_opt_flags *)
  stderr : list string;       (* lines written to stderr (their newline
                                 left out), oldest first *)
  forks : nat;                (* calls of fork() made so far *)
  vmstat_pid : Z              (* static pid_t vmstat_pid *)
}.

Definition process_init : process :=
  mk_process config_init false [] 0%nat 0.

(** A C function either returns to its caller or ends the process with
    [_exit(code)]; whatever follows an [_exit] is never run. *)
Inductive result (A : Type) : Type :=
  | Returned (a : A) (p : process)
  | Exited (code : Z) (p : process).
Arguments Returned {A} a p.
Arguments Exited {A} code p.

Definition action (A : Type) : Type := process -> result A.

Definition ret {A : Type} (a : A) : action A := fun p => Returned a p.

Definition bind {A B : Type} (m : action A) (k : A -> action B) : action B :=
  fun p =>
    match m p with
    | Returned a p' => k a p'
    | Exited code p' => Exited code p'
    end.

Notation "x <- m ;; k" := (bind m (fun x => k))
  (at level 61, m at next level, right associativity).
Notation "m ;;; k" := (bind m (fun _ => k))
  (at level 61, right associativity).

Definition final_process {A : Type} (r : result A) : process :=
  match r with
  | Returned _ p => p
  | Exited _ p => p
  end.

(** [stress_set_generic_stat(opt, name, delay)].  [v] is the value
    [stress_get_int32(opt)] returned ([stress_get_int32] is the option
    parser, outside this file); [k] says which of the three delays the
    pointer [delay] designates. *)
Definition stress_set_generic_stat (v : Z) (name : string) (k : knob)
  : action Z :=
  fun p =>
    let p1 := mk_process (set_delay k v (delays p)) (opt_flags_tz_info p)
                         (stderr p) (forks p) (vmstat_pid p) in
    if (v <? 1) || (v >? 3600) then
      Exited EXIT_FAILURE
        (mk_process (delays p1) (opt_flags_tz_info p1)
           (stderr p1 ++ [name ++ " must in the range 1 to 3600."])
           (forks p1) (vmstat_pid p1))
    else Returned 0 p1.

Definition stress_set_vmstat (v : Z) : action Z :=
  stress_set_generic_stat v "vmstat" KVmstat.

Definition stress_set_thermalstat (v : Z) : action Z :=
  fun p =>
    stress_set_generic_stat v "thermalstat" KThermalstat
      (mk_process (delays p) true (stderr p) (forks p) (vmstat_pid p)).

Definition stress_set_iostat (v : Z) : action Z :=
  stress_set_generic_stat v "iostat" KIostat.

Definition stress_set_knob (k : knob) (v : Z) : action Z :=
  match k with
  | KVmstat => stress_set_vmstat v
  | KThermalstat => stress_set_thermalstat v
  | KIostat => stress_set_iostat v
  end.

(** The knobs given on a command line, applied in order. *)
Fixpoint configure (opts : list (knob * Z)) : action unit :=
  match opts with
  | [] => ret tt
  | (k, v) :: rest => stress_set_knob k v ;;; configure rest
  end.

(* ================================================================== *)
(** * Block device discovery: [stress_iostat_iostat_name] *)
(* ================================================================== *)

Definition PATH_MAX : nat := 4096.

Definition isdigit (c : ascii) : bool :=
  let n := Z.of_N (N_of_ascii c) in (48 <=? n) && (n <=? 57).

(** What the discovery asks of the file system: [realpath] of the
    temporary path, the device [stress_find_mount_dev] finds for it, and
    which paths [stat] succeeds on. *)
Record fs_view : Type := mk_fs {
  realpath_temp : option string;
  find_mount_dev : string -> option string;
  stat_ok : string -> bool
}.

(** [snprintf(iostat_name, len, "/sys/block/%s/stat", dev)]: the text,
    cut to [len - 1] characters. *)
Definition snprintf_iostat_name (len : nat) (dev : string) : string :=
  substring 0 (len - 1) ("/sys/block/" ++ dev ++ "/stat").

(** The [while (ptr >= dev)] loop.  [rdev] is the device name reversed,
    so that its head is [*ptr], the last character. *)
Fixpoint try_iostat_names (ok : string -> bool) (len : nat)
    (rdev : list ascii) : option string :=
  match rdev with
  | [] => None
  | c :: rest =>
      let name :=
        snprintf_iostat_name len (string_of_list_ascii (rev rdev)) in
      if ok name then Some name
      else if isdigit c then try_iostat_names ok len rest
      else None
  end.

Fixpoint string_drop (n : nat) (s : string) : string :=
  match n, s with
  | O, _ => s
  | S n', String _ r => string_drop n' r
  | S _, EmptyString => EmptyString
  end.

Definition skip_dev_prefix (dev : string) : string :=
  let d1 := if String.prefix "/dev" dev then string_drop 4 dev else dev in
  match d1 with
  | String "/"%char r => r
  | _ => d1
  end.

Definition stress_iostat_iostat_name (fs : fs_view) (len : nat)
  : option string :=
  match realpath_temp fs with
  | None => None
  | Some temp_path =>
      match find_mount_dev fs temp_path with
      | None => None
      | Some dev =>
          try_iostat_names (stat_ok fs) len
            (rev (list_ascii_of_string (skip_dev_prefix dev)))
      end
  end.

(* ================================================================== *)
(** * Reading the counters: [stress_read_vmstat], [stress_read_iostat] *)
(* ================================================================== *)

Definition is_space_char (c : ascii) : bool := Ascii.eqb c " "%char.

(** [isspace] in the C locale: space, and the controls 9 to 13. *)
Definition isspace (c : ascii) : bool :=
  let n := Z.of_N (N_of_ascii c) in
  (n =? 32) || ((9 <=? n) && (n <=? 13)).

Fixpoint skip_nonblank (s : string) : string :=
  match s with
  | EmptyString => EmptyString
  | String c r => if is_space_char c then s else skip_nonblank r
  end.

Fixpoint skip_blank (s : string) : string :=
  match s with
  | EmptyString => EmptyString
  | String c r => if is_space_char c then skip_blank r else s
  end.

(** [stress_next_field(&ptr)]: [Some] of the new [ptr] when it returns
    true, [None] when it returns false (and leaves [ptr] alone). *)
Definition stress_next_field (ptr : string) : option string :=
  match skip_nonblank ptr with
  | EmptyString => None
  | p =>
      match skip_blank p with
      | EmptyString => None
      | q => Some q
      end
  end.

Fixpoint skip_isspace (s : string) : string :=
  match s with
  | EmptyString => EmptyString
  | String c r => if isspace c then skip_isspace r else s
  end.

Fixpoint digits_value (acc : Z) (s : string) : Z :=
  match s with
  | EmptyString => acc
  | String c r =>
      if isdigit c
      then digits_value (10 * acc + (Z.of_N (N_of_ascii c) - 48)) r
      else acc
  end.

Definition clamp_llong (z : Z) : Z := Z.max LLONG_MIN (Z.min LLONG_MAX z).

(** [atoll] of the C library: leading white space, an optional sign, then
    decimal digits; out of range values saturate, as [strtoll] does. *)
Definition atoll (s : string) : Z :=
  match skip_isspace s with
  | String "-"%char r => clamp_llong (- digits_value 0 r)
  | String "+"%char r => clamp_llong (digits_value 0 r)
  | t => clamp_llong (digits_value 0 t)
  end.

(** What one field of a line does to the structure. *)
Inductive store_op : Type :=
  | OpSet (f : vmstat_field)     (* vmstat->f = (uint64_t)atoll(ptr) *)
  | OpAdd (f : vmstat_field)     (* vmstat->f += (uint64_t)atoll(ptr) *)
  | OpNone.                      (* the field is skipped over only *)

Definition apply_op (op : store_op) (x : Z) (v : stress_vmstat_t)
  : stress_vmstat_t :=
  match op with
  | OpSet f => vmstat_set f x v
  | OpAdd f => vmstat_add f x v
  | OpNone => v
  end.

(** The body of one [if (!strncmp(buffer, key, n)) { ... }] block: before
    each store, [if (!stress_next_field(&ptr)) continue;].  The boolean is
    true when [continue] was taken. *)
Fixpoint read_fields (ops : list store_op) (ptr : string)
    (v : stress_vmstat_t) : bool * string * stress_vmstat_t :=
  match ops with
  | [] => (false, ptr, v)
  | op :: ops' =>
      match stress_next_field ptr with
      | None => (true, ptr, v)
      | Some p => read_fields ops' p (apply_op op (wrap_u64 (atoll p)) v)
      end
  end.

(** The blocks of a loop body, tried one after the other on the same
    [buffer]; [ptr] is shared by them. *)
Fixpoint read_line (blocks : list (string * list store_op))
    (buffer ptr : string) (v : stress_vmstat_t) : stress_vmstat_t :=
  match blocks with
  | [] => v
  | (key, ops) :: rest =>
      if String.prefix key buffer then
        match read_fields ops ptr v with
        | (true, _, v1) => v1
        | (false, p, v1) => read_line rest buffer p v1
        end
      else read_line rest buffer ptr v
  end.

Definition proc_stat_blocks : list (string * list store_op) :=
  [ ("cpu", [ OpAdd Fuser_time;      (* user time *)
              OpAdd Fuser_time;      (* user time nice *)
              OpAdd Fsystem_time;    (* system time *)
              OpAdd Fidle_time;      (* idle time *)
              OpAdd Fwait_time;      (* iowait time *)
              OpAdd Fsystem_time;    (* irq time *)
              OpAdd Fsystem_time;    (* soft time *)
              OpAdd Fstolen_time;    (* stolen time *)
              OpAdd Fstolen_time;    (* guest time *)
              OpAdd Fstolen_time;    (* guest_nice time *)
              OpNone ]);
    ("intr", [OpSet Finterrupt]);
    ("ctxt", [OpSet Fcontext_switch]);
    ("procs_running", [OpSet Fprocs_running]);
    ("procs_blocked", [OpSet Fprocs_blocked]);
    ("swap", [OpSet Fswap_in; OpSet Fswap_out]) ].

Definition proc_meminfo_blocks : list (string * list store_op) :=
  [ ("MemFree", [OpSet Fmemory_free]);
    ("Buffers", [OpSet Fmemory_buff]);
    ("Cached", [OpSet Fmemory_cached]);
    ("KReclaimable", [OpSet Fmemory_reclaimable]);
    ("SwapTotal", [OpSet Fswap_total]);
    ("SwapFree", [OpSet Fswap_free]);
    ("SwapUsed", [OpSet Fswap_used]) ].

Definition proc_vmstat_blocks : list (string * list store_op) :=
  [ ("pgpgin", [OpSet Fblock_in]);
    ("pgpgout", [OpSet Fblock_out]);
    ("pswpin", [OpSet Fswap_in]);
    ("pswpout", [OpSet Fswap_out]) ].

(** One line of [/proc/stat]: the aggregate ["cpu "] line is skipped. *)
Definition read_proc_stat_line (v : stress_vmstat_t) (buffer : string)
  : stress_vmstat_t :=
  if String.prefix "cpu " buffer then v
  else read_line proc_stat_blocks buffer buffer v.

Definition read_proc_meminfo_line (v : stress_vmstat_t) (buffer : string)
  : stress_vmstat_t :=
  read_line proc_meminfo_blocks buffer buffer v.

Definition read_proc_vmstat_line (v : stress_vmstat_t) (buffer : string)
  : stress_vmstat_t :=
  read_line proc_vmstat_blocks buffer buffer v.

(** The three tables as [fopen] and [fgets] deliver them: [None] when the
    file cannot be opened, else its lines. *)
Record procfs : Type := mk_procfs {
  proc_stat : option (list string);
  proc_meminfo : option (list string);
  proc_vmstat : option (list string)
}.

(** The [/proc/meminfo] lines parsed, before the swap correction. *)
Definition parse_meminfo (lines : list string) (v : stress_vmstat_t)
  : stress_vmstat_t :=
  fold_left read_proc_meminfo_line lines v.

(** The [if ((vmstat->swap_used == 0) && ...)] after the meminfo loop. *)
Definition derive_swap_used (v : stress_vmstat_t) : stress_vmstat_t :=
  if (swap_used v =? 0) && (swap_free v >? 0) && (swap_total v >? 0)
  then vmstat_set Fswap_used (wrap_u64 (swap_total v - swap_free v)) v
  else v.

Definition read_meminfo (lines : list string) (v : stress_vmstat_t)
  : stress_vmstat_t :=
  derive_swap_used (parse_meminfo lines v).

(** The three [fp = fopen(...); if (fp) { ... }] blocks, in order. *)
Definition read_proc_stat (file : option (list string))
    (v : stress_vmstat_t) : stress_vmstat_t :=
  match file with
  | Some lines => fold_left read_proc_stat_line lines v
  | None => v
  end.

Definition read_proc_meminfo (file : option (list string))
    (v : stress_vmstat_t) : stress_vmstat_t :=
  match file with
  | Some lines => read_meminfo lines v
  | None => v
  end.

Definition read_proc_vmstat (file : option (list string))
    (v : stress_vmstat_t) : stress_vmstat_t :=
  match file with
  | Some lines => fold_left read_proc_vmstat_line lines v
  | None => v
  end.

(** [stress_read_vmstat(vmstat)], Linux variant. *)
Definition stress_read_vmstat (files : procfs) (v : stress_vmstat_t)
  : stress_vmstat_t :=
  read_proc_vmstat (proc_vmstat files)
    (read_proc_meminfo (proc_meminfo files)
       (read_proc_stat (proc_stat files) v)).

(** [stress_read_iostat(iostat_name, iostat)].  The argument is what
    [fopen] and [fscanf] make of the file: [None] when it cannot be opened,
    else the unsigned numbers matched at its head (at most 15 are asked
    for; fewer than 15 matched makes [ret != 15]). *)
Definition stress_read_iostat (scan : option (list Z))
    (io : stress_iostat_t) : stress_iostat_t :=
  match scan with
  | None => io
  | Some (a1 :: a2 :: a3 :: a4 :: a5 :: a6 :: a7 :: a8 :: a9 :: a10
          :: a11 :: a12 :: a13 :: a14 :: a15 :: _) =>
      mk_iostat (wrap_u64 a1) (wrap_u64 a2) (wrap_u64 a3) (wrap_u64 a4)
        (wrap_u64 a5) (wrap_u64 a6) (wrap_u64 a7) (wrap_u64 a8)
        (wrap_u64 a9) (wrap_u64 a10) (wrap_u64 a11) (wrap_u64 a12)
        (wrap_u64 a13) (wrap_u64 a14) (wrap_u64 a15)
  | Some _ => iostat_zero
  end.

(* ================================================================== *)
(** * The delta engines: [stress_get_vmstat], [stress_get_iostat] *)
(* ================================================================== *)

(** The expression both delta macros assign:
    [(current > prev) ? (current - prev) : 0], in [uint64_t]. *)
Definition STRESS_DELTA (current prev : Z) : Z :=
  if current >? prev then wrap_u64 (current - prev) else 0.

(** [STRESS_VMSTAT_COPY(field)] and [STRESS_VMSTAT_DELTA(field)]: the value
    assigned to [vmstat->field]. *)
Definition STRESS_VMSTAT_COPY (field : stress_vmstat_t -> Z)
    (vmstat_current : stress_vmstat_t) : Z :=
  field vmstat_current.

Definition STRESS_VMSTAT_DELTA (field : stress_vmstat_t -> Z)
    (vmstat_current vmstat_prev : stress_vmstat_t) : Z :=
  STRESS_DELTA (field vmstat_current) (field vmstat_prev).

(** [STRESS_IOSTAT_DELTA(field)]: the value assigned to [iostat->field]. *)
Definition STRESS_IOSTAT_DELTA (field : stress_iostat_t -> Z)
    (iostat_current iostat_prev : stress_iostat_t) : Z :=
  STRESS_DELTA (field iostat_current) (field iostat_prev).

(** [stress_get_vmstat(vmstat)]: the values handed to the caller, and the
    new contents of the static [vmstat_prev]. *)
Definition stress_get_vmstat (vmstat_prev : stress_vmstat_t)
    (files : procfs) : stress_vmstat_t * stress_vmstat_t :=
  let vmstat_current := stress_read_vmstat files vmstat_zero in
  let COPY := fun f => STRESS_VMSTAT_COPY f vmstat_current in
  let DELTA := fun f => STRESS_VMSTAT_DELTA f vmstat_current vmstat_prev in
  (mk_vmstat
     (COPY procs_running) (COPY procs_blocked)
     (COPY swap_total) (COPY swap_free) (COPY swap_used)
     (COPY memory_free) (COPY memory_buff) (COPY memory_cached)
     (COPY memory_reclaimable)
     (DELTA swap_in) (DELTA swap_out)
     (DELTA block_in) (DELTA block_out)
     (DELTA interrupt) (DELTA context_switch)
     (DELTA user_time) (DELTA system_time) (DELTA idle_time)
     (DELTA wait_time) (DELTA stolen_time),
   vmstat_current).

(** [stress_get_iostat(iostat_name, iostat)]: the deltas, and the new
    contents of the static [iostat_prev]. *)
Definition stress_get_iostat (iostat_prev : stress_iostat_t)
    (scan : option (list Z)) : stress_iostat_t * stress_iostat_t :=
  let iostat_current := stress_read_iostat scan iostat_zero in
  let DELTA := fun f => STRESS_IOSTAT_DELTA f iostat_current iostat_prev in
  (mk_iostat
     (DELTA read_io) (DELTA read_merges) (DELTA read_sectors)
     (DELTA read_ticks) (DELTA write_io) (DELTA write_merges)
     (DELTA write_sectors) (DELTA write_ticks) (DELTA in_flight)
     (DELTA io_ticks) (DELTA time_in_queue) (DELTA discard_io)
     (DELTA discard_merges) (DELTA discard_sectors) (DELTA discard_ticks),
   iostat_current).

(* ================================================================== *)
(** * The sampling loop of [stress_vmstat_start] *)
(* ================================================================== *)

Local Open Scope list_scope.

(** The values of one [vmstat:] data line, in the order printed. *)
Record vmstat_line : Type := mk_vmstat_line {
  vl_r : Z;  vl_b : Z;
  vl_swpd : Z;  vl_free : Z;  vl_buff : Z;  vl_cache : Z;
  vl_si : Z;  vl_so : Z;  vl_bi : Z;  vl_bo : Z;
  vl_in : Z;  vl_cs : Z;
  vl_us : float;  vl_sy : float;  vl_id : float;  vl_wa : float;
  vl_st : float
}.

(** The values of one [iostat:] data line, in the order printed. *)
Record iostat_line : Type := mk_iostat_line {
  il_inflight : float;
  il_rd_k : float;  il_wr_k : float;  il_dscd_k : float;
  il_rd : float;  il_wr : float;  il_dscd : float
}.

(** The values of one [therm:] data line. *)
Record therm_line : Type := mk_therm_line {
  tl_cpu_ghz : float * float * float;            (* avg, min, max *)
  tl_load_avg : option (float * float * float);  (* None: "n/a" *)
  tl_temps : list float                          (* one per thermal zone *)
}.

(** What the worker does that can be seen from outside. *)
Inductive event : Type :=
  | EvSleep (nsec : Z)                    (* shim_nanosleep_uint64(nsec) *)
  | EvVmstatHeader
  | EvVmstatLine (l : vmstat_line)
  | EvThermHeader (zone_types : list string)
  | EvThermLine (l : therm_line)
  | EvIostatHeader
  | EvIostatLine (l : iostat_line).

(** What the machine answers during one pass of the loop. *)
Record wake_env : Type := mk_wake_env {
  time_now : float;                 (* stress_time_now() *)
  sc_clk_tck : Z;                   (* sysconf(_SC_CLK_TCK) *)
  sc_nprocessors_onln : Z;          (* sysconf(_SC_NPROCESSORS_ONLN) *)
  procfs_now : procfs;              (* /proc/stat, /proc/meminfo, /proc/vmstat *)
  iostat_scan : option (list Z);    (* the file named iostat_name *)
  therms_calloc : bool;             (* calloc of the therms buffer succeeded *)
  tz_temps : list float;            (* stress_get_tz_info per zone *)
  cpu_ghz : float * float * float;  (* stress_get_cpu_ghz *)
  load_avg : option (float * float * float)   (* stress_get_load_avg *)
}.

(** The locals of [stress_vmstat_start] that live across passes, and the
    function-scope statics the passes touch. *)
Record loop_state : Type := mk_loop_state {
  vmstat_sleep : Z;         (* int32_t *)
  thermalstat_sleep : Z;    (* int32_t *)
  iostat_sleep : Z;         (* int32_t *)
  t1 : float;
  vmstat_prev : stress_vmstat_t;
  iostat_prev : stress_iostat_t;
  vmstat_count : Z;         (* static uint32_t *)
  thermalstat_count : Z;    (* static uint32_t *)
  iostat_count : Z          (* static uint32_t *)
}.

(** [sleep_delay] as the head of the loop body computes it. *)
Definition sleep_delay (c : config) : Z :=
  let s := INT_MAX in
  let s := if vmstat_delay c >? 0
           then STRESS_MINIMUM (vmstat_delay c) s else s in
  let s := if thermalstat_delay c >? 0
           then STRESS_MINIMUM (thermalstat_delay c) s else s in
  let s := if iostat_delay c >? 0
           then STRESS_MINIMUM (iostat_delay c) s else s in
  s.

(** One countdown: [x_sleep -= sleep_delay;] then
    [if ((x_delay > 0) && (x_sleep <= 0)) x_sleep = x_delay;]. *)
Definition countdown (delay sleep sd : Z) : Z :=
  let s := wrap_i32 (sleep - sd) in
  if (delay >? 0) && (s <=? 0) then delay else s.

(** The source is processed on this pass: [x_sleep == x_delay] after the
    countdown. *)
Definition due (delay sleep : Z) : bool := sleep =? delay.

(** [(count++ % 25) == 0] *)
Definition header_due (count : Z) : bool := count mod 25 =? 0.

(** [100.0 * (double)ticks / clk_tick_vmstat_delay] *)
Definition cpu_percent (ticks : Z) (clk_tick_vmstat_delay : float) : float :=
  (100 * Z_to_double ticks / clk_tick_vmstat_delay)%float.

Definition make_vmstat_line (c : config) (clk_tick : Z)
    (vmstat : stress_vmstat_t) : vmstat_line :=
  let clk_tick_vmstat_delay :=
    (Z_to_double clk_tick * Z_to_double (vmstat_delay c))%float in
  let d := wrap_u64 (vmstat_delay c) in
  mk_vmstat_line
    (procs_running vmstat)
    (procs_blocked vmstat)
    (swap_used vmstat)
    (memory_free vmstat)
    (memory_buff vmstat)
    (wrap_u64 (memory_cached vmstat + memory_reclaimable vmstat))
    (swap_in vmstat / d)
    (swap_out vmstat / d)
    (block_in vmstat / d)
    (block_out vmstat / d)
    (interrupt vmstat / d)
    (context_switch vmstat / d)
    (cpu_percent (user_time vmstat) clk_tick_vmstat_delay)
    (cpu_percent (system_time vmstat) clk_tick_vmstat_delay)
    (cpu_percent (idle_time vmstat) clk_tick_vmstat_delay)
    (cpu_percent (wait_time vmstat) clk_tick_vmstat_delay)
    (cpu_percent (stolen_time vmstat) clk_tick_vmstat_delay).

Definition make_iostat_line (c : config) (iostat : stress_iostat_t)
  : iostat_line :=
  let clk_scale := if iostat_delay c >? 0
                   then (1 / Z_to_double (iostat_delay c))%float
                   else 0%float in
  mk_iostat_line
    (Z_to_double (in_flight iostat) * clk_scale)%float
    (Z_to_double (Z.shiftr (read_sectors iostat) 1) * clk_scale)%float
    (Z_to_double (Z.shiftr (write_sectors iostat) 1) * clk_scale)%float
    (Z_to_double (Z.shiftr (discard_sectors iostat) 1) * clk_scale)%float
    (Z_to_double (read_io iostat) * clk_scale)%float
    (Z_to_double (write_io iostat) * clk_scale)%float
    (Z_to_double (discard_io iostat) * clk_scale)%float.

(** The sleep at the head of the pass: the new [t1], and the
    [shim_nanosleep_uint64] call when [delta > 0]. *)
Definition sleep_part (c : config) (st : loop_state) (e : wake_env)
  : float * list event :=
  let t1' := (t1 st + Z_to_double (sleep_delay c))%float in
  let delta := (t1' - time_now e)%float in
  (t1', if (0 <? delta)%float
        then [EvSleep (double_to_u64 (delta * STRESS_DBL_NANOSECOND)%float)]
        else []).

(** The [if (vmstat_sleep == vmstat_delay) { ... }] block: its output, the
    new [vmstat_prev] and the new [vmstat_count]. *)
Definition vmstat_part (c : config) (sleep : Z) (st : loop_state)
    (e : wake_env) : list event * stress_vmstat_t * Z :=
  if due (vmstat_delay c) sleep then
    let clk_tick := wrap_i64 (sc_clk_tck e * sc_nprocessors_onln e) in
    let hdr := if header_due (vmstat_count st) then [EvVmstatHeader] else [] in
    let '(vmstat, prev') := stress_get_vmstat (vmstat_prev st) (procfs_now e) in
    (hdr ++ [EvVmstatLine (make_vmstat_line c clk_tick vmstat)],
     prev', wrap_u32 (vmstat_count st + 1))
  else ([], vmstat_prev st, vmstat_count st).

(** The [if (thermalstat_delay == thermalstat_sleep) { ... }] block; it
    prints only when the [therms] buffer could be allocated. *)
Definition therm_part (c : config) (zone_types : list string) (sleep : Z)
    (st : loop_state) (e : wake_env) : list event * Z :=
  if due (thermalstat_delay c) sleep && therms_calloc e then
    let hdr := if header_due (thermalstat_count st)
               then [EvThermHeader zone_types] else [] in
    (hdr ++ [EvThermLine (mk_therm_line (cpu_ghz e) (load_avg e) (tz_temps e))],
     wrap_u32 (thermalstat_count st + 1))
  else ([], thermalstat_count st).

(** The [if (iostat_delay == iostat_sleep) { ... }] block. *)
Definition iostat_part (c : config) (sleep : Z) (st : loop_state)
    (e : wake_env) : list event * stress_iostat_t * Z :=
  if due (iostat_delay c) sleep then
    let hdr := if header_due (iostat_count st) then [EvIostatHeader] else [] in
    let '(iostat, prev') := stress_get_iostat (iostat_prev st) (iostat_scan e) in
    (hdr ++ [EvIostatLine (make_iostat_line c iostat)],
     prev', wrap_u32 (iostat_count st + 1))
  else ([], iostat_prev st, iostat_count st).

(** One pass of [while (keep_stressing_flag()) { ... }]. *)
Definition loop_step (c : config) (zone_types : list string)
    (st : loop_state) (e : wake_env) : loop_state * list event :=
  let sd := sleep_delay c in
  let '(t1', ev_sleep) := sleep_part c st e in
  let vs := countdown (vmstat_delay c) (vmstat_sleep st) sd in
  let ts := countdown (thermalstat_delay c) (thermalstat_sleep st) sd in
  let ios := countdown (iostat_delay c) (iostat_sleep st) sd in
  let '(ev_vm, vprev, vcount) := vmstat_part c vs st e in
  let '(ev_th, tcount) := therm_part c zone_types ts st e in
  let '(ev_io, iprev, icount) := iostat_part c ios st e in
  (mk_loop_state vs ts ios t1' vprev iprev vcount tcount icount,
   ev_sleep ++ ev_vm ++ ev_th ++ ev_io).

(** The passes made while [keep_stressing_flag()] holds, one per element
    of [wakes]. *)
Fixpoint run_loop (c : config) (zone_types : list string)
    (st : loop_state) (wakes : list wake_env) : loop_state * list event :=
  match wakes with
  | [] => (st, [])
  | e :: rest =>
      let '(st1, ev1) := loop_step c zone_types st e in
      let '(st2, ev2) := run_loop c zone_types st1 rest in
      (st2, ev1 ++ ev2)
  end.

(** The child's code between [fork] and the loop: the seeding reads, the
    device discovery and [t1 = stress_time_now()].  [e0] is what the
    machine answers then. *)
Definition child_init (c : config) (fs : fs_view) (e0 : wake_env)
  : loop_state :=
  let vprev := if vmstat_delay c =? 0 then vmstat_zero
               else snd (stress_get_vmstat vmstat_zero (procfs_now e0)) in
  let ios := match stress_iostat_iostat_name fs PATH_MAX with
             | None => 0
             | Some _ => iostat_delay c
             end in
  let iprev := if iostat_delay c =? 0 then iostat_zero
               else snd (stress_get_iostat iostat_zero (iostat_scan e0)) in
  mk_loop_state (vmstat_delay c) (thermalstat_delay c) ios (time_now e0)
    vprev iprev 0 0 0.

(** The thermal zones of [g_shared->tz_info], by their type strings. *)
Definition zone_list : Type := list string.

(** [stress_vmstat_start()].  [fork_ret] is what [fork] returns in the
    process modelled: negative on failure, the child's pid in the parent, 0
    in the child, which then runs the loop and ends with [_exit(0)].  The
    events are those of the process modelled. *)
Definition stress_vmstat_start (fork_ret : Z) (fs : fs_view)
    (zones : zone_list) (e0 : wake_env) (wakes : list wake_env)
  : process -> result unit * list event :=
  fun p =>
    let c := delays p in
    if (vmstat_delay c =? 0) && (thermalstat_delay c =? 0)
       && (iostat_delay c =? 0)
    then (Returned tt p, [])
    else
      let p1 := mk_process c (opt_flags_tz_info p) (stderr p)
                  (S (forks p)) fork_ret in
      if (fork_ret <? 0) || (fork_ret >? 0) then (Returned tt p1, [])
      else
        let '(_, evs) := run_loop c zones (child_init c fs e0) wakes in
        (Exited 0 p1, evs).

(* ================================================================== *)
(** * Specification-side definitions *)
(* ================================================================== *)

(** The fields [stress_get_vmstat] differences ([STRESS_VMSTAT_DELTA]);
    the others are gauges it copies ([STRESS_VMSTAT_COPY]). *)
Definition vmstat_is_counter (f : vmstat_field) : bool :=
  match f with
  | Fswap_in | Fswap_out | Fblock_in | Fblock_out | Finterrupt
  | Fcontext_switch | Fuser_time | Fsystem_time | Fidle_time | Fwait_time
  | Fstolen_time => true
  | _ => false
  end.

(** The delta of the data model: [max(current - previous, 0)]. *)
Definition spec_delta (current previous : Z) : Z :=
  Z.max (current - previous) 0.

(** The field a store writes, if any. *)
Definition op_target (op : store_op) : option vmstat_field :=
  match op with
  | OpSet f | OpAdd f => Some f
  | OpNone => None
  end.

(** No store of [blocks] writes the field [g]. *)
Definition blocks_avoid (g : vmstat_field)
    (blocks : list (string * list store_op)) : Prop :=
  Forall (fun b => Forall (fun op => op_target op <> Some g) (snd b)) blocks.

(** The condition under which the swap-used value is derived. *)
Definition swap_used_missing (v : stress_vmstat_t) : Prop :=
  swap_used v = 0 /\ 0 < swap_free v /\ 0 < swap_total v.

(** Each delay is 0 (knob absent) or a value the setters accept. *)
Definition config_ok (c : config) : Prop :=
  (0 <= vmstat_delay c <= 3600) /\
  (0 <= thermalstat_delay c <= 3600) /\
  (0 <= iostat_delay c <= 3600).

Definition get_sleep (k : knob) (st : loop_state) : Z :=
  match k with
  | KVmstat => vmstat_sleep st
  | KThermalstat => thermalstat_sleep st
  | KIostat => iostat_sleep st
  end.

Definition get_count (k : knob) (st : loop_state) : Z :=
  match k with
  | KVmstat => vmstat_count st
  | KThermalstat => thermalstat_count st
  | KIostat => iostat_count st
  end.

(** The smallest remaining countdown over the sources with a positive
    interval: the sleep the interval scheduler of the design would take. *)
Definition min_remaining (c : config) (st : loop_state) : Z :=
  let s := INT_MAX in
  let s := if vmstat_delay c >? 0 then Z.min (vmstat_sleep st) s else s in
  let s := if thermalstat_delay c >? 0
           then Z.min (thermalstat_sleep st) s else s in
  let s := if iostat_delay c >? 0 then Z.min (iostat_sleep st) s else s in
  s.

(** Passes between two samples of a source of interval [d] when every
    pass sleeps [m]: the ceiling of [d / m]. *)
Definition passes_per_sample (d m : Z) : Z := (d + m - 1) / m.

(** A countdown after [n] passes that all sleep [sd]. *)
Fixpoint countdown_iter (delay sd : Z) (n : nat) (s : Z) : Z :=
  match n with
  | O => s
  | S n' => countdown delay (countdown_iter delay sd n' s) sd
  end.

(** The wake time the loop aims at on pass [n], the start time being
    [t0]: [t1 += sleep_delay] done [n] times, in [double] arithmetic. *)
Fixpoint deadline (t0 : float) (m : Z) (n : nat) : float :=
  match n with
  | O => t0
  | S n' => (deadline t0 m n' + Z_to_double m)%float
  end.

(** The arguments of the [shim_nanosleep_uint64] calls, in order. *)
Definition sleeps_of (evs : list event) : list Z :=
  flat_map (fun e => match e with EvSleep nsec => [nsec] | _ => [] end) evs.

(** Which source an event reports on, and whether it is a header. *)
Definition event_kind (e : event) : option knob :=
  match e with
  | EvSleep _ => None
  | EvVmstatHeader | EvVmstatLine _ => Some KVmstat
  | EvThermHeader _ | EvThermLine _ => Some KThermalstat
  | EvIostatHeader | EvIostatLine _ => Some KIostat
  end.

Definition is_header (e : event) : bool :=
  match e with
  | EvVmstatHeader | EvThermHeader _ | EvIostatHeader => true
  | _ => false
  end.

Definition knob_eqb (a b : knob) : bool :=
  match a, b with
  | KVmstat, KVmstat | KThermalstat, KThermalstat | KIostat, KIostat => true
  | _, _ => false
  end.

Definition of_kind (k : knob) (e : event) : bool :=
  match event_kind e with
  | Some k' => knob_eqb k k'
  | None => false
  end.

(** The output of one source kind, in order. *)
Definition events_of (k : knob) (evs : list event) : list event :=
  filter (of_kind k) evs.

(** Everything printed (the sleeps left out). *)
Definition printed (evs : list event) : list event :=
  filter (fun e => match event_kind e with Some _ => true | None => false end)
         evs.

(** The header line of a source kind. *)
Definition header_event (k : knob) (zones : list string) : event :=
  match k with
  | KVmstat => EvVmstatHeader
  | KThermalstat => EvThermHeader zones
  | KIostat => EvIostatHeader
  end.

(** [headers_every_25 n evs]: [evs], the output of one kind from its
    report number [n] on (counting from 0), has a header exactly in front
    of the reports whose number is a multiple of 25. *)
Fixpoint headers_every_25 (n : Z) (evs : list event) : bool :=
  match evs with
  | [] => true
  | h :: rest =>
      if is_header h then
        (n mod 25 =? 0) &&
        match rest with
        | l :: rest' => negb (is_header l) && headers_every_25 (n + 1) rest'
        | [] => false
        end
      else negb (n mod 25 =? 0) && headers_every_25 (n + 1) rest
  end.

(** The percentage of section 4.4: 100 times the tick delta over the
    time-base, clock ticks per second x online processors x interval. *)
Definition spec_cpu_percent (delta clk_tck ncpu interval : Z) : float :=
  (100 * Z_to_double delta
   / (Z_to_double (clk_tck * ncpu) * Z_to_double interval))%float.

(** The same pass at other clock readings. *)
Definition with_time (t : float) (e : wake_env) : wake_env :=
  mk_wake_env t (sc_clk_tck e) (sc_nprocessors_onln e) (procfs_now e)
    (iostat_scan e) (therms_calloc e) (tz_temps e) (cpu_ghz e) (load_avg e).

Definition with_t1 (t : float) (st : loop_state) : loop_state :=
  mk_loop_state (vmstat_sleep st) (thermalstat_sleep st) (iostat_sleep st) t
    (vmstat_prev st) (iostat_prev st) (vmstat_count st)
    (thermalstat_count st) (iostat_count st).

(** The configuration run as a whole: the knobs, then
    [stress_vmstat_start]. *)
Definition run_program (opts : list (knob * Z)) (fork_ret : Z)
    (fs : fs_view) (zones : zone_list) (e0 : wake_env)
    (wakes : list wake_env) : process -> result unit * list event :=
  fun p =>
    match configure opts p with
    | Returned _ p' => stress_vmstat_start fork_ret fs zones e0 wakes p'
    | Exited code p' => (Exited code p', [])
    end.

Definition in_range (v : Z) : bool := (1 <=? v) && (v <=? 3600).

(** The line [stress_set_generic_stat] writes to stderr for a knob. *)
Definition range_message (k : knob) : string :=
  knob_name k ++ " must in the range 1 to 3600.".

(** Every value of the option list is one the setters accept. *)
Definition all_in_range (opts : list (knob * Z)) : Prop :=
  Forall (fun o => in_range (snd o) = true) opts.

(** The state of the loop is one the worker can be in. *)
Definition state_wf (st : loop_state) : Prop :=
  vmstat_wf (vmstat_prev st) /\ iostat_wf (iostat_prev st).

(* ================================================================== *)
(** * Concrete inputs used by the examples *)
(* ================================================================== *)

(** A [/proc] of which only [/proc/stat] can be opened, with the lines
    given. *)
Definition procfs_of_stat (lines : list string) : procfs :=
  mk_procfs (Some lines) None None.

Definition quiet_env (t : float) (files : procfs) : wake_env :=
  mk_wake_env t 100 2 files None true [] (0, 0, 0)%float None.

Definition no_procfs : procfs := mk_procfs None None None.

(** A process whose knobs have been set to [c]. *)
Definition process_with (c : config) : process :=
  mk_process c false [] 0%nat 0.

(** A vmstat line with 50% user, 25% system and 25% idle time. *)
Definition line_50_25_25 : vmstat_line :=
  mk_vmstat_line 0 0 0 0 0 0 0 0 0 0 0 0 50 25 25 0 0.

(** A vmstat line reporting 10 context switches per second. *)
Definition line_cs_10 : vmstat_line :=
  mk_vmstat_line 0 0 0 0 0 0 0 0 0 0 0 10 0 0 0 0 0.

(** No block device can be found: [realpath] fails. *)
Definition fs_nothing : fs_view :=
  mk_fs None (fun _ => None) (fun _ => false).

(** The temporary path is on [/dev/sda12], and [/sys/block/sda/stat]
    exists. *)
Definition fs_sda : fs_view :=
  mk_fs (Some "/tmp") (fun _ => Some "/dev/sda12")
        (fun s => String.eqb s "/sys/block/sda/stat").

(* ================================================================== *)
(** * The text of the [/proc] tables *)
(* ================================================================== *)

(** The decimal numeral of a number, as the kernel prints it. *)
Definition decimal (n : N) : string :=
  DecimalString.NilZero.string_of_uint (N.to_uint n).

(** The value of a digit sequence read left to right, from [acc]. *)
Fixpoint uint_val (acc : Z) (u : Decimal.uint) : Z :=
  match u with
  | Decimal.Nil => acc
  | Decimal.D0 l => uint_val (10 * acc + 0) l
  | Decimal.D1 l => uint_val (10 * acc + 1) l
  | Decimal.D2 l => uint_val (10 * acc + 2) l
  | Decimal.D3 l => uint_val (10 * acc + 3) l
  | Decimal.D4 l => uint_val (10 * acc + 4) l
  | Decimal.D5 l => uint_val (10 * acc + 5) l
  | Decimal.D6 l => uint_val (10 * acc + 6) l
  | Decimal.D7 l => uint_val (10 * acc + 7) l
  | Decimal.D8 l => uint_val (10 * acc + 8) l
  | Decimal.D9 l => uint_val (10 * acc + 9) l
  end.

(** The line feed that ends a line. *)
Definition newline : string := String (ascii_of_nat 10) EmptyString.

(** [n] spaces. *)
Fixpoint spaces (n : nat) : string :=
  match n with
  | O => EmptyString
  | S n' => String " "%char (spaces n')
  end.

(** The string holds no space; the string holds spaces only. *)
Fixpoint no_blank (s : string) : bool :=
  match s with
  | EmptyString => true
  | String c r => negb (is_space_char c) && no_blank r
  end.

Fixpoint all_blank (s : string) : bool :=
  match s with
  | EmptyString => true
  | String c r => is_space_char c && all_blank r
  end.

(** The string is empty or begins with something else than a digit: a
    number in front of it ends there. *)
Definition ends_number (s : string) : bool :=
  match s with
  | EmptyString => true
  | String c _ => negb (isdigit c)
  end.

(** The numbers of a [/proc/stat] line, each after one space. *)
Fixpoint stat_fields (ns : list N) : string :=
  match ns with
  | [] => EmptyString
  | n :: rest => String " "%char (decimal n ++ stat_fields rest)
  end.

(** A per-cpu line of [/proc/stat]: ["cpu"], the cpu number [id], the
    tick counts, a line feed. *)
Definition cpu_line (id : string) (ns : list N) : string :=
  "cpu" ++ id ++ stat_fields ns ++ newline.

(** A line of [/proc/meminfo]: the key, a colon, padding, the value and
    its unit. *)
Definition meminfo_line (key : string) (pad : nat) (n : N) : string :=
  key ++ ":" ++ spaces pad ++ decimal n ++ " kB" ++ newline.

(** The stores of the ["cpu"] block, column by column. *)
Definition cpu_ops : list store_op :=
  [ OpAdd Fuser_time; OpAdd Fuser_time; OpAdd Fsystem_time;
    OpAdd Fidle_time; OpAdd Fwait_time; OpAdd Fsystem_time;
    OpAdd Fsystem_time; OpAdd Fstolen_time; OpAdd Fstolen_time;
    OpAdd Fstolen_time; OpNone ].

(** The stores applied to the numbers of a line, column by column. *)
Fixpoint apply_ops (ops : list store_op) (ns : list N)
    (v : stress_vmstat_t) : stress_vmstat_t :=
  match ops, ns with
  | op :: ops', n :: ns' => apply_ops ops' ns' (apply_op op (Z.of_N n) v)
  | _, _ => v
  end.

(** The keys of a table. *)
Definition block_keys (blocks : list (string * list store_op))
  : list string :=
  map fst blocks.

(** No key of the table begins the line. *)
Definition no_key_matches (blocks : list (string * list store_op))
    (buffer : string) : Prop :=
  Forall (fun key => String.prefix key buffer = false) (block_keys blocks).

(* ================================================================== *)
(** * Reading an option list *)
(* ================================================================== *)

(** The delay a knob ends with: the value of its last occurrence in the
    option list, or [d] when it does not occur. *)
Fixpoint last_setting (k : knob) (opts : list (knob * Z)) (d : Z) : Z :=
  match opts with
  | [] => d
  | (k', v) :: rest => last_setting k rest (if knob_eqb k k' then v else d)
  end.

(** The thermalstat knob occurs in the option list. *)
Definition thermalstat_given (opts : list (knob * Z)) : bool :=
  existsb (fun o => knob_eqb KThermalstat (fst o)) opts.

(** The data lines of an output. *)
Definition data_lines (evs : list event) : list event :=
  filter (fun x => negb (is_header x)) evs.

(* ================================================================== *)
(** * Stopping the worker: [stress_vmstat_stop] *)
(* ================================================================== *)

(** The system calls [stress_vmstat_stop] makes. *)
Inductive syscall : Type :=
  | SysKill (pid : Z)       (* kill(pid, SIGKILL) *)
  | SysWaitpid (pid : Z).   (* waitpid(pid, &status, 0) *)

(** [stress_vmstat_stop()]: the process after it (it writes nothing) and
    the calls made. *)
Definition stress_vmstat_stop (p : process) : process * list syscall :=
  if vmstat_pid p >? 0
  then (p, [SysKill (vmstat_pid p); SysWaitpid (vmstat_pid p)])
  else (p, []).

(** Some source has an interval. *)
Definition any_source (c : config) : bool :=
  negb ((vmstat_delay c =? 0) && (thermalstat_delay c =? 0)
        && (iostat_delay c =? 0)).

(* ================================================================== *)
(** * The device of a path: [stress_find_mount_dev] (Linux variant) *)
(* ================================================================== *)

(** What [stat] reports of a path, as far as the function looks. *)
Record stat_buf : Type := mk_stat {
  st_is_device : bool;   (* S_ISBLK(st_mode) || S_ISCHR(st_mode) *)
  st_dev : Z;
  st_rdev : Z
}.

(** An entry of the mount table, [struct mntent]. *)
Record mntent : Type := mk_mntent {
  mnt_fsname : string;
  mnt_dir : string
}.

(** The file system as the function sees it: [stat], the two mount tables
    [setmntent] may open, and [realpath]. *)
Record mount_view : Type := mk_mount_view {
  sys_stat : string -> option stat_buf;
  proc_mounts : option (list mntent);
  etc_mtab : option (list mntent);
  sys_realpath : string -> option string
}.

Definition begins_with_slash (s : string) : bool :=
  match s with
  | String c _ => Ascii.eqb c "/"%char
  | EmptyString => false
  end.

(** The three tests of the loop body that [break]. *)
Definition mount_matches (m : mount_view) (name : string) (dev : Z)
    (mnt : mntent) : bool :=
  (String.eqb name (mnt_dir mnt) || String.eqb name (mnt_fsname mnt))
  || (begins_with_slash (mnt_fsname mnt)
      && match sys_stat m (mnt_fsname mnt) with
         | Some sb => st_rdev sb =? dev
         | None => false
         end)
  || match sys_stat m (mnt_dir mnt) with
     | Some sb => st_dev sb =? dev
     | None => false
     end.

(** [while ((mnt = getmntent(mtab_fp))) { ... }]: the entry the loop
    stops at. *)
Fixpoint getmntent_loop (m : mount_view) (name : string) (dev : Z)
    (table : list mntent) : option mntent :=
  match table with
  | [] => None
  | mnt :: rest =>
      if mount_matches m name dev mnt then Some mnt
      else getmntent_loop m name dev rest
  end.

(** [setmntent("/proc/mounts", "r")], then ["/etc/mtab"]. *)
Definition open_mount_table (m : mount_view) : option (list mntent) :=
  match proc_mounts m with
  | Some table => Some table
  | None => etc_mtab m
  end.

Definition stress_find_mount_dev (m : mount_view) (name : string)
  : option string :=
  match sys_stat m name with
  | None => None
  | Some statbuf =>
      let dev := if st_is_device statbuf then st_rdev statbuf
                 else st_dev statbuf in
      match open_mount_table m with
      | None => None
      | Some table =>
          match getmntent_loop m name dev table with
          | None => None
          | Some mnt => sys_realpath m (mnt_fsname mnt)
          end
      end
  end.

(* ================================================================== *)
(** * The cpu frequencies: [stress_get_cpu_ghz] (Linux variant) *)
(* ================================================================== *)

(** Modelled from the spec: [ONE_MILLIONTH] is a constant of
    [stress-ng.h]; the factor from the kHz of [scaling_cur_freq] to the
    GHz reported, the double nearest to 1.0E-6. *)
Definition ONE_MILLIONTH : float := 0x1.0c6f7a0b5ed8dp-20%float.

(** [DBL_MAX] of [float.h]. *)
Definition DBL_MAX : float := 0x1.fffffffffffffp+1023%float.

(** An entry of [/sys/devices/system/cpu]: its name, and what [fopen] and
    [fscanf] give of its [cpufreq/scaling_cur_freq] ([None] when either
    fails). *)
Record cpu_entry : Type := mk_cpu_entry {
  d_name : string;
  scaling_cur_freq : option float
}.

(** [!strncmp(name, "cpu", 3) && isdigit(name[3])] *)
Definition is_cpu_dir (name : string) : bool :=
  String.prefix "cpu" name
  && match string_drop 3 name with
     | String c _ => isdigit c
     | EmptyString => false
     end.

(** [total_freq], [*min_ghz], [*max_ghz] and [n] during the loop. *)
Record ghz_acc : Type := mk_ghz_acc {
  total_freq : float;
  acc_min : float;
  acc_max : float;
  acc_n : Z
}.

Definition ghz_step (a : ghz_acc) (e : cpu_entry) : ghz_acc :=
  if is_cpu_dir (d_name e) then
    match scaling_cur_freq e with
    | Some freq =>
        if (0 <=? freq)%float then
          mk_ghz_acc (total_freq a + freq)%float
            (if (freq <? acc_min a)%float then freq else acc_min a)
            (if (acc_max a <? freq)%float then freq else acc_max a)
            (wrap_i32 (acc_n a + 1))
        else a
    | None => a
    end
  else a.

(** [stress_get_cpu_ghz(&avg, &min, &max)] over the entries [scandir]
    lists (none when it fails): the three values, in that order. *)
Definition stress_get_cpu_ghz (entries : list cpu_entry)
  : float * float * float :=
  let a := fold_left ghz_step entries (mk_ghz_acc 0 DBL_MAX 0 0) in
  if acc_n a =? 0 then (0, 0, 0)%float
  else ((total_freq a / Z_to_double (acc_n a)) * ONE_MILLIONTH,
        acc_min a * ONE_MILLIONTH,
        acc_max a * ONE_MILLIONTH)%float.

(** The entry contributes a frequency. *)
Definition usable_cpu_entry (e : cpu_entry) : bool :=
  is_cpu_dir (d_name e)
  && match scaling_cur_freq e with
     | Some freq => (0 <=? freq)%float
     | None => false
     end.

(* ================================================================== *)
(** * The ping socket stressor: [stress_ping_sock] *)
(* ================================================================== *)

Definition wrap_u16 (z : Z) : Z := z mod 2 ^ 16.

Definition PING_PAYLOAD_SIZE : nat := 4.

(** [static const char data[64]] *)
Definition ping_data : string :=
  "0123456789ABCDEFGHIJKLMNOPQRSTUVWXYZabcdefghijklmnopqrstuvwxyz@!".

(** [data[i]], for [i] in 0..63. *)
Definition ping_data_at (i : Z) : ascii :=
  match String.get (Z.to_nat i) ping_data with
  | Some c => c
  | None => Ascii.zero
  end.

(** Why [socket] failed, as far as the function tells the cases apart. *)
Inductive socket_errno : Type :=
  | EPROTONOSUPPORT | EPERM | EACCES | EOTHER.

(** The value the stressor returns. *)
Inductive stressor_rc : Type :=
  | RC_EXIT_SUCCESS | RC_EXIT_FAILURE | RC_EXIT_NOT_IMPLEMENTED.

(** One [sendto]: the port given to [htons], the echo sequence number and
    the payload. *)
Record ping_packet : Type := mk_ping_packet {
  pk_port : Z;
  pk_sequence : Z;
  pk_payload : list ascii
}.

(** The variables of the loop: [j], the sequence number in the header,
    [rand_port] and the bogo operations counter. *)
Record ping_state : Type := mk_ping_state {
  ps_j : Z;            (* int *)
  ps_sequence : Z;     (* uint16_t *)
  ps_rand_port : Z;    (* int *)
  ps_counter : Z       (* uint64_t *)
}.

(** The body of the [do { ... } while (keep_stressing(args))] loop;
    [sent] is what [sendto] returns. *)
Definition ping_step (st : ping_state) (sent : Z)
  : ping_state * ping_packet :=
  let payload := repeat (ping_data_at (Z.land (ps_j st) 63))
                        PING_PAYLOAD_SIZE in
  let pkt := mk_ping_packet (wrap_u16 (ps_rand_port st)) (ps_sequence st)
                            payload in
  let counter := if sent >? 0 then wrap_u64 (ps_counter st + 1)
                 else ps_counter st in
  let port := ps_rand_port st + 1 in
  (mk_ping_state (wrap_i32 (ps_j st + 1))
                 (wrap_u16 (ps_sequence st + 1))
                 (if port >? 65535 then 0 else port)
                 counter,
   pkt).

Fixpoint ping_loop (st : ping_state) (sents : list Z)
  : ping_state * list ping_packet :=
  match sents with
  | [] => (st, [])
  | sent :: rest =>
      let '(st1, pkt) := ping_step st sent in
      let '(st2, pkts) := ping_loop st1 rest in
      (st2, pkt :: pkts)
  end.

(** [stress_ping_sock(args)].  [sock] is what [socket] gives (the
    descriptor, or why it failed); [r] what [stress_mwc16modn] returns;
    [first] and [more] what the calls of [sendto] return, one per pass of
    the loop (the body runs once before [keep_stressing] is asked);
    [duration] the time the loop took.  The result: the return value, the
    packets sent, the counter and the rate metric. *)
Definition stress_ping_sock (sock : Z + socket_errno) (r : Z)
    (first : Z) (more : list Z) (duration : float)
  : stressor_rc * list ping_packet * Z * float :=
  match sock with
  | inr EPROTONOSUPPORT => (RC_EXIT_NOT_IMPLEMENTED, [], 0, 0%float)
  | inr EPERM | inr EACCES => (RC_EXIT_NOT_IMPLEMENTED, [], 0, 0%float)
  | inr EOTHER => (RC_EXIT_FAILURE, [], 0, 0%float)
  | inl fd =>
      let st0 := mk_ping_state 0 1 (1024 + r) 0 in
      let '(st, pkts) := ping_loop st0 (first :: more) in
      let rate := if (0 <? duration)%float
                  then (Z_to_double (ps_counter st) / duration)%float
                  else 0%float in
      (RC_EXIT_SUCCESS, pkts, ps_counter st, rate)
  end.

(** The parts of the result of [stress_ping_sock]. *)
Definition ping_rc (res : stressor_rc * list ping_packet * Z * float)
  : stressor_rc := fst (fst (fst res)).

Definition ping_packets (res : stressor_rc * list ping_packet * Z * float)
  : list ping_packet := snd (fst (fst res)).

Definition ping_counter (res : stressor_rc * list ping_packet * Z * float)
  : Z := snd (fst res).

(** The calls of [sendto] that sent something. *)
Definition sent_count (sents : list Z) : nat :=
  List.length (filter (fun s => s >? 0) sents).

(** The string holds digits only. *)
Fixpoint digits_only (s : string) : bool :=
  match s with
  | EmptyString => true
  | String c r => isdigit c && digits_only r
  end.

(* ================================================================== *)
(** * Machine arithmetic: basic facts *)
(* ================================================================== *)

Lemma wrap_u64_is_u64 (z : Z) : is_u64 (wrap_u64 z).
Proof. unfold is_u64, wrap_u64. apply Z.mod_pos_bound. lia. Qed.

Lemma wrap_u64_small (z : Z) : is_u64 z -> wrap_u64 z = z.
Proof. unfold is_u64, wrap_u64. intros H. apply Z.mod_small. exact H. Qed.

Lemma wrap_u32_small (z : Z) : 0 <= z < 2 ^ 32 -> wrap_u32 z = z.
Proof. unfold wrap_u32. intros H. apply Z.mod_small. exact H. Qed.

Lemma wrap_i32_small (z : Z) : is_i32 z -> wrap_i32 z = z.
Proof.
  unfold is_i32, wrap_i32. intros H.
  rewrite Z.mod_small by lia. lia.
Qed.

Lemma wrap_i64_small (z : Z) : - 2 ^ 63 <= z < 2 ^ 63 -> wrap_i64 z = z.
Proof.
  unfold wrap_i64. intros H.
  rewrite Z.mod_small by lia. lia.
Qed.

Lemma is_u64_0 : is_u64 0.
Proof. unfold is_u64. lia. Qed.

(** The clamp of the delta macro is [max(current - previous, 0)], and the
    subtraction never wraps. *)
Lemma STRESS_DELTA_spec (current prev : Z) :
  is_u64 current -> is_u64 prev ->
  STRESS_DELTA current prev = spec_delta current prev.
Proof.
  unfold STRESS_DELTA, spec_delta, is_u64. intros Hc Hp.
  destruct (Z.gtb_spec current prev) as [Hgt | Hle].
  - rewrite wrap_u64_small by (unfold is_u64; lia). lia.
  - lia.
Qed.

Lemma STRESS_DELTA_is_u64 (current prev : Z) :
  is_u64 (STRESS_DELTA current prev).
Proof.
  unfold STRESS_DELTA. destruct (current >? prev).
  - apply wrap_u64_is_u64.
  - apply is_u64_0.
Qed.

(* ================================================================== *)
(** * The structures: field access *)
(* ================================================================== *)

Lemma vmstat_field_eq_dec (f g : vmstat_field) : {f = g} + {f <> g}.
Proof. decide equality. Defined.

Lemma vmstat_get_set_same (f : vmstat_field) (x : Z) (v : stress_vmstat_t) :
  vmstat_get f (vmstat_set f x v) = x.
Proof. destruct v, f; reflexivity. Qed.

Lemma vmstat_get_set_other (f g : vmstat_field) (x : Z)
    (v : stress_vmstat_t) :
  f <> g -> vmstat_get f (vmstat_set g x v) = vmstat_get f v.
Proof. intros Hne. destruct v, f, g; try reflexivity; congruence. Qed.

Lemma vmstat_zero_wf : vmstat_wf vmstat_zero.
Proof. intros f. destruct f; apply is_u64_0. Qed.

Lemma iostat_zero_wf : iostat_wf iostat_zero.
Proof. intros f. destruct f; apply is_u64_0. Qed.

Lemma vmstat_set_wf (f : vmstat_field) (x : Z) (v : stress_vmstat_t) :
  is_u64 x -> vmstat_wf v -> vmstat_wf (vmstat_set f x v).
Proof.
  intros Hx Hv g.
  destruct (vmstat_field_eq_dec g f) as [-> | Hne].
  - rewrite vmstat_get_set_same. exact Hx.
  - rewrite vmstat_get_set_other by exact Hne. apply Hv.
Qed.

Lemma apply_op_wf (op : store_op) (x : Z) (v : stress_vmstat_t) :
  is_u64 x -> vmstat_wf v -> vmstat_wf (apply_op op x v).
Proof.
  intros Hx Hv. destruct op as [f | f |]; simpl.
  - apply vmstat_set_wf; assumption.
  - unfold vmstat_add. apply vmstat_set_wf; [apply wrap_u64_is_u64 | exact Hv].
  - exact Hv.
Qed.

(* ================================================================== *)
(** * The readers keep every field a [uint64_t] *)
(* ================================================================== *)

Lemma read_fields_wf (ops : list store_op) :
  forall ptr v, vmstat_wf v -> vmstat_wf (snd (read_fields ops ptr v)).
Proof.
  induction ops as [| op ops IH]; intros ptr v Hv; simpl.
  - exact Hv.
  - destruct (stress_next_field ptr) as [p |]; simpl.
    + apply IH. apply apply_op_wf; [apply wrap_u64_is_u64 | exact Hv].
    + exact Hv.
Qed.

Lemma read_line_wf (blocks : list (string * list store_op)) :
  forall buffer ptr v, vmstat_wf v -> vmstat_wf (read_line blocks buffer ptr v).
Proof.
  induction blocks as [| [key ops] rest IH]; intros buffer ptr v Hv; simpl.
  - exact Hv.
  - destruct (String.prefix key buffer).
    + pose proof (read_fields_wf ops ptr v Hv) as Hw.
      destruct (read_fields ops ptr v) as [[cont p] v1]; simpl in Hw.
      destruct cont; [exact Hw | apply IH; exact Hw].
    + apply IH. exact Hv.
Qed.

Lemma fold_left_wf (step : stress_vmstat_t -> string -> stress_vmstat_t) :
  (forall v s, vmstat_wf v -> vmstat_wf (step v s)) ->
  forall lines v, vmstat_wf v -> vmstat_wf (fold_left step lines v).
Proof.
  intros Hstep lines. induction lines as [| l lines IH]; intros v Hv; simpl.
  - exact Hv.
  - apply IH. apply Hstep. exact Hv.
Qed.

Lemma derive_swap_used_wf (v : stress_vmstat_t) :
  vmstat_wf v -> vmstat_wf (derive_swap_used v).
Proof.
  intros Hv. unfold derive_swap_used.
  destruct ((swap_used v =? 0) && (swap_free v >? 0) && (swap_total v >? 0)).
  - apply vmstat_set_wf; [apply wrap_u64_is_u64 | exact Hv].
  - exact Hv.
Qed.

Lemma read_proc_stat_wf (file : option (list string)) (v : stress_vmstat_t) :
  vmstat_wf v -> vmstat_wf (read_proc_stat file v).
Proof.
  intros Hv. destruct file as [lines |]; simpl; [| exact Hv].
  apply fold_left_wf; [| exact Hv].
  intros w s Hw. unfold read_proc_stat_line.
  destruct (String.prefix "cpu " s); [exact Hw | apply read_line_wf; exact Hw].
Qed.

Lemma read_proc_meminfo_wf (file : option (list string))
    (v : stress_vmstat_t) :
  vmstat_wf v -> vmstat_wf (read_proc_meminfo file v).
Proof.
  intros Hv. destruct file as [lines |]; simpl; [| exact Hv].
  unfold read_meminfo, parse_meminfo. apply derive_swap_used_wf.
  apply fold_left_wf; [| exact Hv].
  intros w s Hw. apply read_line_wf. exact Hw.
Qed.

Lemma read_proc_vmstat_wf (file : option (list string))
    (v : stress_vmstat_t) :
  vmstat_wf v -> vmstat_wf (read_proc_vmstat file v).
Proof.
  intros Hv. destruct file as [lines |]; simpl; [| exact Hv].
  apply fold_left_wf; [| exact Hv].
  intros w s Hw. apply read_line_wf. exact Hw.
Qed.

Lemma stress_read_vmstat_wf (files : procfs) (v : stress_vmstat_t) :
  vmstat_wf v -> vmstat_wf (stress_read_vmstat files v).
Proof.
  intros Hv. unfold stress_read_vmstat.
  apply read_proc_vmstat_wf, read_proc_meminfo_wf, read_proc_stat_wf.
  exact Hv.
Qed.

Lemma stress_read_iostat_wf (scan : option (list Z)) (io : stress_iostat_t) :
  iostat_wf io -> iostat_wf (stress_read_iostat scan io).
Proof.
  intros Hio. unfold stress_read_iostat.
  destruct scan as [l |]; [| exact Hio].
  do 15 (destruct l as [| ? l]; [apply iostat_zero_wf |]).
  intros f. destruct f; simpl; apply wrap_u64_is_u64.
Qed.

(* ================================================================== *)
(** * The delta engines *)
(* ================================================================== *)

Lemma stress_get_vmstat_prev (prev : stress_vmstat_t) (files : procfs) :
  snd (stress_get_vmstat prev files) = stress_read_vmstat files vmstat_zero.
Proof. reflexivity. Qed.

Lemma stress_get_iostat_prev (prev : stress_iostat_t) (scan : option (list Z)) :
  snd (stress_get_iostat prev scan) = stress_read_iostat scan iostat_zero.
Proof. reflexivity. Qed.

Lemma stress_get_vmstat_counter (prev : stress_vmstat_t) (files : procfs)
    (f : vmstat_field) :
  vmstat_wf prev -> vmstat_is_counter f = true ->
  vmstat_get f (fst (stress_get_vmstat prev files))
  = spec_delta (vmstat_get f (stress_read_vmstat files vmstat_zero))
               (vmstat_get f prev).
Proof.
  intros Hprev Hf.
  pose proof (stress_read_vmstat_wf files vmstat_zero vmstat_zero_wf) as Hcur.
  unfold stress_get_vmstat.
  set (cur := stress_read_vmstat files vmstat_zero) in *.
  destruct f; try discriminate Hf; cbn [fst vmstat_get swap_in swap_out
    block_in block_out interrupt context_switch user_time system_time
    idle_time wait_time stolen_time]; unfold STRESS_VMSTAT_DELTA;
    match goal with
    | |- STRESS_DELTA (?g cur) (?g prev) = _ =>
        apply STRESS_DELTA_spec;
        [ match goal with
          | |- is_u64 (swap_in _) => apply (Hcur Fswap_in)
          | |- is_u64 (swap_out _) => apply (Hcur Fswap_out)
          | |- is_u64 (block_in _) => apply (Hcur Fblock_in)
          | |- is_u64 (block_out _) => apply (Hcur Fblock_out)
          | |- is_u64 (interrupt _) => apply (Hcur Finterrupt)
          | |- is_u64 (context_switch _) => apply (Hcur Fcontext_switch)
          | |- is_u64 (user_time _) => apply (Hcur Fuser_time)
          | |- is_u64 (system_time _) => apply (Hcur Fsystem_time)
          | |- is_u64 (idle_time _) => apply (Hcur Fidle_time)
          | |- is_u64 (wait_time _) => apply (Hcur Fwait_time)
          | |- is_u64 (stolen_time _) => apply (Hcur Fstolen_time)
          end
        | match goal with
          | |- is_u64 (swap_in _) => apply (Hprev Fswap_in)
          | |- is_u64 (swap_out _) => apply (Hprev Fswap_out)
          | |- is_u64 (block_in _) => apply (Hprev Fblock_in)
          | |- is_u64 (block_out _) => apply (Hprev Fblock_out)
          | |- is_u64 (interrupt _) => apply (Hprev Finterrupt)
          | |- is_u64 (context_switch _) => apply (Hprev Fcontext_switch)
          | |- is_u64 (user_time _) => apply (Hprev Fuser_time)
          | |- is_u64 (system_time _) => apply (Hprev Fsystem_time)
          | |- is_u64 (idle_time _) => apply (Hprev Fidle_time)
          | |- is_u64 (wait_time _) => apply (Hprev Fwait_time)
          | |- is_u64 (stolen_time _) => apply (Hprev Fstolen_time)
          end ]
    end.
Qed.

Lemma stress_get_vmstat_gauge (prev : stress_vmstat_t) (files : procfs)
    (f : vmstat_field) :
  vmstat_is_counter f = false ->
  vmstat_get f (fst (stress_get_vmstat prev files))
  = vmstat_get f (stress_read_vmstat files vmstat_zero).
Proof.
  intros Hf. unfold stress_get_vmstat.
  destruct f; try discriminate Hf; reflexivity.
Qed.

Lemma stress_get_iostat_field (prev : stress_iostat_t)
    (scan : option (list Z)) (f : iostat_field) :
  iostat_wf prev ->
  iostat_get f (fst (stress_get_iostat prev scan))
  = spec_delta (iostat_get f (stress_read_iostat scan iostat_zero))
               (iostat_get f prev).
Proof.
  intros Hprev.
  pose proof (stress_read_iostat_wf scan iostat_zero iostat_zero_wf) as Hcur.
  unfold stress_get_iostat.
  set (cur := stress_read_iostat scan iostat_zero) in *.
  pose proof (Hcur f) as Hc. pose proof (Hprev f) as Hp.
  destruct f; cbn [fst iostat_get] in *; unfold STRESS_IOSTAT_DELTA;
    apply STRESS_DELTA_spec; assumption.
Qed.

Lemma stress_get_vmstat_wf (prev : stress_vmstat_t) (files : procfs) :
  vmstat_wf (fst (stress_get_vmstat prev files)).
Proof.
  pose proof (stress_read_vmstat_wf files vmstat_zero vmstat_zero_wf) as Hcur.
  unfold stress_get_vmstat.
  set (cur := stress_read_vmstat files vmstat_zero) in *.
  intros f. pose proof (Hcur f) as Hc.
  destruct f; cbn [fst vmstat_get] in *;
    first [ exact Hc | apply STRESS_DELTA_is_u64 ].
Qed.

(** C3.  For two consecutive snapshots of a source ([vprev], then [vcur];
    [iprev], then [icur]) every differenced field of what
    [stress_get_vmstat] and [stress_get_iostat] hand out is
    [max(current - previous, 0)]: 0 when the counter went down, the exact
    difference otherwise, never negative; and the current snapshot becomes
    the previous one. *)
Theorem delta_is_clamped_difference
    (files_prev files_cur : procfs) (scan_prev scan_cur : option (list Z)) :
  let vprev := stress_read_vmstat files_prev vmstat_zero in
  let vcur := stress_read_vmstat files_cur vmstat_zero in
  let iprev := stress_read_iostat scan_prev iostat_zero in
  let icur := stress_read_iostat scan_cur iostat_zero in
  let vdelta := fst (stress_get_vmstat vprev files_cur) in
  let idelta := fst (stress_get_iostat iprev scan_cur) in
  (forall f, vmstat_is_counter f = true ->
     vmstat_get f vdelta = Z.max (vmstat_get f vcur - vmstat_get f vprev) 0
     /\ (vmstat_get f vcur < vmstat_get f vprev -> vmstat_get f vdelta = 0)
     /\ (vmstat_get f vprev <= vmstat_get f vcur ->
         vmstat_get f vdelta = vmstat_get f vcur - vmstat_get f vprev)
     /\ 0 <= vmstat_get f vdelta)
  /\ (forall f,
     iostat_get f idelta = Z.max (iostat_get f icur - iostat_get f iprev) 0
     /\ (iostat_get f icur < iostat_get f iprev -> iostat_get f idelta = 0)
     /\ (iostat_get f iprev <= iostat_get f icur ->
         iostat_get f idelta = iostat_get f icur - iostat_get f iprev)
     /\ 0 <= iostat_get f idelta)
  /\ snd (stress_get_vmstat vprev files_cur) = vcur
  /\ snd (stress_get_iostat iprev scan_cur) = icur.
Proof.
  intros vprev vcur iprev icur vdelta idelta.
  assert (Hvp : vmstat_wf vprev)
    by (apply stress_read_vmstat_wf, vmstat_zero_wf).
  assert (Hip : iostat_wf iprev)
    by (apply stress_read_iostat_wf, iostat_zero_wf).
  split; [| split; [| split; reflexivity]].
  - intros f Hf.
    assert (E : vmstat_get f vdelta
                = Z.max (vmstat_get f vcur - vmstat_get f vprev) 0).
    { subst vdelta vcur.
      rewrite (stress_get_vmstat_counter vprev files_cur f Hvp Hf).
      reflexivity. }
    rewrite E. repeat split; lia.
  - intros f.
    assert (E : iostat_get f idelta
                = Z.max (iostat_get f icur - iostat_get f iprev) 0).
    { subst idelta icur.
      rewrite (stress_get_iostat_field iprev scan_cur f Hip).
      reflexivity. }
    rewrite E. repeat split; lia.
Qed.

(* ================================================================== *)
(** * What a reader leaves alone *)
(* ================================================================== *)

Lemma apply_op_frame (g : vmstat_field) (op : store_op) (x : Z)
    (v : stress_vmstat_t) :
  op_target op <> Some g ->
  vmstat_get g (apply_op op x v) = vmstat_get g v.
Proof.
  intros Hne. destruct op as [f | f |]; simpl in *.
  - apply vmstat_get_set_other. congruence.
  - unfold vmstat_add. apply vmstat_get_set_other. congruence.
  - reflexivity.
Qed.

Lemma read_fields_frame (g : vmstat_field) (ops : list store_op) :
  Forall (fun op => op_target op <> Some g) ops ->
  forall ptr v, vmstat_get g (snd (read_fields ops ptr v)) = vmstat_get g v.
Proof.
  induction 1 as [| op ops Hop Hops IH]; intros ptr v; simpl.
  - reflexivity.
  - destruct (stress_next_field ptr) as [p |]; simpl.
    + rewrite IH. apply apply_op_frame. exact Hop.
    + reflexivity.
Qed.

Lemma read_line_frame (g : vmstat_field)
    (blocks : list (string * list store_op)) :
  blocks_avoid g blocks ->
  forall buffer ptr v,
    vmstat_get g (read_line blocks buffer ptr v) = vmstat_get g v.
Proof.
  induction 1 as [| [key ops] rest Hb Hrest IH]; intros buffer ptr v; simpl.
  - reflexivity.
  - destruct (String.prefix key buffer).
    + pose proof (read_fields_frame g ops Hb ptr v) as Hf.
      destruct (read_fields ops ptr v) as [[cont p] v1]; simpl in Hf.
      destruct cont; [exact Hf | rewrite IH; exact Hf].
    + apply IH.
Qed.

Lemma fold_left_frame (g : vmstat_field)
    (step : stress_vmstat_t -> string -> stress_vmstat_t) :
  (forall v s, vmstat_get g (step v s) = vmstat_get g v) ->
  forall lines v, vmstat_get g (fold_left step lines v) = vmstat_get g v.
Proof.
  intros Hstep lines. induction lines as [| l lines IH]; intros v; simpl.
  - reflexivity.
  - rewrite IH. apply Hstep.
Qed.

Lemma proc_vmstat_blocks_avoid (g : vmstat_field) :
  g = Fswap_used \/ g = Fswap_free \/ g = Fswap_total ->
  blocks_avoid g proc_vmstat_blocks.
Proof.
  intros Hg. unfold blocks_avoid, proc_vmstat_blocks.
  repeat (apply Forall_cons || apply Forall_nil); simpl;
    destruct Hg as [-> | [-> | ->]]; discriminate.
Qed.

Lemma read_proc_vmstat_frame (g : vmstat_field)
    (file : option (list string)) (v : stress_vmstat_t) :
  g = Fswap_used \/ g = Fswap_free \/ g = Fswap_total ->
  vmstat_get g (read_proc_vmstat file v) = vmstat_get g v.
Proof.
  intros Hg. destruct file as [lines |]; simpl; [| reflexivity].
  apply fold_left_frame. intros w s.
  apply read_line_frame, proc_vmstat_blocks_avoid, Hg.
Qed.

Lemma derive_swap_used_spec (v : stress_vmstat_t) :
  swap_total (derive_swap_used v) = swap_total v
  /\ swap_free (derive_swap_used v) = swap_free v
  /\ (swap_used_missing v ->
      swap_used (derive_swap_used v) = wrap_u64 (swap_total v - swap_free v))
  /\ (~ swap_used_missing v ->
      swap_used (derive_swap_used v) = swap_used v).
Proof.
  unfold derive_swap_used, swap_used_missing.
  destruct (Z.eqb_spec (swap_used v) 0) as [Hu | Hu];
    destruct (Z.gtb_spec (swap_free v) 0) as [Hf | Hf];
    destruct (Z.gtb_spec (swap_total v) 0) as [Ht | Ht];
    cbn [andb]; destruct v; cbn in *;
    repeat split; intros; try reflexivity; try lia;
    exfalso; intuition lia.
Qed.

(** C10.  In the snapshot [stress_read_vmstat] builds, [swap_used] is
    [swap_total - swap_free] (a [uint64_t] subtraction, exact when the free
    swap does not exceed the total) when the memory table gave no swap-used
    value but positive [SwapFree] and [SwapTotal]; in every other case it is
    the value parsed, and when the table cannot be opened the field is left
    as it was. *)
Theorem swap_used_derived_when_missing (files : procfs)
    (v0 : stress_vmstat_t) :
  let v1 := read_proc_stat (proc_stat files) v0 in
  let snap := stress_read_vmstat files v0 in
  match proc_meminfo files with
  | Some lines =>
      let parsed := parse_meminfo lines v1 in
      swap_total snap = swap_total parsed
      /\ swap_free snap = swap_free parsed
      /\ (swap_used_missing parsed ->
          swap_used snap = wrap_u64 (swap_total parsed - swap_free parsed)
          /\ (vmstat_wf v0 -> swap_free parsed <= swap_total parsed ->
              swap_used snap = swap_total parsed - swap_free parsed))
      /\ (~ swap_used_missing parsed -> swap_used snap = swap_used parsed)
  | None => swap_used snap = swap_used v1
  end.
Proof.
  intros v1 snap. subst snap. unfold stress_read_vmstat. fold v1.
  pose proof (fun g Hg w => read_proc_vmstat_frame g (proc_vmstat files) w Hg)
    as Hframe.
  pose proof (Hframe Fswap_used (or_introl eq_refl)) as Hused.
  pose proof (Hframe Fswap_free (or_intror (or_introl eq_refl))) as Hfree.
  pose proof (Hframe Fswap_total (or_intror (or_intror eq_refl))) as Htotal.
  cbn [vmstat_get] in Hused, Hfree, Htotal.
  destruct (proc_meminfo files) as [lines |]; cbn [read_proc_meminfo].
  - unfold read_meminfo. set (parsed := parse_meminfo lines v1).
    rewrite Hused, Hfree, Htotal.
    destruct (derive_swap_used_spec parsed) as (Et & Ef & Em & En).
    split; [exact Et |]. split; [exact Ef |]. split.
    + intros Hm. split; [apply Em; exact Hm |].
      intros Hwf Hle. rewrite (Em Hm). apply wrap_u64_small.
      assert (Hp : vmstat_wf parsed).
      { subst parsed. unfold parse_meminfo. apply fold_left_wf.
        - intros w s Hw. apply read_line_wf. exact Hw.
        - subst v1. apply read_proc_stat_wf. exact Hwf. }
      pose proof (Hp Fswap_total) as B1. pose proof (Hp Fswap_free) as B2.
      unfold is_u64 in *. cbn [vmstat_get] in B1, B2. lia.
    + exact En.
  - apply Hused.
Qed.

(* ================================================================== *)
(** * The interval knobs *)
(* ================================================================== *)

Lemma in_range_false (v : Z) : in_range v = false <-> (v < 1 \/ 3600 < v).
Proof. unfold in_range. rewrite andb_false_iff, Z.leb_gt, Z.leb_gt. tauto. Qed.

Lemma in_range_guard (v : Z) : (v <? 1) || (v >? 3600) = negb (in_range v).
Proof.
  unfold in_range. rewrite negb_andb, Z.gtb_ltb.
  rewrite <- !Z.ltb_antisym. reflexivity.
Qed.

(** An accepted value: the setter stores it and returns 0. *)
Lemma stress_set_knob_accepts (k : knob) (v : Z) (p : process) :
  in_range v = true ->
  exists p',
    stress_set_knob k v p = Returned 0 p'
    /\ delays p' = set_delay k v (delays p)
    /\ stderr p' = stderr p /\ forks p' = forks p
    /\ vmstat_pid p' = vmstat_pid p.
Proof.
  intros Hv.
  destruct k; cbn [stress_set_knob]; unfold stress_set_vmstat,
    stress_set_thermalstat, stress_set_iostat, stress_set_generic_stat;
    rewrite in_range_guard, Hv; cbn [negb];
    eexists; (split; [reflexivity |]); cbn; repeat split; reflexivity.
Qed.

(** A rejected value: the message goes to stderr and the process ends,
    with no return to the caller. *)
Lemma stress_set_knob_rejects (k : knob) (v : Z) (p : process) :
  in_range v = false ->
  exists p',
    stress_set_knob k v p = Exited EXIT_FAILURE p'
    /\ stderr p' = stderr p ++ [range_message k]
    /\ forks p' = forks p /\ vmstat_pid p' = vmstat_pid p.
Proof.
  intros Hv.
  destruct k; cbn [stress_set_knob]; unfold stress_set_vmstat,
    stress_set_thermalstat, stress_set_iostat, stress_set_generic_stat;
    rewrite in_range_guard, Hv; cbn [negb];
    eexists; (split; [reflexivity |]); cbn; repeat split; reflexivity.
Qed.

Lemma get_set_delay_other (k k' : knob) (v : Z) (c : config) :
  k <> k' -> get_delay k (set_delay k' v c) = get_delay k c.
Proof. intros Hne. destruct k, k'; try reflexivity; congruence. Qed.

(** Accepted knobs are all applied, and leave stderr and [fork] alone. *)
Lemma configure_accepts (opts : list (knob * Z)) :
  all_in_range opts ->
  forall p, exists p',
    configure opts p = Returned tt p'
    /\ stderr p' = stderr p /\ forks p' = forks p
    /\ vmstat_pid p' = vmstat_pid p
    /\ (forall k, ~ In k (map fst opts) ->
        get_delay k (delays p') = get_delay k (delays p)).
Proof.
  induction 1 as [| [k v] rest Hv Hrest IH]; intros p.
  - exists p. cbn. repeat split; reflexivity.
  - cbn [snd] in Hv.
    destruct (stress_set_knob_accepts k v p Hv) as (p1 & E1 & D1 & S1 & F1 & V1).
    destruct (IH p1) as (p2 & E2 & S2 & F2 & V2 & D2).
    exists p2. cbn [configure]. unfold bind. rewrite E1, E2.
    split; [reflexivity |]. split; [congruence |]. split; [congruence |].
    split; [congruence |].
    intros k0 Hk0. cbn [map fst In] in Hk0.
    rewrite D2 by tauto. rewrite D1. apply get_set_delay_other.
    intros ->. tauto.
Qed.

(** The first rejected knob ends the configuration. *)
Lemma configure_rejects (pre post : list (knob * Z)) (k : knob) (v : Z) :
  all_in_range pre -> in_range v = false ->
  forall p, exists p',
    configure (pre ++ (k, v) :: post) p = Exited EXIT_FAILURE p'
    /\ stderr p' = stderr p ++ [range_message k]
    /\ forks p' = forks p /\ vmstat_pid p' = vmstat_pid p.
Proof.
  intros Hpre Hv. induction Hpre as [| [k1 v1] rest Hv1 Hrest IH]; intros p.
  - cbn [app configure]. unfold bind.
    destruct (stress_set_knob_rejects k v p Hv) as (p' & E & S' & F & V).
    exists p'. rewrite E. repeat split; assumption.
  - cbn [snd] in Hv1. cbn [app configure]. unfold bind.
    destruct (stress_set_knob_accepts k1 v1 p Hv1) as (p1 & E1 & _ & S1 & F1 & V1).
    destruct (IH p1) as (p2 & E2 & S2 & F2 & V2).
    exists p2. rewrite E1, E2.
    split; [reflexivity |]. repeat split; congruence.
Qed.

(** C6.  A knob value outside [1, 3600] is fatal at configuration time:
    whatever knobs follow it and whatever [fork] would have returned, the
    run ends in [_exit(EXIT_FAILURE)] with the range message on stderr,
    [fork] is never called (no sampling worker exists) and nothing is
    sampled. *)
Theorem out_of_range_interval_is_fatal
    (pre post : list (knob * Z)) (k : knob) (v : Z)
    (fork_ret : Z) (fs : fs_view) (zones : zone_list) (e0 : wake_env)
    (wakes : list wake_env) (p : process) :
  all_in_range pre ->
  v < 1 \/ 3600 < v ->
  exists p',
    run_program (pre ++ (k, v) :: post) fork_ret fs zones e0 wakes p
    = (Exited EXIT_FAILURE p', [])
    /\ stderr p' = stderr p ++ [range_message k]
    /\ forks p' = forks p
    /\ vmstat_pid p' = vmstat_pid p.
Proof.
  intros Hpre Hv. apply in_range_false in Hv.
  destruct (configure_rejects pre post k v Hpre Hv p) as (p' & E & S' & F & V).
  exists p'. unfold run_program. rewrite E.
  split; [reflexivity |]. repeat split; assumption.
Qed.

Lemma out_of_range_interval_is_fatal_witness :
  exists p',
    run_program ([(KVmstat, 5)] ++ (KIostat, 4000) :: [(KThermalstat, 7)])
      0 fs_sda [] (quiet_env 0 no_procfs) [quiet_env 5 no_procfs]
      process_init
    = (Exited EXIT_FAILURE p', [])
    /\ stderr p' = stderr process_init ++ [range_message KIostat]
    /\ forks p' = forks process_init
    /\ vmstat_pid p' = vmstat_pid process_init.
Proof.
  apply (out_of_range_interval_is_fatal [(KVmstat, 5)] [(KThermalstat, 7)]
           KIostat 4000 0 fs_sda [] (quiet_env 0 no_procfs)
           [quiet_env 5 no_procfs] process_init).
  - repeat constructor.
  - right. lia.
Defined.

(** C4, as the code has it.  The value 0 given to a knob is rejected like
    any other value below 1: the range message is written and the process
    ends with [EXIT_FAILURE].  A source is disabled by leaving its knob
    out: its delay then keeps the initial 0, and that is no error. *)
Theorem zero_interval_is_rejected (k : knob) (p : process) :
  (exists p',
     stress_set_knob k 0 p = Exited EXIT_FAILURE p'
     /\ stderr p' = stderr p ++ [range_message k]
     /\ forks p' = forks p)
  /\ (forall opts,
        all_in_range opts /\ ~ In k (map fst opts) ->
        exists p',
          configure opts process_init = Returned tt p'
          /\ get_delay k (delays p') = 0
          /\ stderr p' = []).
Proof.
  split.
  - destruct (stress_set_knob_rejects k 0 p) as (p' & E & S' & F & _).
    + reflexivity.
    + exists p'. repeat split; assumption.
  - intros opts [Hr Hk].
    destruct (configure_accepts opts Hr process_init)
      as (p' & E & S' & _ & _ & D).
    exists p'. split; [exact E |]. split; [| exact S'].
    rewrite (D k Hk). destruct k; reflexivity.
Qed.

(** C4, as stated, fails: [--vmstat 0] on a fresh process does not return
    to the caller with the source disabled; the process exits with
    [EXIT_FAILURE] after the range message. *)
Lemma zero_interval_counterexample :
  stress_set_vmstat 0 process_init
  = Exited EXIT_FAILURE
      (mk_process (mk_config 0 0 0) false
         ["vmstat must in the range 1 to 3600."] 0%nat 0)
  /\ ~ (exists p', stress_set_vmstat 0 process_init = Returned 0 p').
Proof.
  split.
  - reflexivity.
  - intros [p' H]. discriminate H.
Qed.

(** C7.  With the three delays 0, [stress_vmstat_start] returns to its
    caller at once: the process is unchanged ([fork] is not called,
    [vmstat_pid] is not written) and nothing is read, slept or printed,
    whatever [fork] and the machine would have answered. *)
Theorem start_is_noop_when_all_disabled
    (fork_ret : Z) (fs : fs_view) (zones : zone_list) (e0 : wake_env)
    (wakes : list wake_env) (p : process) :
  vmstat_delay (delays p) = 0 ->
  thermalstat_delay (delays p) = 0 ->
  iostat_delay (delays p) = 0 ->
  stress_vmstat_start fork_ret fs zones e0 wakes p = (Returned tt p, [])
  /\ forks (final_process
              (fst (stress_vmstat_start fork_ret fs zones e0 wakes p)))
     = forks p.
Proof.
  intros Hv Ht Hi.
  assert (E : stress_vmstat_start fork_ret fs zones e0 wakes p
              = (Returned tt p, [])).
  { unfold stress_vmstat_start. rewrite Hv, Ht, Hi. reflexivity. }
  split; [exact E |]. rewrite E. reflexivity.
Qed.

Lemma start_is_noop_when_all_disabled_witness :
  stress_vmstat_start 0 fs_sda [] (quiet_env 0 no_procfs)
    [quiet_env 1 no_procfs; quiet_env 2 no_procfs] process_init
  = (Returned tt process_init, [])
  /\ forks (final_process
              (fst (stress_vmstat_start 0 fs_sda [] (quiet_env 0 no_procfs)
                      [quiet_env 1 no_procfs; quiet_env 2 no_procfs]
                      process_init)))
     = forks process_init.
Proof.
  apply (start_is_noop_when_all_disabled 0 fs_sda [] (quiet_env 0 no_procfs)
           [quiet_env 1 no_procfs; quiet_env 2 no_procfs] process_init);
    reflexivity.
Defined.

(* ================================================================== *)
(** * The scheduler: what a pass does to the countdowns *)
(* ================================================================== *)

Lemma loop_step_sleep (k : knob) (c : config) (zones : zone_list)
    (st : loop_state) (e : wake_env) :
  get_sleep k (fst (loop_step c zones st e))
  = countdown (get_delay k c) (get_sleep k st) (sleep_delay c).
Proof.
  unfold loop_step.
  destruct (sleep_part c st e) as [t1' ev_sleep].
  destruct (vmstat_part c _ st e) as [[ev_vm vprev] vcount].
  destruct (therm_part c zones _ st e) as [ev_th tcount].
  destruct (iostat_part c _ st e) as [[ev_io iprev] icount].
  destruct k; reflexivity.
Qed.

Lemma countdown_iter_shift (d sd : Z) (n : nat) (s : Z) :
  countdown_iter d sd n (countdown d s sd)
  = countdown d (countdown_iter d sd n s) sd.
Proof.
  induction n as [| n IH]; simpl.
  - reflexivity.
  - rewrite IH. reflexivity.
Qed.

Lemma run_loop_sleep (k : knob) (c : config) (zones : zone_list)
    (wakes : list wake_env) :
  forall st,
    get_sleep k (fst (run_loop c zones st wakes))
    = countdown_iter (get_delay k c) (sleep_delay c) (List.length wakes)
        (get_sleep k st).
Proof.
  induction wakes as [| e rest IH]; intros st.
  - reflexivity.
  - cbn [run_loop List.length].
    pose proof (loop_step_sleep k c zones st e) as Hs.
    destruct (loop_step c zones st e) as [st1 ev1]. cbn [fst] in Hs.
    specialize (IH st1).
    destruct (run_loop c zones st1 rest) as [st2 ev2]. cbn [fst] in *.
    rewrite IH, Hs. rewrite countdown_iter_shift. reflexivity.
Qed.

Lemma STRESS_MINIMUM_min (a b : Z) : STRESS_MINIMUM a b = Z.min a b.
Proof. unfold STRESS_MINIMUM. destruct (Z.ltb_spec a b); lia. Qed.

(** Case analysis on the [x_delay > 0] tests a goal branches on. *)
Ltac split_active :=
  repeat match goal with
         | |- context [if ?a >? ?b then _ else _] =>
             destruct (Z.gtb_spec a b); cbv iota
         end.

(** [sleep_delay] is the smallest positive delay. *)
Lemma sleep_delay_le (c : config) (k : knob) :
  config_ok c -> 0 < get_delay k c -> sleep_delay c <= get_delay k c.
Proof.
  unfold config_ok, sleep_delay, INT_MAX.
  intros (Hv & Ht & Hi) Hk. cbv zeta. rewrite !STRESS_MINIMUM_min.
  destruct k; cbn [get_delay] in *; split_active; lia.
Qed.

Lemma sleep_delay_attained (c : config) :
  config_ok c ->
  (exists k, 0 < get_delay k c) ->
  exists k, 0 < get_delay k c /\ sleep_delay c = get_delay k c.
Proof.
  unfold config_ok, sleep_delay, INT_MAX.
  intros (Hv & Ht & Hi) [k0 Hk0]. cbv zeta. rewrite !STRESS_MINIMUM_min.
  split_active;
    repeat match goal with
           | |- context [Z.min ?a ?b] =>
               destruct (Z.min_spec a b) as [[? ->] | [? ->]]
           end;
    first [ exists KIostat; cbn [get_delay]; split; lia
          | exists KThermalstat; cbn [get_delay]; split; lia
          | exists KVmstat; cbn [get_delay]; split; lia
          | exfalso; destruct k0; cbn [get_delay] in Hk0; lia ].
Qed.

Lemma sleep_delay_pos (c : config) : config_ok c -> 0 < sleep_delay c.
Proof.
  unfold config_ok, sleep_delay, INT_MAX.
  intros (Hv & Ht & Hi). cbv zeta. rewrite !STRESS_MINIMUM_min.
  split_active; lia.
Qed.

(** Arithmetic of the ceiling [passes_per_sample d m]. *)
Lemma passes_per_sample_bounds (d m : Z) :
  0 < m -> 0 < d ->
  let K := passes_per_sample d m in
  1 <= K /\ d <= K * m /\ (K - 1) * m < d.
Proof.
  intros Hm Hd K. subst K. unfold passes_per_sample.
  pose proof (Z.div_mod (d + m - 1) m ltac:(lia)) as E.
  pose proof (Z.mod_pos_bound (d + m - 1) m Hm) as B.
  set (q := (d + m - 1) / m) in *.
  set (r := (d + m - 1) mod m) in *.
  assert (1 <= q) by nia.
  repeat split; nia.
Qed.

Lemma mod_succ (a K : Z) :
  0 < K ->
  (a + 1) mod K = if a mod K + 1 =? K then 0 else a mod K + 1.
Proof.
  intros HK.
  pose proof (Z.div_mod a K ltac:(lia)) as E.
  pose proof (Z.mod_pos_bound a K HK) as B.
  destruct (Z.eqb_spec (a mod K + 1) K) as [Heq | Hne].
  - symmetry. apply (Z.mod_unique_pos (a + 1) K (a / K + 1) 0); lia.
  - symmetry. apply (Z.mod_unique_pos (a + 1) K (a / K) (a mod K + 1)); lia.
Qed.

(** The countdown of an active source started at its interval, in closed
    form: it is reset every [passes_per_sample d m] passes. *)
Lemma countdown_iter_closed (d m : Z) (n : nat) :
  0 < m -> m <= d -> d < 2 ^ 31 ->
  countdown_iter d m n d
  = d - (Z.of_nat n mod passes_per_sample d m) * m.
Proof.
  intros Hm Hmd Hd.
  destruct (passes_per_sample_bounds d m Hm ltac:(lia)) as (HK1 & HK2 & HK3).
  set (K := passes_per_sample d m) in *.
  induction n as [| n IH].
  - cbn [countdown_iter]. rewrite Z.mod_0_l by lia. lia.
  - cbn [countdown_iter]. rewrite IH.
    rewrite Nat2Z.inj_succ, <- Z.add_1_r, (mod_succ (Z.of_nat n) K) by lia.
    pose proof (Z.mod_pos_bound (Z.of_nat n) K ltac:(lia)) as B.
    set (r := Z.of_nat n mod K) in *.
    unfold countdown.
    assert (Hr : (r + 1) * m <= K * m) by nia.
    rewrite wrap_i32_small by (unfold is_i32; nia).
    destruct (Z.eqb_spec (r + 1) K) as [Heq | Hne].
    + assert (Hs : d - r * m - m <= 0) by nia.
      apply Z.leb_le in Hs. rewrite Hs.
      assert (Hg : (d >? 0) = true) by (apply Z.gtb_lt; lia).
      rewrite Hg. cbn [andb]. lia.
    + assert (Hs : 0 < d - r * m - m) by nia.
      apply Z.leb_gt in Hs. rewrite Hs, andb_false_r. lia.
Qed.

(** An active source is due on pass [n >= 1] exactly when [n] is a
    multiple of [passes_per_sample d m]. *)
Lemma due_iff_multiple (d m : Z) (n : nat) :
  0 < m -> m <= d -> d < 2 ^ 31 ->
  due d (countdown_iter d m n d) = true
  <-> Z.of_nat n mod passes_per_sample d m = 0.
Proof.
  intros Hm Hmd Hd.
  rewrite countdown_iter_closed by assumption.
  pose proof (passes_per_sample_bounds d m Hm ltac:(lia)) as (HK1 & _).
  pose proof (Z.mod_pos_bound (Z.of_nat n) (passes_per_sample d m)
                ltac:(lia)) as B.
  unfold due. rewrite Z.eqb_eq. split; intros H; nia.
Qed.

Lemma loop_step_t1 (c : config) (zones : zone_list) (st : loop_state)
    (e : wake_env) :
  t1 (fst (loop_step c zones st e))
  = (t1 st + Z_to_double (sleep_delay c))%float.
Proof.
  unfold loop_step, sleep_part.
  destruct (vmstat_part c _ st e) as [[ev_vm vprev] vcount].
  destruct (therm_part c zones _ st e) as [ev_th tcount].
  destruct (iostat_part c _ st e) as [[ev_io iprev] icount].
  reflexivity.
Qed.

(** The countdowns start at the intervals; only a failed device discovery
    makes the iostat one start at 0. *)
Lemma child_init_sleep (k : knob) (c : config) (fs : fs_view)
    (e0 : wake_env) :
  (k = KIostat -> stress_iostat_iostat_name fs PATH_MAX <> None) ->
  get_sleep k (child_init c fs e0) = get_delay k c.
Proof.
  intros Hk. unfold child_init. destruct k; cbn [get_sleep get_delay
    vmstat_sleep thermalstat_sleep iostat_sleep]; try reflexivity.
  destruct (stress_iostat_iostat_name fs PATH_MAX) as [name |].
  - reflexivity.
  - exfalso. apply Hk; reflexivity.
Qed.

(** A pass prints for a source exactly when the source is due (for the
    thermal source, when its buffer could be allocated too). *)
Lemma printed_iff_due (k : knob) (c : config) (zones : zone_list)
    (st : loop_state) (e : wake_env) :
  (k = KThermalstat -> therms_calloc e = true) ->
  events_of k (snd (loop_step c zones st e)) <> []
  <-> due (get_delay k c) (get_sleep k (fst (loop_step c zones st e))) = true.
Proof.
  intros Hcalloc. rewrite loop_step_sleep.
  unfold loop_step, sleep_part, vmstat_part, therm_part, iostat_part.
  destruct (stress_get_vmstat (vmstat_prev st) (procfs_now e)) as [vm pv].
  destruct (stress_get_iostat (iostat_prev st) (iostat_scan e)) as [io pi].
  destruct k; cbn [get_delay get_sleep];
    try (rewrite Hcalloc by reflexivity);
    destruct (due (vmstat_delay c) _);
    destruct (due (thermalstat_delay c) _);
    destruct (due (iostat_delay c) _);
    destruct (therms_calloc e);
    destruct (header_due (vmstat_count st));
    destruct (header_due (thermalstat_count st));
    destruct (header_due (iostat_count st));
    destruct (0 <? _)%float;
    cbn [events_of filter of_kind event_kind knob_eqb app fst snd andb];
    split; intros H; try reflexivity; try discriminate; try congruence.
Qed.

Lemma deadline_shift (t0 : float) (m : Z) (n : nat) :
  deadline (t0 + Z_to_double m)%float m n = deadline t0 m (S n).
Proof.
  induction n as [| n IH]; [reflexivity |].
  cbn [deadline] in *. rewrite IH. reflexivity.
Qed.

(** After [n] passes [t1] is the wake time of pass [n]. *)
Lemma run_loop_t1 (c : config) (zones : zone_list) (wakes : list wake_env) :
  forall st,
    t1 (fst (run_loop c zones st wakes))
    = deadline (t1 st) (sleep_delay c) (List.length wakes).
Proof.
  induction wakes as [| e rest IH]; intros st.
  - reflexivity.
  - cbn [run_loop List.length].
    pose proof (loop_step_t1 c zones st e) as Ht.
    destruct (loop_step c zones st e) as [st1 ev1]. cbn [fst] in Ht.
    specialize (IH st1).
    destruct (run_loop c zones st1 rest) as [st2 ev2]. cbn [fst] in *.
    rewrite IH, Ht. apply deadline_shift.
Qed.

(** The sleep of a pass: requested only when the new wake time lies after
    the clock reading, for the difference in whole nanoseconds; and it
    comes before anything the pass prints. *)
Lemma loop_step_sleeps (c : config) (zones : zone_list) (st : loop_state)
    (e : wake_env) :
  let evs := snd (loop_step c zones st e) in
  let delta := (t1 st + Z_to_double (sleep_delay c) - time_now e)%float in
  sleeps_of evs
  = (if (0 <? delta)%float
     then [double_to_u64 (delta * STRESS_DBL_NANOSECOND)%float] else [])
  /\ evs = map EvSleep (sleeps_of evs) ++ printed evs.
Proof.
  unfold loop_step, sleep_part, vmstat_part, therm_part, iostat_part.
  destruct (stress_get_vmstat (vmstat_prev st) (procfs_now e)) as [vm pv].
  destruct (stress_get_iostat (iostat_prev st) (iostat_scan e)) as [io pi].
  destruct (due (vmstat_delay c) _);
    destruct (due (thermalstat_delay c) _);
    destruct (due (iostat_delay c) _);
    destruct (therms_calloc e);
    destruct (header_due (vmstat_count st));
    destruct (header_due (thermalstat_count st));
    destruct (header_due (iostat_count st));
    destruct (0 <? _)%float;
    cbn [snd app andb]; split; reflexivity.
Qed.

(** C1, as the code has it.  The loop keeps a wake time [t1]: every pass
    moves it forward by [sleep_delay], the smallest configured interval
    [m] of the active sources (not their smallest remaining countdown), so
    that pass [n] aims at the start time plus [m] added [n] times.  The
    sleep a pass requests is the time left until that wake time, in whole
    nanoseconds, and it is requested before anything is printed; a pass
    whose clock reading is not before its wake time requests no sleep.  A
    source of interval [d] whose countdown starts at [d] prints exactly on
    the passes whose number is a multiple of [K = ceil(d / m)]: its first
    report belongs to pass [K], whose wake time is the start time plus [m]
    added [K] times, and [K * m] is at least [d] and less than [d + m]. *)
Theorem sleep_is_minimum_configured_interval
    (c : config) (fs : fs_view) (zones : zone_list) (e0 : wake_env)
    (before : list wake_env) (e : wake_env) (k : knob) :
  config_ok c ->
  0 < get_delay k c ->
  (k = KIostat -> stress_iostat_iostat_name fs PATH_MAX <> None) ->
  (k = KThermalstat -> therms_calloc e = true) ->
  let d := get_delay k c in
  let m := sleep_delay c in
  let K := passes_per_sample d m in
  let n := List.length before in
  let st := fst (run_loop c zones (child_init c fs e0) before) in
  let evs := snd (loop_step c zones st e) in
  let target := deadline (time_now e0) m (S n) in
  let delta := (target - time_now e)%float in
  (forall k', 0 < get_delay k' c -> m <= get_delay k' c)
  /\ (exists k', 0 < get_delay k' c /\ m = get_delay k' c)
  /\ t1 st = deadline (time_now e0) m n
  /\ t1 (fst (loop_step c zones st e)) = target
  /\ sleeps_of evs
     = (if (0 <? delta)%float
        then [double_to_u64 (delta * STRESS_DBL_NANOSECOND)%float] else [])
  /\ evs = map EvSleep (sleeps_of evs) ++ printed evs
  /\ (events_of k evs <> [] <-> (Z.of_nat n + 1) mod K = 0)
  /\ d <= K * m < d + m.
Proof.
  intros Hc Hk Hio Hth d m K n st evs target delta.
  pose proof (sleep_delay_pos c Hc) as Hm.
  pose proof (sleep_delay_le c k Hc Hk) as Hmd.
  assert (Hd : get_delay k c < 2 ^ 31).
  { destruct Hc as (Hv & Ht & Hi). destruct k; cbn [get_delay]; lia. }
  fold m in Hm, Hmd. fold d in Hk, Hmd, Hd.
  destruct (passes_per_sample_bounds d m Hm Hk) as (HK1 & HK2 & HK3).
  fold K in HK1, HK2, HK3.
  assert (Ht1 : t1 st = deadline (time_now e0) m n).
  { subst st. rewrite run_loop_t1. reflexivity. }
  destruct (loop_step_sleeps c zones st e) as [Hsl Hfirst].
  fold evs in Hsl, Hfirst. fold m in Hsl. rewrite Ht1 in Hsl.
  split; [intros k' Hk'; apply sleep_delay_le; assumption |].
  split; [apply sleep_delay_attained; [assumption | exists k; assumption] |].
  split; [exact Ht1 |].
  split; [rewrite loop_step_t1, Ht1; reflexivity |].
  split; [exact Hsl |].
  split; [exact Hfirst |].
  split; [| lia].
  subst evs. rewrite (printed_iff_due k c zones st e Hth).
  rewrite loop_step_sleep. subst st.
  rewrite run_loop_sleep, (child_init_sleep k c fs e0 Hio). fold d m n.
  change (countdown d (countdown_iter d m n d) m)
    with (countdown_iter d m (S n) d).
  rewrite (due_iff_multiple d m (S n) Hm Hmd Hd).
  fold K. rewrite Nat2Z.inj_succ, <- Z.add_1_r. reflexivity.
Qed.

(** The intervals 5, 7 and 11 of the design's example: the source of
    interval 7 prints on the second pass, which aims at 10 seconds after
    the start; the worker reads the clock at 5.3 seconds and asks for the
    4.7 seconds left. *)
Lemma sleep_is_minimum_configured_interval_witness :
  let c := mk_config 5 7 11 in
  let e0 := quiet_env 0 no_procfs in
  let before := [quiet_env 0 no_procfs] in
  let e := quiet_env 0x1.5333333333333p+2 no_procfs in
  let d := get_delay KThermalstat c in
  let m := sleep_delay c in
  let K := passes_per_sample d m in
  let n := List.length before in
  let st := fst (run_loop c [] (child_init c fs_sda e0) before) in
  let evs := snd (loop_step c [] st e) in
  let target := deadline (time_now e0) m (S n) in
  let delta := (target - time_now e)%float in
  (forall k', 0 < get_delay k' c -> m <= get_delay k' c)
  /\ (exists k', 0 < get_delay k' c /\ m = get_delay k' c)
  /\ t1 st = deadline (time_now e0) m n
  /\ t1 (fst (loop_step c [] st e)) = target
  /\ sleeps_of evs
     = (if (0 <? delta)%float
        then [double_to_u64 (delta * STRESS_DBL_NANOSECOND)%float] else [])
  /\ evs = map EvSleep (sleeps_of evs) ++ printed evs
  /\ (events_of KThermalstat evs <> [] <-> (Z.of_nat n + 1) mod K = 0)
  /\ d <= K * m < d + m.
Proof.
  apply (sleep_is_minimum_configured_interval (mk_config 5 7 11) fs_sda []
           (quiet_env 0 no_procfs) [quiet_env 0 no_procfs]
           (quiet_env 0x1.5333333333333p+2 no_procfs) KThermalstat).
  - unfold config_ok. cbn. lia.
  - cbn. lia.
  - discriminate.
  - reflexivity.
Defined.

(** With the intervals 5, 7 and 11 every pass moves the wake time by 5
    seconds, and the three sources are first due on passes 1, 2 and 3,
    which aim at 5, 10 and 15 seconds after the start. *)
Example intervals_5_7_11_first_due :
  let c := mk_config 5 7 11 in
  sleep_delay c = 5
  /\ (passes_per_sample 5 5, passes_per_sample 7 5, passes_per_sample 11 5)
     = (1, 2, 3)
  /\ (deadline 0 5 1, deadline 0 5 2, deadline 0 5 3) = (5, 10, 15)%float.
Proof. vm_compute. repeat split; reflexivity. Qed.

(** The sleeps of three passes with the intervals 5, 7 and 11, the worker
    having started at time 0.  A worker that wakes on time asks for 5
    seconds on each pass; one whose clock stands still asks for 5, 10 and
    15 seconds; one that is late on every pass asks for no sleep at all
    (and its sources report all the same); and with the single interval 7
    a worker that reads the clock [2^-31] seconds (less than half a
    nanosecond) after the start asks for 6999999999 nanoseconds, the
    conversion to [uint64_t] truncating. *)
Example sleep_requests_follow_the_wake_time :
  let c := mk_config 5 7 11 in
  let run := fun ts =>
    snd (run_loop c [] (child_init c fs_sda (quiet_env 0 no_procfs))
           (map (fun t => quiet_env t no_procfs) ts)) in
  sleeps_of (run [0; 5; 10]%float)
  = [5000000000; 5000000000; 5000000000]
  /\ sleeps_of (run [0; 0; 0]%float)
     = [5000000000; 10000000000; 15000000000]
  /\ sleeps_of (run [6; 11; 16]%float) = []
  /\ map event_kind (printed (run [6; 11; 16]%float))
     = [Some KVmstat; Some KVmstat;
        Some KVmstat; Some KThermalstat; Some KThermalstat;
        Some KVmstat; Some KIostat; Some KIostat]
  /\ sleeps_of
       (snd (loop_step (mk_config 7 0 0) []
               (child_init (mk_config 7 0 0) fs_sda (quiet_env 0 no_procfs))
               (quiet_env 0x1p-31 no_procfs)))
     = [6999999999].
Proof. vm_compute. repeat split; reflexivity. Qed.

(** C1, as stated, fails.  With the intervals 5, 7 and 11, after the first
    pass the remaining countdowns are 5, 2 and 6: their minimum is 2, but
    the second pass moves the wake time by 5 seconds and, the worker being
    on time, asks for a sleep of 5 seconds; and the source of interval 7 is
    not due after the first pass but after the second, whose wake time is
    10 seconds after the start. *)
Lemma sleep_is_not_minimum_remaining :
  let c := mk_config 5 7 11 in
  let e0 := quiet_env 0 no_procfs in
  let e1 := quiet_env 5 no_procfs in
  let st0 := child_init c fs_sda e0 in
  let st1 := fst (loop_step c [] st0 e0) in
  let st2 := fst (loop_step c [] st1 e1) in
  (vmstat_sleep st1, thermalstat_sleep st1, iostat_sleep st1) = (5, 2, 6)
  /\ min_remaining c st1 = 2
  /\ sleep_delay c = 5
  /\ snd (sleep_part c st1 e1) = [EvSleep 5000000000]
  /\ sleep_delay c <> min_remaining c st1
  /\ due 7 (thermalstat_sleep st1) = false
  /\ due 7 (thermalstat_sleep st2) = true
  /\ t1 st2 = 10%float.
Proof.
  vm_compute. repeat split; try reflexivity. discriminate.
Qed.

(* ================================================================== *)
(** * The report emitter: headers *)
(* ================================================================== *)

(** What one pass prints for a source kind: nothing, the counter staying
    as it is; or one data line, with the header in front when the counter
    is a multiple of 25, the counter going up by one. *)
Lemma loop_step_events_of (k : knob) (c : config) (zones : zone_list)
    (st : loop_state) (e : wake_env) :
  (events_of k (snd (loop_step c zones st e)) = []
   /\ get_count k (fst (loop_step c zones st e)) = get_count k st)
  \/ (exists l,
        events_of k (snd (loop_step c zones st e))
        = (if header_due (get_count k st) then [header_event k zones] else [])
          ++ [l]
        /\ is_header l = false
        /\ get_count k (fst (loop_step c zones st e))
           = wrap_u32 (get_count k st + 1)).
Proof.
  unfold loop_step, sleep_part, vmstat_part, therm_part, iostat_part.
  destruct (stress_get_vmstat (vmstat_prev st) (procfs_now e)) as [vm pv].
  destruct (stress_get_iostat (iostat_prev st) (iostat_scan e)) as [io pi].
  destruct (due (vmstat_delay c) _);
    destruct (due (thermalstat_delay c) _);
    destruct (due (iostat_delay c) _);
    destruct (therms_calloc e);
    destruct (header_due (vmstat_count st)) eqn:Hv;
    destruct (header_due (thermalstat_count st)) eqn:Ht;
    destruct (header_due (iostat_count st)) eqn:Hi;
    destruct (0 <? _)%float;
    destruct k;
    cbn [events_of filter of_kind event_kind knob_eqb app fst snd andb
         get_count vmstat_count thermalstat_count iostat_count
         header_event];
    rewrite ?Hv, ?Ht, ?Hi;
    first [ left; split; reflexivity
          | right; eexists; split; [reflexivity | split; reflexivity] ].
Qed.

Lemma events_of_app (k : knob) (a b : list event) :
  events_of k (a ++ b) = events_of k a ++ events_of k b.
Proof. unfold events_of. apply filter_app. Qed.

(** The output of a run, kind by kind, has its headers in front of the
    reports 0, 25, 50, ... as long as the [uint32_t] counter has not
    wrapped. *)
Lemma run_loop_headers (k : knob) (c : config) (zones : zone_list)
    (wakes : list wake_env) :
  forall st n,
    get_count k st = wrap_u32 n -> 0 <= n ->
    n + Z.of_nat (List.length wakes) <= 2 ^ 32 ->
    headers_every_25 n (events_of k (snd (run_loop c zones st wakes))) = true.
Proof.
  induction wakes as [| e rest IH]; intros st n Hcount Hn Hlen.
  - reflexivity.
  - cbn [run_loop]. cbn [List.length] in Hlen.
    rewrite Nat2Z.inj_succ in Hlen.
    rewrite wrap_u32_small in Hcount by lia.
    pose proof (loop_step_events_of k c zones st e) as Hstep.
    destruct (loop_step c zones st e) as [st1 ev1]. cbn [fst snd] in Hstep.
    pose proof (IH st1) as IH1.
    destruct (run_loop c zones st1 rest) as [st2 ev2]. cbn [fst snd] in *.
    rewrite events_of_app.
    destruct Hstep as [[Hev Hc1] | (l & Hev & Hl & Hc1)]; rewrite Hev.
    + cbn [app]. apply IH1; [| lia | lia].
      rewrite Hc1, Hcount. symmetry. apply wrap_u32_small. lia.
    + rewrite Hcount in Hev, Hc1 |- *.
      assert (Hrest : headers_every_25 (n + 1) (events_of k ev2) = true).
      { apply IH1; [exact Hc1 | lia | lia]. }
      unfold header_due.
      destruct (Z.eqb_spec (n mod 25) 0) as [Hz | Hnz].
      * cbn [app headers_every_25].
        assert (Hh : is_header (header_event k zones) = true)
          by (destruct k; reflexivity).
        rewrite Hh, Hl.
        apply Z.eqb_eq in Hz. rewrite Hz. cbn [andb negb]. exact Hrest.
      * cbn [app headers_every_25]. rewrite Hl.
        apply Z.eqb_neq in Hnz. rewrite Hnz. cbn [andb negb]. exact Hrest.
Qed.

(** C9.  In the output of [stress_vmstat_start], for each source kind
    taken by itself, the column header is printed in front of the reports
    numbered 0, 25, 50, ... (the 1st, 26th, 51st, ...) and nowhere else.
    The report counters are [uint32_t]: the statement is for runs of at
    most [2^32] passes. *)
Theorem header_every_25th_report
    (k : knob) (fork_ret : Z) (fs : fs_view) (zones : zone_list)
    (e0 : wake_env) (wakes : list wake_env) (p : process) :
  Z.of_nat (List.length wakes) <= 2 ^ 32 ->
  headers_every_25 0
    (events_of k (snd (stress_vmstat_start fork_ret fs zones e0 wakes p)))
  = true.
Proof.
  intros Hlen. unfold stress_vmstat_start.
  destruct ((vmstat_delay (delays p) =? 0)
            && (thermalstat_delay (delays p) =? 0)
            && (iostat_delay (delays p) =? 0)); [reflexivity |].
  destruct ((fork_ret <? 0) || (fork_ret >? 0)); [reflexivity |].
  pose proof (run_loop_headers k (delays p) zones wakes
                (child_init (delays p) fs e0) 0) as H.
  destruct (run_loop (delays p) zones (child_init (delays p) fs e0) wakes)
    as [st evs]. cbn [snd] in *.
  apply H; [destruct k; reflexivity | lia | lia].
Qed.

Lemma header_every_25th_report_witness :
  headers_every_25 0
    (events_of KVmstat
       (snd (stress_vmstat_start 0 fs_sda [] (quiet_env 0 no_procfs)
               (repeat (quiet_env 0 no_procfs) 30)
               (process_with (mk_config 1 0 0)))))
  = true.
Proof.
  apply (header_every_25th_report KVmstat 0 fs_sda [] (quiet_env 0 no_procfs)
           (repeat (quiet_env 0 no_procfs) 30)
           (process_with (mk_config 1 0 0))).
  vm_compute. discriminate.
Defined.

(** Thirty vmstat reports: the header comes with the 1st and the 26th. *)
Example thirty_reports_two_headers :
  map is_header
    (events_of KVmstat
       (snd (stress_vmstat_start 0 fs_sda [] (quiet_env 0 no_procfs)
               (repeat (quiet_env 0 no_procfs) 30)
               (process_with (mk_config 1 0 0)))))
  = [true] ++ repeat false 25 ++ [true] ++ repeat false 5.
Proof. vm_compute. reflexivity. Qed.

(* ================================================================== *)
(** * The states the worker can be in *)
(* ================================================================== *)

Lemma child_init_wf (c : config) (fs : fs_view) (e0 : wake_env) :
  state_wf (child_init c fs e0).
Proof.
  unfold state_wf, child_init. cbn [vmstat_prev iostat_prev]. split.
  - destruct (vmstat_delay c =? 0); [apply vmstat_zero_wf |].
    rewrite stress_get_vmstat_prev.
    apply stress_read_vmstat_wf, vmstat_zero_wf.
  - destruct (iostat_delay c =? 0); [apply iostat_zero_wf |].
    rewrite stress_get_iostat_prev.
    apply stress_read_iostat_wf, iostat_zero_wf.
Qed.

Lemma loop_step_wf (c : config) (zones : zone_list) (st : loop_state)
    (e : wake_env) :
  state_wf st -> state_wf (fst (loop_step c zones st e)).
Proof.
  intros [Hv Hi]. unfold state_wf, loop_step, sleep_part, vmstat_part,
    therm_part, iostat_part.
  pose proof (stress_get_vmstat_prev (vmstat_prev st) (procfs_now e)) as Ev.
  pose proof (stress_get_iostat_prev (iostat_prev st) (iostat_scan e)) as Ei.
  destruct (stress_get_vmstat (vmstat_prev st) (procfs_now e)) as [vm pv].
  destruct (stress_get_iostat (iostat_prev st) (iostat_scan e)) as [io pi].
  cbn [snd] in Ev, Ei. subst pv pi.
  destruct (due (vmstat_delay c) _);
    destruct (due (thermalstat_delay c) _ && therms_calloc e);
    destruct (due (iostat_delay c) _);
    cbn [fst vmstat_prev iostat_prev]; split;
    first [ assumption
          | apply stress_read_vmstat_wf, vmstat_zero_wf
          | apply stress_read_iostat_wf, iostat_zero_wf ].
Qed.

Lemma run_loop_wf (c : config) (zones : zone_list) (wakes : list wake_env) :
  forall st, state_wf st -> state_wf (fst (run_loop c zones st wakes)).
Proof.
  induction wakes as [| e rest IH]; intros st Hst.
  - exact Hst.
  - cbn [run_loop].
    pose proof (loop_step_wf c zones st e Hst) as H1.
    destruct (loop_step c zones st e) as [st1 ev1]. cbn [fst] in H1.
    specialize (IH st1 H1).
    destruct (run_loop c zones st1 rest) as [st2 ev2]. exact IH.
Qed.

(* ================================================================== *)
(** * The lines a pass prints *)
(* ================================================================== *)

(** A vmstat line of a pass is built from the deltas against the previous
    snapshot, the clock tick product read on this pass and the configured
    delay; the snapshot read becomes the previous one. *)
Lemma loop_step_vmstat_line (c : config) (zones : zone_list)
    (st : loop_state) (e : wake_env) (l : vmstat_line) :
  In (EvVmstatLine l) (snd (loop_step c zones st e)) ->
  l = make_vmstat_line c (wrap_i64 (sc_clk_tck e * sc_nprocessors_onln e))
        (fst (stress_get_vmstat (vmstat_prev st) (procfs_now e)))
  /\ vmstat_prev (fst (loop_step c zones st e))
     = stress_read_vmstat (procfs_now e) vmstat_zero.
Proof.
  unfold loop_step, sleep_part, vmstat_part, therm_part, iostat_part.
  pose proof (stress_get_vmstat_prev (vmstat_prev st) (procfs_now e)) as Ev.
  destruct (stress_get_vmstat (vmstat_prev st) (procfs_now e)) as [vm pv].
  destruct (stress_get_iostat (iostat_prev st) (iostat_scan e)) as [io pi].
  cbn [snd] in Ev. subst pv.
  destruct (due (vmstat_delay c) _);
    destruct (due (thermalstat_delay c) _ && therms_calloc e);
    destruct (due (iostat_delay c) _);
    destruct (header_due (vmstat_count st));
    destruct (header_due (thermalstat_count st));
    destruct (header_due (iostat_count st));
    destruct (0 <? _)%float;
    cbn [snd fst app In vmstat_prev]; intros H;
    intuition (try discriminate; try congruence).
Qed.

Lemma loop_step_iostat_line (c : config) (zones : zone_list)
    (st : loop_state) (e : wake_env) (l : iostat_line) :
  In (EvIostatLine l) (snd (loop_step c zones st e)) ->
  l = make_iostat_line c
        (fst (stress_get_iostat (iostat_prev st) (iostat_scan e)))
  /\ iostat_prev (fst (loop_step c zones st e))
     = stress_read_iostat (iostat_scan e) iostat_zero.
Proof.
  unfold loop_step, sleep_part, vmstat_part, therm_part, iostat_part.
  pose proof (stress_get_iostat_prev (iostat_prev st) (iostat_scan e)) as Ei.
  destruct (stress_get_vmstat (vmstat_prev st) (procfs_now e)) as [vm pv].
  destruct (stress_get_iostat (iostat_prev st) (iostat_scan e)) as [io pi].
  cbn [snd] in Ei. subst pi.
  destruct (due (vmstat_delay c) _);
    destruct (due (thermalstat_delay c) _ && therms_calloc e);
    destruct (due (iostat_delay c) _);
    destruct (header_due (vmstat_count st));
    destruct (header_due (thermalstat_count st));
    destruct (header_due (iostat_count st));
    destruct (0 <? _)%float;
    cbn [snd fst app In iostat_prev]; intros H;
    intuition (try discriminate; try congruence).
Qed.

(** What is printed does not depend on the clock: neither on the time read
    on the pass nor on the wake time carried in [t1]. *)
Lemma printed_time_independent (c : config) (zones : zone_list)
    (st : loop_state) (e : wake_env) (t t' : float) :
  printed (snd (loop_step c zones (with_t1 t st) (with_time t' e)))
  = printed (snd (loop_step c zones st e)).
Proof.
  unfold loop_step, sleep_part, vmstat_part, therm_part, iostat_part.
  cbn [with_t1 with_time vmstat_sleep thermalstat_sleep iostat_sleep t1
       vmstat_prev iostat_prev vmstat_count thermalstat_count iostat_count
       time_now sc_clk_tck sc_nprocessors_onln procfs_now iostat_scan
       therms_calloc tz_temps cpu_ghz load_avg].
  destruct (stress_get_vmstat (vmstat_prev st) (procfs_now e)) as [vm pv].
  destruct (stress_get_iostat (iostat_prev st) (iostat_scan e)) as [io pi].
  destruct (due (vmstat_delay c) _);
    destruct (due (thermalstat_delay c) _ && therms_calloc e);
    destruct (due (iostat_delay c) _);
    destruct (0 <? _)%float; destruct (0 <? _)%float;
    reflexivity.
Qed.

(* ================================================================== *)
(** * Rates and percentages *)
(* ================================================================== *)

(** C8.  In every vmstat line the worker prints, the us, sy, id, wa and st
    columns are 100 times the tick delta of the field (against the previous
    snapshot of the source) over the time-base: clock ticks per second
    times online processors, both read on that pass, times the vmstat
    interval.  No clock reading enters: the line is the same whatever the
    time of the pass. *)
Theorem cpu_percent_uses_tick_time_base
    (c : config) (fs : fs_view) (zones : zone_list) (e0 : wake_env)
    (before : list wake_env) (e : wake_env) (l : vmstat_line) :
  let st := fst (run_loop c zones (child_init c fs e0) before) in
  let cur := stress_read_vmstat (procfs_now e) vmstat_zero in
  let prev := vmstat_prev st in
  let pct := fun f : stress_vmstat_t -> Z =>
               spec_cpu_percent (spec_delta (f cur) (f prev))
                 (sc_clk_tck e) (sc_nprocessors_onln e) (vmstat_delay c) in
  - 2 ^ 63 <= sc_clk_tck e * sc_nprocessors_onln e < 2 ^ 63 ->
  In (EvVmstatLine l) (snd (loop_step c zones st e)) ->
  vl_us l = pct user_time
  /\ vl_sy l = pct system_time
  /\ vl_id l = pct idle_time
  /\ vl_wa l = pct wait_time
  /\ vl_st l = pct stolen_time
  /\ (forall t t',
        In (EvVmstatLine l)
           (snd (loop_step c zones (with_t1 t st) (with_time t' e)))).
Proof.
  intros st cur prev pct Hclk Hin.
  assert (Hwf : vmstat_wf prev).
  { subst prev st. apply run_loop_wf, child_init_wf. }
  destruct (loop_step_vmstat_line c zones st e l Hin) as [Hl _].
  pose proof (fun f Hf =>
                stress_get_vmstat_counter prev (procfs_now e) f Hwf Hf) as Hd.
  pose proof (Hd Fuser_time eq_refl) as Hus.
  pose proof (Hd Fsystem_time eq_refl) as Hsy.
  pose proof (Hd Fidle_time eq_refl) as Hid.
  pose proof (Hd Fwait_time eq_refl) as Hwa.
  pose proof (Hd Fstolen_time eq_refl) as Hst.
  cbn [vmstat_get] in Hus, Hsy, Hid, Hwa, Hst. fold cur in Hus, Hsy, Hid, Hwa, Hst.
  fold prev in Hl.
  assert (Htime : forall t t',
             In (EvVmstatLine l)
                (snd (loop_step c zones (with_t1 t st) (with_time t' e)))).
  { intros t t'.
    assert (Hp : In (EvVmstatLine l) (printed (snd (loop_step c zones st e)))).
    { unfold printed. apply filter_In. split; [exact Hin | reflexivity]. }
    rewrite <- (printed_time_independent c zones st e t t') in Hp.
    unfold printed in Hp. apply filter_In in Hp. exact (proj1 Hp). }
  subst pct. unfold spec_cpu_percent.
  refine (conj _ (conj _ (conj _ (conj _ (conj _ Htime)))));
    rewrite Hl; unfold make_vmstat_line, cpu_percent;
    cbn [vl_us vl_sy vl_id vl_wa vl_st];
    rewrite (wrap_i64_small _ Hclk);
    [ rewrite Hus | rewrite Hsy | rewrite Hid | rewrite Hwa | rewrite Hst ];
    reflexivity.
Qed.

(** One cpu, interval 2, 100 ticks per second on 2 processors: 200 user,
    100 system and 100 idle ticks in the interval are 50%, 25% and 25% of
    the 400 ticks of the time-base. *)
Lemma cpu_percent_uses_tick_time_base_witness :
  let c := mk_config 2 0 0 in
  let e0 := quiet_env 0 (procfs_of_stat ["cpu0 100 0 50 800 0 0 0 0 0 0"]) in
  let e := quiet_env 0 (procfs_of_stat ["cpu0 300 0 150 900 0 0 0 0 0 0"]) in
  let l := line_50_25_25 in
  let st := fst (run_loop c [] (child_init c fs_sda e0) []) in
  let cur := stress_read_vmstat (procfs_now e) vmstat_zero in
  let prev := vmstat_prev st in
  let pct := fun f : stress_vmstat_t -> Z =>
               spec_cpu_percent (spec_delta (f cur) (f prev))
                 (sc_clk_tck e) (sc_nprocessors_onln e) (vmstat_delay c) in
  vl_us l = pct user_time
  /\ vl_sy l = pct system_time
  /\ vl_id l = pct idle_time
  /\ vl_wa l = pct wait_time
  /\ vl_st l = pct stolen_time
  /\ (forall t t',
        In (EvVmstatLine l)
           (snd (loop_step c [] (with_t1 t st) (with_time t' e)))).
Proof.
  apply (cpu_percent_uses_tick_time_base (mk_config 2 0 0) fs_sda []
           (quiet_env 0 (procfs_of_stat ["cpu0 100 0 50 800 0 0 0 0 0 0"]))
           []
           (quiet_env 0 (procfs_of_stat ["cpu0 300 0 150 900 0 0 0 0 0 0"]))
           line_50_25_25).
  - cbn. lia.
  - vm_compute. right. right. left. reflexivity.
Defined.

(** C2, as the code has it.  From the second sample of a source on, the
    rates of a line are the deltas against the previous snapshot divided by
    the configured interval of the source: an unsigned integer division by
    [vmstat_delay] for the vmstat columns si, so, bi, bo, in and cs, a
    multiplication by [1.0 / iostat_delay] in double arithmetic for the
    iostat columns.  The clock is not consulted: what a pass prints is the
    same whatever the time read and whatever the wake time carried. *)
Theorem rates_use_configured_interval
    (c : config) (fs : fs_view) (zones : zone_list) (e0 : wake_env)
    (before : list wake_env) (e : wake_env) :
  config_ok c ->
  let st := fst (run_loop c zones (child_init c fs e0) before) in
  let vcur := stress_read_vmstat (procfs_now e) vmstat_zero in
  let vprev := vmstat_prev st in
  let icur := stress_read_iostat (iostat_scan e) iostat_zero in
  let iprev := iostat_prev st in
  let vrate := fun f : stress_vmstat_t -> Z =>
                 spec_delta (f vcur) (f vprev) / vmstat_delay c in
  let irate := fun d : Z =>
                 (Z_to_double d * (1 / Z_to_double (iostat_delay c)))%float in
  (forall l, 0 < vmstat_delay c ->
      In (EvVmstatLine l) (snd (loop_step c zones st e)) ->
     vl_si l = vrate swap_in /\ vl_so l = vrate swap_out
     /\ vl_bi l = vrate block_in /\ vl_bo l = vrate block_out
     /\ vl_in l = vrate interrupt /\ vl_cs l = vrate context_switch)
  /\ (forall l, 0 < iostat_delay c ->
      In (EvIostatLine l) (snd (loop_step c zones st e)) ->
     il_inflight l = irate (spec_delta (in_flight icur) (in_flight iprev))
     /\ il_rd_k l
        = irate (Z.shiftr (spec_delta (read_sectors icur)
                                      (read_sectors iprev)) 1)
     /\ il_wr_k l
        = irate (Z.shiftr (spec_delta (write_sectors icur)
                                      (write_sectors iprev)) 1)
     /\ il_dscd_k l
        = irate (Z.shiftr (spec_delta (discard_sectors icur)
                                      (discard_sectors iprev)) 1)
     /\ il_rd l = irate (spec_delta (read_io icur) (read_io iprev))
     /\ il_wr l = irate (spec_delta (write_io icur) (write_io iprev))
     /\ il_dscd l = irate (spec_delta (discard_io icur) (discard_io iprev)))
  /\ (forall t t',
        printed (snd (loop_step c zones (with_t1 t st) (with_time t' e)))
        = printed (snd (loop_step c zones st e))).
Proof.
  intros Hc st vcur vprev icur iprev vrate irate.
  assert (Hwf : state_wf st).
  { subst st. apply run_loop_wf, child_init_wf. }
  destruct Hwf as [Hv Hi]. fold vprev in Hv. fold iprev in Hi.
  split; [| split].
  - intros l _ Hin.
    destruct (loop_step_vmstat_line c zones st e l Hin) as [Hl _].
    fold vprev in Hl.
    pose proof (fun f Hf =>
                  stress_get_vmstat_counter vprev (procfs_now e) f Hv Hf)
      as Hd.
    pose proof (Hd Fswap_in eq_refl) as H1.
    pose proof (Hd Fswap_out eq_refl) as H2.
    pose proof (Hd Fblock_in eq_refl) as H3.
    pose proof (Hd Fblock_out eq_refl) as H4.
    pose proof (Hd Finterrupt eq_refl) as H5.
    pose proof (Hd Fcontext_switch eq_refl) as H6.
    cbn [vmstat_get] in H1, H2, H3, H4, H5, H6.
    fold vcur in H1, H2, H3, H4, H5, H6.
    assert (Hw : wrap_u64 (vmstat_delay c) = vmstat_delay c).
    { apply wrap_u64_small. destruct Hc as (B & _). unfold is_u64. lia. }
    subst vrate. cbv beta.
    rewrite <- H1, <- H2, <- H3, <- H4, <- H5, <- H6.
    rewrite Hl. unfold make_vmstat_line.
    cbn [vl_si vl_so vl_bi vl_bo vl_in vl_cs].
    rewrite Hw. repeat split; reflexivity.
  - intros l Hpos Hin.
    destruct (loop_step_iostat_line c zones st e l Hin) as [Hl _].
    fold iprev in Hl.
    pose proof (fun f => stress_get_iostat_field iprev (iostat_scan e) f Hi)
      as Hd.
    pose proof (Hd Fin_flight) as H1.
    pose proof (Hd Fread_sectors) as H2.
    pose proof (Hd Fwrite_sectors) as H3.
    pose proof (Hd Fdiscard_sectors) as H4.
    pose proof (Hd Fread_io) as H5.
    pose proof (Hd Fwrite_io) as H6.
    pose proof (Hd Fdiscard_io) as H7.
    cbn [iostat_get] in H1, H2, H3, H4, H5, H6, H7.
    fold icur in H1, H2, H3, H4, H5, H6, H7.
    subst irate. cbv beta.
    rewrite <- H1, <- H2, <- H3, <- H4, <- H5, <- H6, <- H7.
    rewrite Hl. unfold make_iostat_line.
    apply Z.gtb_lt in Hpos. rewrite Hpos.
    repeat split; reflexivity.
  - intros t t'. apply printed_time_independent.
Qed.

(** Intervals 7 (vmstat) and 5 (thermalstat): the vmstat source is sampled
    on the second pass; 70 context switches since the seeding read are
    printed as 70 / 7 = 10 per second. *)
Lemma rates_use_configured_interval_witness :
  let c := mk_config 7 5 0 in
  let e0 := quiet_env 100 (procfs_of_stat ["ctxt 1000"]) in
  let e1 := quiet_env 100 (procfs_of_stat ["ctxt 1030"]) in
  let e := quiet_env 105 (procfs_of_stat ["ctxt 1070"]) in
  let st := fst (run_loop c [] (child_init c fs_sda e0) [e1]) in
  let vcur := stress_read_vmstat (procfs_now e) vmstat_zero in
  let vprev := vmstat_prev st in
  let icur := stress_read_iostat (iostat_scan e) iostat_zero in
  let iprev := iostat_prev st in
  let vrate := fun f : stress_vmstat_t -> Z =>
                 spec_delta (f vcur) (f vprev) / vmstat_delay c in
  let irate := fun d : Z =>
                 (Z_to_double d * (1 / Z_to_double (iostat_delay c)))%float in
  (forall l, 0 < vmstat_delay c ->
      In (EvVmstatLine l) (snd (loop_step c [] st e)) ->
     vl_si l = vrate swap_in /\ vl_so l = vrate swap_out
     /\ vl_bi l = vrate block_in /\ vl_bo l = vrate block_out
     /\ vl_in l = vrate interrupt /\ vl_cs l = vrate context_switch)
  /\ (forall l, 0 < iostat_delay c ->
      In (EvIostatLine l) (snd (loop_step c [] st e)) ->
     il_inflight l = irate (spec_delta (in_flight icur) (in_flight iprev))
     /\ il_rd_k l
        = irate (Z.shiftr (spec_delta (read_sectors icur)
                                      (read_sectors iprev)) 1)
     /\ il_wr_k l
        = irate (Z.shiftr (spec_delta (write_sectors icur)
                                      (write_sectors iprev)) 1)
     /\ il_dscd_k l
        = irate (Z.shiftr (spec_delta (discard_sectors icur)
                                      (discard_sectors iprev)) 1)
     /\ il_rd l = irate (spec_delta (read_io icur) (read_io iprev))
     /\ il_wr l = irate (spec_delta (write_io icur) (write_io iprev))
     /\ il_dscd l = irate (spec_delta (discard_io icur) (discard_io iprev)))
  /\ (forall t t',
        printed (snd (loop_step c [] (with_t1 t st) (with_time t' e)))
        = printed (snd (loop_step c [] st e))).
Proof.
  apply (rates_use_configured_interval (mk_config 7 5 0) fs_sda []
           (quiet_env 100 (procfs_of_stat ["ctxt 1000"]))
           [quiet_env 100 (procfs_of_stat ["ctxt 1030"])]
           (quiet_env 105 (procfs_of_stat ["ctxt 1070"]))).
  unfold config_ok. cbn. lia.
Defined.

(** C2, as stated, fails.  Intervals 7 (vmstat) and 5 (thermalstat); the
    vmstat source is seeded at time 100.  The first pass begins at time 100
    and sleeps 5 seconds, the second begins at time 105 and sleeps 5
    seconds, then samples vmstat: 10 seconds after the seeding read, 70
    context switches later.  The line shows 70 / 7 = 10 per second, not
    70 / 10 = 7. *)
Lemma rate_is_not_per_elapsed_second :
  let c := mk_config 7 5 0 in
  let e0 := quiet_env 100 (procfs_of_stat ["ctxt 1000"]) in
  let e1 := quiet_env 100 (procfs_of_stat ["ctxt 1030"]) in
  let e2 := quiet_env 105 (procfs_of_stat ["ctxt 1070"]) in
  let st0 := child_init c fs_sda e0 in
  let st2 := fst (run_loop c [] st0 [e1; e2]) in
  let therm := EvThermLine (mk_therm_line (0, 0, 0)%float None []) in
  let delta := context_switch (stress_read_vmstat (procfs_now e2) vmstat_zero)
               - context_switch (vmstat_prev st0) in
  snd (run_loop c [] st0 [e1; e2])
  = [EvSleep 5000000000; EvThermHeader []; therm;
     EvSleep 5000000000; EvVmstatHeader; EvVmstatLine line_cs_10; therm]
  /\ vmstat_prev st0 = stress_read_vmstat (procfs_now e0) vmstat_zero
  /\ (t1 st2 - t1 st0)%float = 10%float
  /\ delta = 70
  /\ vl_cs line_cs_10 = delta / vmstat_delay c
  /\ vl_cs line_cs_10 <> delta / 10.
Proof.
  vm_compute. repeat split; try reflexivity. discriminate.
Qed.

(* ================================================================== *)
(** * Block device discovery and what follows a failure *)
(* ================================================================== *)

(** The names tried for [/dev/sda12] are those of [sda12], [sda1] and
    [sda]; the first that exists is returned. *)
Example discovery_truncates_digits :
  stress_iostat_iostat_name fs_sda PATH_MAX = Some "/sys/block/sda/stat"
  /\ stress_iostat_iostat_name
       (mk_fs (Some "/tmp") (fun _ => Some "/dev/sda12")
              (String.eqb "/sys/block/sda1/stat")) PATH_MAX
     = Some "/sys/block/sda1/stat"
  /\ stress_iostat_iostat_name
       (mk_fs (Some "/tmp") (fun _ => Some "/dev/sda12") (fun _ => false))
       PATH_MAX
     = None.
Proof. vm_compute. repeat split; reflexivity. Qed.

(** After a failed discovery [iostat_sleep] is 0 but [iostat_delay] is
    not: the first pass takes the countdown below 0, resets it to the delay
    and processes the source. *)
Lemma iostat_due_after_failed_discovery (c : config) (fs : fs_view)
    (zones : zone_list) (e0 e : wake_env) :
  config_ok c -> 0 < iostat_delay c ->
  stress_iostat_iostat_name fs PATH_MAX = None ->
  iostat_sleep (child_init c fs e0) = 0
  /\ due (iostat_delay c)
         (iostat_sleep (fst (loop_step c zones (child_init c fs e0) e)))
     = true.
Proof.
  intros Hc Hpos Hnone.
  assert (H0 : iostat_sleep (child_init c fs e0) = 0).
  { unfold child_init. rewrite Hnone. reflexivity. }
  split; [exact H0 |].
  pose proof (loop_step_sleep KIostat c zones (child_init c fs e0) e) as Hs.
  cbn [get_sleep get_delay] in Hs. rewrite Hs, H0.
  pose proof (sleep_delay_pos c Hc) as Hm.
  pose proof (sleep_delay_le c KIostat Hc Hpos) as Hle.
  cbn [get_delay] in Hle.
  unfold countdown, due.
  rewrite wrap_i32_small
    by (unfold is_i32; destruct Hc as (_ & _ & B); lia).
  assert (Hg : (iostat_delay c >? 0) = true) by (apply Z.gtb_lt; lia).
  assert (Hl : (0 - sleep_delay c <=? 0) = true) by (apply Z.leb_le; lia).
  rewrite Hg, Hl. cbn [andb]. apply Z.eqb_refl.
Qed.

(** C5, the code at the failing input.  vmstat every second, iostat every
    5 seconds, no statistics file found for the device: [iostat_sleep] is
    set to 0, yet the very first pass, one second after the start, prints
    the iostat header and an iostat line, and the source stays scheduled
    (a second line follows five passes later). *)
Theorem iostat_processed_after_failed_discovery :
  let c := mk_config 1 0 5 in
  let e := quiet_env 0 no_procfs in
  let st0 := child_init c fs_nothing e in
  let zero_line := mk_iostat_line 0 0 0 0 0 0 0 in
  stress_iostat_iostat_name fs_nothing PATH_MAX = None
  /\ iostat_sleep st0 = 0
  /\ iostat_delay c = 5
  /\ events_of KIostat (snd (loop_step c [] st0 e))
     = [EvIostatHeader; EvIostatLine zero_line]
  /\ events_of KIostat (snd (run_loop c [] st0 (repeat e 6)))
     = [EvIostatHeader; EvIostatLine zero_line; EvIostatLine zero_line].
Proof.
  vm_compute. repeat split; reflexivity.
Qed.

(* ================================================================== *)
(** * Further facts about the configuration and the schedule *)
(* ================================================================== *)

(** Whatever knobs are given, a configuration that returns leaves each
    delay at 0 or within the accepted range. *)
Lemma configure_config_ok (opts : list (knob * Z)) :
  forall p p',
    config_ok (delays p) ->
    configure opts p = Returned tt p' ->
    config_ok (delays p').
Proof.
  induction opts as [| [k v] rest IH]; intros p p' Hok Hrun.
  - cbn in Hrun. injection Hrun as <-. exact Hok.
  - cbn [configure] in Hrun. unfold bind in Hrun.
    destruct (in_range v) eqn:Hv.
    + destruct (stress_set_knob_accepts k v p Hv) as (p1 & E1 & D1 & _).
      rewrite E1 in Hrun. apply (IH p1 p'); [| exact Hrun].
      rewrite D1. unfold in_range in Hv.
      apply andb_true_iff in Hv. destruct Hv as [H1 H2].
      apply Z.leb_le in H1. apply Z.leb_le in H2.
      unfold config_ok in *. destruct Hok as (A & B & C).
      destruct k; cbn [set_delay vmstat_delay thermalstat_delay iostat_delay];
        repeat split; lia.
    + destruct (stress_set_knob_rejects k v p Hv) as (p1 & E1 & _).
      rewrite E1 in Hrun. discriminate Hrun.
Qed.

(** The countdown of a source without interval only goes down. *)
Lemma countdown_iter_disabled (m : Z) (n : nat) :
  0 < m -> Z.of_nat n * m <= 2 ^ 31 ->
  countdown_iter 0 m n 0 = - (Z.of_nat n * m).
Proof.
  intros Hm. induction n as [| n IH]; intros Hn.
  - reflexivity.
  - cbn [countdown_iter]. rewrite IH by lia.
    unfold countdown. cbn [Z.gtb Z.compare andb].
    rewrite wrap_i32_small by (unfold is_i32; lia). lia.
Qed.

(** A source whose knob was left out is never due (as long as its
    [int32_t] countdown has not run out of range). *)
Lemma disabled_source_never_due (k : knob) (c : config) (fs : fs_view)
    (zones : zone_list) (e0 : wake_env) (wakes : list wake_env) :
  config_ok c -> get_delay k c = 0 -> wakes <> [] ->
  Z.of_nat (List.length wakes) * sleep_delay c <= 2 ^ 31 ->
  due (get_delay k c)
      (get_sleep k (fst (run_loop c zones (child_init c fs e0) wakes)))
  = false.
Proof.
  intros Hc Hk Hw Hlen.
  pose proof (sleep_delay_pos c Hc) as Hm.
  assert (H0 : get_sleep k (child_init c fs e0) = 0).
  { unfold child_init. destruct k; cbn [get_sleep get_delay vmstat_sleep
      thermalstat_sleep iostat_sleep] in *; try assumption.
    rewrite Hk. destruct (stress_iostat_iostat_name fs PATH_MAX); reflexivity. }
  rewrite run_loop_sleep, H0, Hk, countdown_iter_disabled by assumption.
  unfold due. apply Z.eqb_neq.
  destruct wakes as [| e rest]; [congruence |].
  cbn [List.length]. rewrite Nat2Z.inj_succ. nia.
Qed.

(** The intervals 5, 7 and 11 run for three passes: what is printed on
    each pass, by source. *)
Example intervals_5_7_11_trace :
  let c := mk_config 5 7 11 in
  let e := fun t => quiet_env t no_procfs in
  let st0 := child_init c fs_sda (e 0%float) in
  let st1 := fst (loop_step c [] st0 (e 0%float)) in
  let st2 := fst (loop_step c [] st1 (e 5%float)) in
  let kinds := fun evs => map event_kind (filter (fun x => negb (is_header x))
                                                 (printed evs)) in
  kinds (snd (loop_step c [] st0 (e 0%float))) = [Some KVmstat]
  /\ kinds (snd (loop_step c [] st1 (e 5%float)))
     = [Some KVmstat; Some KThermalstat]
  /\ kinds (snd (loop_step c [] st2 (e 10%float)))
     = [Some KVmstat; Some KIostat].
Proof. vm_compute. repeat split; reflexivity. Qed.
(* ================================================================== *)
(** * The field scanner *)
(* ================================================================== *)

Lemma skip_nonblank_split (s : string) :
  exists tok,
    s = (tok ++ skip_nonblank s)%string /\ no_blank tok = true.
Proof.
  induction s as [| c r IH]; cbn [skip_nonblank].
  - exists EmptyString. split; reflexivity.
  - destruct (is_space_char c) eqn:Hc.
    + exists EmptyString. split; reflexivity.
    + destruct IH as (tok & E & Hn).
      exists (String c tok). cbn [String.append no_blank].
      rewrite <- E, Hc, Hn. split; reflexivity.
Qed.

Lemma skip_blank_split (s : string) :
  exists sp,
    s = (sp ++ skip_blank s)%string /\ all_blank sp = true.
Proof.
  induction s as [| c r IH]; cbn [skip_blank].
  - exists EmptyString. split; reflexivity.
  - destruct (is_space_char c) eqn:Hc.
    + destruct IH as (sp & E & Hn).
      exists (String c sp). cbn [String.append all_blank].
      rewrite <- E, Hc, Hn. split; reflexivity.
    + exists EmptyString. split; reflexivity.
Qed.

Lemma skip_nonblank_head (s : string) :
  match skip_nonblank s with
  | EmptyString => True
  | String c _ => is_space_char c = true
  end.
Proof.
  induction s as [| c r IH]; cbn [skip_nonblank].
  - exact I.
  - destruct (is_space_char c) eqn:Hc; [exact Hc | exact IH].
Qed.

Lemma skip_blank_head (s : string) :
  match skip_blank s with
  | EmptyString => True
  | String c _ => is_space_char c = false
  end.
Proof.
  induction s as [| c r IH]; cbn [skip_blank].
  - exact I.
  - destruct (is_space_char c) eqn:Hc; [exact IH | exact Hc].
Qed.

Lemma string_app_assoc (a b c : string) :
  ((a ++ b) ++ c)%string = (a ++ (b ++ c))%string.
Proof.
  induction a as [| x a IH]; cbn [String.append].
  - reflexivity.
  - rewrite IH. reflexivity.
Qed.

Lemma string_app_empty_r (a : string) : (a ++ "")%string = a.
Proof.
  induction a as [| x a IH]; cbn [String.append].
  - reflexivity.
  - rewrite IH. reflexivity.
Qed.

(** X1.  [stress_next_field] splits its argument into a first field
    without spaces, the spaces after it, and the rest.  It returns the
    rest, which then begins with a character that is not a space, when
    there is one and at least one space precedes it; it returns false
    when the argument is only a field followed by spaces (or nothing). *)
Theorem stress_next_field_splits (ptr : string) :
  match stress_next_field ptr with
  | Some q =>
      exists tok sp,
        ptr = (tok ++ sp ++ q)%string
        /\ no_blank tok = true
        /\ all_blank sp = true /\ sp <> EmptyString
        /\ exists c r, q = String c r /\ is_space_char c = false
  | None =>
      exists tok sp,
        ptr = (tok ++ sp)%string /\ no_blank tok = true /\ all_blank sp = true
  end.
Proof.
  unfold stress_next_field.
  destruct (skip_nonblank_split ptr) as (tok & Etok & Htok).
  pose proof (skip_nonblank_head ptr) as Hhead.
  remember (skip_nonblank ptr) as p0 eqn:Ep. clear Ep.
  destruct p0 as [| c p].
  - exists tok, EmptyString. repeat split; assumption.
  - destruct (skip_blank_split (String c p)) as (sp & Esp & Hsp).
    pose proof (skip_blank_head (String c p)) as Hq.
    rewrite Esp in Etok.
    destruct (skip_blank (String c p)) as [| c' q].
    + exists tok, sp. rewrite string_app_empty_r in Etok.
      repeat split; assumption.
    + exists tok, sp.
      split; [exact Etok |]. split; [exact Htok |].
      split; [exact Hsp |]. split.
      * intros ->. cbn [String.append] in Esp.
        injection Esp as -> _. congruence.
      * exists c', q. split; [reflexivity | exact Hq].
Qed.

(** The converse, used to read lines: a field, spaces, then something
    that is not a space. *)
Lemma stress_next_field_skip (tok sp q : string) :
  no_blank tok = true -> all_blank sp = true -> sp <> EmptyString ->
  (exists c r, q = String c r /\ is_space_char c = false) ->
  stress_next_field (tok ++ sp ++ q) = Some q.
Proof.
  intros Htok Hsp Hne (c & r & -> & Hc).
  assert (E1 : skip_nonblank (tok ++ sp ++ String c r)
               = (sp ++ String c r)%string).
  { induction tok as [| x tok IH]; cbn [String.append skip_nonblank].
    - destruct sp as [| y sp]; [congruence |].
      cbn [all_blank] in Hsp. apply andb_true_iff in Hsp.
      cbn [String.append skip_nonblank]. rewrite (proj1 Hsp). reflexivity.
    - cbn [no_blank] in Htok. apply andb_true_iff in Htok.
      destruct Htok as [Hx Htok]. apply negb_true_iff in Hx.
      rewrite Hx. apply IH. exact Htok. }
  assert (E2 : skip_blank (sp ++ String c r) = String c r).
  { clear E1 Hne. induction sp as [| y sp IH];
      cbn [String.append skip_blank].
    - rewrite Hc. reflexivity.
    - cbn [all_blank] in Hsp. apply andb_true_iff in Hsp.
      rewrite (proj1 Hsp). apply IH. exact (proj2 Hsp). }
  unfold stress_next_field. rewrite E1.
  destruct sp as [| y sp]; [congruence |].
  cbn [String.append] in *. rewrite E2. reflexivity.
Qed.

(** A field followed by nothing but a line feed has no next field. *)
Lemma stress_next_field_last (tok : string) :
  no_blank tok = true -> stress_next_field (tok ++ newline) = None.
Proof.
  intros Htok.
  assert (E : skip_nonblank (tok ++ newline) = EmptyString).
  { induction tok as [| x tok IH]; cbn [String.append skip_nonblank].
    - reflexivity.
    - cbn [no_blank] in Htok. apply andb_true_iff in Htok.
      destruct Htok as [Hx Htok]. apply negb_true_iff in Hx.
      rewrite Hx. apply IH. exact Htok. }
  unfold stress_next_field. rewrite E. reflexivity.
Qed.

(* ================================================================== *)
(** * Numerals and [atoll] *)
(* ================================================================== *)

Lemma uint_val_of_uint_acc (u : Decimal.uint) :
  forall acc : positive,
    Z.pos (Pos.of_uint_acc u acc) = uint_val (Z.pos acc) u.
Proof.
  induction u; intros acc; cbn [Pos.of_uint_acc uint_val];
    try reflexivity; rewrite IHu; f_equal; lia.
Qed.

Lemma uint_val_of_uint (u : Decimal.uint) :
  Z.of_N (N.of_uint u) = uint_val 0 u.
Proof.
  unfold N.of_uint.
  induction u; cbn [Pos.of_uint uint_val Z.of_N]; try reflexivity;
    try exact IHu; rewrite uint_val_of_uint_acc; reflexivity.
Qed.

Lemma digits_value_uint (u : Decimal.uint) :
  forall acc rest,
    ends_number rest = true ->
    digits_value acc (DecimalString.NilEmpty.string_of_uint u ++ rest)
    = uint_val acc u.
Proof.
  induction u; intros acc rest Hrest;
    cbn [DecimalString.NilEmpty.string_of_uint String.append uint_val];
    try (cbn [digits_value]; cbn; apply IHu; exact Hrest).
  destruct rest as [| c r]; cbn [digits_value]; [reflexivity |].
  cbn [ends_number] in Hrest. apply negb_true_iff in Hrest.
  rewrite Hrest. reflexivity.
Qed.

Lemma atoll_digit_start (c : ascii) (r : string) :
  isdigit c = true ->
  atoll (String c r) = clamp_llong (digits_value 0 (String c r)).
Proof.
  intros Hc. unfold atoll.
  destruct c as [[] [] [] [] [] [] [] []]; try discriminate Hc; reflexivity.
Qed.

Lemma to_uint_not_nil (n : N) : N.to_uint n <> Decimal.Nil.
Proof.
  destruct n as [| p]; [discriminate |].
  apply DecimalPos.Unsigned.to_uint_nonnil.
Qed.

Lemma decimal_nil_empty (n : N) :
  decimal n = DecimalString.NilEmpty.string_of_uint (N.to_uint n).
Proof.
  unfold decimal, DecimalString.NilZero.string_of_uint.
  pose proof (to_uint_not_nil n) as H.
  destruct (N.to_uint n); [congruence | reflexivity ..].
Qed.

Lemma uint_string_no_blank (u : Decimal.uint) :
  no_blank (DecimalString.NilEmpty.string_of_uint u) = true.
Proof. induction u; cbn; assumption || reflexivity. Qed.

Lemma decimal_no_blank (n : N) : no_blank (decimal n) = true.
Proof. rewrite decimal_nil_empty. apply uint_string_no_blank. Qed.

Lemma decimal_head (n : N) :
  exists c r, decimal n = String c r /\ isdigit c = true.
Proof.
  rewrite decimal_nil_empty. pose proof (to_uint_not_nil n) as H.
  destruct (N.to_uint n); [congruence | ..];
    cbn [DecimalString.NilEmpty.string_of_uint];
    eexists; eexists; (split; [reflexivity | reflexivity]).
Qed.

Lemma isdigit_not_blank (c : ascii) :
  isdigit c = true -> is_space_char c = false.
Proof.
  intros Hc.
  destruct c as [[] [] [] [] [] [] [] []]; try discriminate Hc; reflexivity.
Qed.

(** [atoll] reads back the numeral of a number, whatever follows it. *)
Lemma atoll_decimal (n : N) (rest : string) :
  ends_number rest = true ->
  atoll (decimal n ++ rest) = clamp_llong (Z.of_N n).
Proof.
  intros Hrest.
  destruct (decimal_head n) as (c & r & E & Hc).
  assert (Hv : digits_value 0 (decimal n ++ rest) = Z.of_N n).
  { rewrite decimal_nil_empty, digits_value_uint by exact Hrest.
    rewrite <- uint_val_of_uint, DecimalN.Unsigned.of_to. reflexivity. }
  rewrite E in Hv |- *. cbn [String.append] in Hv |- *.
  rewrite atoll_digit_start by exact Hc. rewrite Hv. reflexivity.
Qed.

Lemma clamp_llong_small (z : Z) :
  0 <= z <= LLONG_MAX -> clamp_llong z = z.
Proof. unfold clamp_llong, LLONG_MAX, LLONG_MIN. lia. Qed.

(* ================================================================== *)
(** * Lines of the [/proc] tables *)
(* ================================================================== *)

Lemma ends_number_stat_fields (ns : list N) :
  ends_number (stat_fields ns ++ newline) = true.
Proof. destruct ns; reflexivity. Qed.

Lemma is_u64_small_N (n : N) :
  Z.of_N n <= LLONG_MAX -> wrap_u64 (clamp_llong (Z.of_N n)) = Z.of_N n.
Proof.
  intros H. rewrite clamp_llong_small by lia.
  apply wrap_u64_small. unfold is_u64, LLONG_MAX in *. lia.
Qed.

(** The fields of a line of numbers are read column by column, until the
    stores or the numbers run out. *)
Lemma read_fields_stat (ns : list N) :
  forall ops tok v,
    no_blank tok = true ->
    Forall (fun n => Z.of_N n <= LLONG_MAX) ns ->
    snd (read_fields ops (tok ++ stat_fields ns ++ newline) v)
    = apply_ops ops ns v.
Proof.
  induction ns as [| n ns IH]; intros ops tok v Htok Hns.
  - cbn [stat_fields String.append].
    destruct ops as [| op ops]; [reflexivity |].
    cbn [read_fields apply_ops].
    rewrite stress_next_field_last by exact Htok. reflexivity.
  - destruct ops as [| op ops]; [reflexivity |].
    inversion Hns as [| ? ? Hn Hns']; subst.
    cbn [read_fields apply_ops stat_fields].
    change (tok ++ String " " (decimal n ++ stat_fields ns) ++ newline)%string
      with (tok ++ " " ++ ((decimal n ++ stat_fields ns) ++ newline))%string.
    rewrite string_app_assoc.
    rewrite stress_next_field_skip.
    + rewrite atoll_decimal by apply ends_number_stat_fields.
      rewrite is_u64_small_N by exact Hn.
      apply IH; [apply decimal_no_blank | exact Hns'].
    + exact Htok.
    + reflexivity.
    + discriminate.
    + destruct (decimal_head n) as (c & r & E & Hc).
      exists c, (r ++ stat_fields ns ++ newline)%string.
      rewrite E. split; [reflexivity | apply isdigit_not_blank, Hc].
Qed.

Lemma no_blank_app (a b : string) :
  no_blank a = true -> no_blank b = true -> no_blank (a ++ b) = true.
Proof.
  intros Ha Hb. induction a as [| c a IH]; cbn [String.append no_blank] in *.
  - exact Hb.
  - apply andb_true_iff in Ha. destruct Ha as [Hc Ha].
    rewrite Hc. apply IH. exact Ha.
Qed.

(** A per-cpu line is read by the ["cpu"] block and by no other. *)
Lemma cpu_line_read (id : string) (ns : list N) (v : stress_vmstat_t) :
  id <> EmptyString -> no_blank id = true ->
  Forall (fun n => Z.of_N n <= LLONG_MAX) ns ->
  read_proc_stat_line v (cpu_line id ns) = apply_ops cpu_ops ns v.
Proof.
  intros Hid Hnb Hns.
  destruct id as [| c r]; [congruence |].
  assert (Hc : is_space_char c = false).
  { cbn [no_blank] in Hnb. apply andb_true_iff in Hnb.
    apply negb_true_iff, (proj1 Hnb). }
  unfold read_proc_stat_line, cpu_line.
  assert (Hagg : String.prefix "cpu "
                   ("cpu" ++ String c r ++ stat_fields ns ++ newline) = false).
  { cbn [String.append String.prefix].
    destruct (Ascii.ascii_dec " " c) as [<- | _];
      [discriminate Hc | reflexivity]. }
  rewrite Hagg.
  pose proof (read_fields_stat ns cpu_ops ("cpu" ++ String c r) v
                (no_blank_app "cpu" (String c r) eq_refl Hnb) Hns) as Hread.
  rewrite string_app_assoc in Hread.
  unfold proc_stat_blocks. fold cpu_ops.
  cbn [read_line].
  replace (String.prefix "cpu"
             ("cpu" ++ String c r ++ stat_fields ns ++ newline))
    with true by reflexivity.
  destruct (read_fields cpu_ops
              ("cpu" ++ String c r ++ stat_fields ns ++ newline) v)
    as [[cont p] v1]. cbn [snd] in Hread. subst v1.
  destruct cont; reflexivity.
Qed.

Lemma wrap_u64_add_l (x y : Z) : wrap_u64 (wrap_u64 x + y) = wrap_u64 (x + y).
Proof. unfold wrap_u64. apply Zplus_mod_idemp_l. Qed.

(** X2.  A per-cpu line of [/proc/stat] adds its columns to the cpu
    times, in [uint64_t] arithmetic: user and nice to [user_time]; system,
    irq and softirq to [system_time]; idle to [idle_time]; iowait to
    [wait_time]; steal, guest and guest_nice to [stolen_time].  Columns
    the line does not have count as 0, columns past the tenth are not
    read, and no other field changes. *)
Theorem cpu_line_adds_columns (id : string) (ns : list N)
    (v : stress_vmstat_t) :
  id <> EmptyString -> no_blank id = true ->
  Forall (fun n => Z.of_N n <= LLONG_MAX) ns ->
  vmstat_wf v ->
  let w := read_proc_stat_line v (cpu_line id ns) in
  let col := fun i => Z.of_N (nth i ns 0%N) in
  user_time w = wrap_u64 (user_time v + col 0%nat + col 1%nat)
  /\ system_time w
     = wrap_u64 (system_time v + col 2%nat + col 5%nat + col 6%nat)
  /\ idle_time w = wrap_u64 (idle_time v + col 3%nat)
  /\ wait_time w = wrap_u64 (wait_time v + col 4%nat)
  /\ stolen_time w
     = wrap_u64 (stolen_time v + col 7%nat + col 8%nat + col 9%nat)
  /\ (forall f, vmstat_is_counter f = false -> vmstat_get f w = vmstat_get f v)
  /\ (swap_in w, swap_out w, block_in w, block_out w, interrupt w,
      context_switch w)
     = (swap_in v, swap_out v, block_in v, block_out v, interrupt v,
        context_switch v).
Proof.
  intros Hid Hnb Hns Hwf w col. subst w.
  rewrite (cpu_line_read id ns v Hid Hnb Hns).
  pose proof (Hwf Fuser_time) as Wu. pose proof (Hwf Fsystem_time) as Ws.
  pose proof (Hwf Fidle_time) as Wi. pose proof (Hwf Fwait_time) as Ww.
  pose proof (Hwf Fstolen_time) as Wt.
  apply wrap_u64_small in Wu, Ws, Wi, Ww, Wt.
  subst col. clear Hns Hwf Hid Hnb.
  destruct v as [a1 a2 a3 a4 a5 a6 a7 a8 a9 a10
                 a11 a12 a13 a14 a15 a16 a17 a18 a19 a20].
  cbn [vmstat_get user_time system_time idle_time wait_time
    stolen_time] in *.
  do 11 (destruct ns as [| ? ns];
    [ cbn [apply_ops cpu_ops apply_op vmstat_add vmstat_set vmstat_get nth
           user_time system_time idle_time wait_time stolen_time swap_in
           swap_out block_in block_out interrupt context_switch Z.of_N];
      rewrite ?wrap_u64_add_l, ?Z.add_0_r, ?Wu, ?Ws, ?Wi, ?Ww, ?Wt;
      rewrite <- ?Z.add_assoc, ?wrap_u64_add_l;
      repeat split; try reflexivity; try (f_equal; lia);
      try (intros f Hf; destruct f; try discriminate Hf; reflexivity)
    | ]).
  cbn [apply_ops cpu_ops apply_op vmstat_add vmstat_set vmstat_get nth
       user_time system_time idle_time wait_time stolen_time swap_in
       swap_out block_in block_out interrupt context_switch].
  rewrite ?wrap_u64_add_l. rewrite <- ?Z.add_assoc, ?wrap_u64_add_l.
  repeat split; try reflexivity; try (f_equal; lia);
    try (intros f Hf; destruct f; try discriminate Hf; reflexivity).
Qed.

Lemma cpu_line_adds_columns_witness :
  let v := vmstat_zero in
  let ns := [100; 0; 50; 800; 0; 0; 0; 0; 0; 0]%N in
  let w := read_proc_stat_line v (cpu_line "0" ns) in
  let col := fun i => Z.of_N (nth i ns 0%N) in
  user_time w = wrap_u64 (user_time v + col 0%nat + col 1%nat)
  /\ system_time w
     = wrap_u64 (system_time v + col 2%nat + col 5%nat + col 6%nat)
  /\ idle_time w = wrap_u64 (idle_time v + col 3%nat)
  /\ wait_time w = wrap_u64 (wait_time v + col 4%nat)
  /\ stolen_time w
     = wrap_u64 (stolen_time v + col 7%nat + col 8%nat + col 9%nat)
  /\ (forall f, vmstat_is_counter f = false -> vmstat_get f w = vmstat_get f v)
  /\ (swap_in w, swap_out w, block_in w, block_out w, interrupt w,
      context_switch w)
     = (swap_in v, swap_out v, block_in v, block_out v, interrupt v,
        context_switch v).
Proof.
  apply (cpu_line_adds_columns "0" [100; 0; 50; 800; 0; 0; 0; 0; 0; 0]%N
           vmstat_zero).
  - discriminate.
  - reflexivity.
  - repeat constructor; unfold LLONG_MAX; lia.
  - apply vmstat_zero_wf.
Defined.

Lemma spaces_all_blank (n : nat) : all_blank (spaces n) = true.
Proof. induction n as [| n IH]; [reflexivity | exact IH]. Qed.

(** X3.  A line of [/proc/meminfo] that begins with one of the seven keys
    read (MemFree, Buffers, Cached, KReclaimable, SwapTotal, SwapFree,
    SwapUsed) stores its value in the field of that key and changes no
    other field, whatever the padding between the colon and the value. *)
Theorem meminfo_line_sets_field (key : string) (f : vmstat_field)
    (pad : nat) (n : N) (v : stress_vmstat_t) :
  In (key, [OpSet f]) proc_meminfo_blocks ->
  (0 < pad)%nat ->
  Z.of_N n <= LLONG_MAX ->
  read_proc_meminfo_line v (meminfo_line key pad n)
  = vmstat_set f (Z.of_N n) v.
Proof.
  intros Hkey Hpad Hn.
  assert (Hnext : forall k : string,
             no_blank k = true ->
             stress_next_field (k ++ ":" ++ spaces pad ++ decimal n
                                  ++ " kB" ++ newline)
             = Some (decimal n ++ " kB" ++ newline)%string).
  { intros k Hk.
    replace (k ++ ":" ++ spaces pad ++ decimal n ++ " kB" ++ newline)%string
      with ((k ++ ":") ++ spaces pad ++ decimal n ++ " kB" ++ newline)%string
      by apply string_app_assoc.
    apply stress_next_field_skip.
    - apply no_blank_app; [exact Hk | reflexivity].
    - apply spaces_all_blank.
    - destruct pad; [lia | discriminate].
    - destruct (decimal_head n) as (c & r & E & Hc).
      exists c, (r ++ " kB" ++ newline)%string.
      rewrite E. split; [reflexivity | apply isdigit_not_blank, Hc]. }
  assert (Hval : wrap_u64 (atoll (decimal n ++ " kB" ++ newline))
                 = Z.of_N n).
  { rewrite atoll_decimal by reflexivity. apply is_u64_small_N, Hn. }
  unfold proc_meminfo_blocks in Hkey. cbn [In] in Hkey.
  unfold read_proc_meminfo_line, meminfo_line, proc_meminfo_blocks.
  repeat match goal with
         | H : _ \/ _ |- _ => destruct H as [H | H]
         | H : False |- _ => destruct H
         end;
    injection Hkey as <- <-;
    cbn [read_line];
    repeat match goal with
           | |- context [String.prefix ?k (?key ++ ?rest)] =>
               let b := eval cbv in (String.prefix k key) in
               replace (String.prefix k (key ++ rest)) with b by reflexivity;
               cbv iota
           end;
    cbn [read_fields]; rewrite Hnext by reflexivity;
    cbn [read_fields apply_op]; rewrite Hval; reflexivity.
Qed.

Lemma meminfo_line_sets_field_witness :
  read_proc_meminfo_line vmstat_zero (meminfo_line "MemFree" 8 1234567)
  = vmstat_set Fmemory_free (Z.of_N 1234567) vmstat_zero.
Proof.
  apply (meminfo_line_sets_field "MemFree" Fmemory_free 8 1234567
           vmstat_zero).
  - left. reflexivity.
  - lia.
  - unfold LLONG_MAX. lia.
Defined.

(** X4.  The aggregate line of [/proc/stat], the one that begins with
    ["cpu "], is never counted: the table read with and without such lines
    gives the same structure, so the cpu times are the sums over the
    per-cpu lines only. *)
Theorem aggregate_cpu_line_not_counted (lines : list string)
    (v : stress_vmstat_t) :
  read_proc_stat
    (Some (filter (fun l => negb (String.prefix "cpu " l)) lines)) v
  = read_proc_stat (Some lines) v.
Proof.
  cbn [read_proc_stat]. revert v.
  induction lines as [| l lines IH]; intros v.
  - reflexivity.
  - cbn [filter fold_left].
    destruct (String.prefix "cpu " l) eqn:Hl; cbn [negb].
    + assert (E : read_proc_stat_line v l = v)
        by (unfold read_proc_stat_line; rewrite Hl; reflexivity).
      rewrite E. apply IH.
    + cbn [fold_left]. apply IH.
Qed.

(** A block is entered only to store something. *)
Lemma read_line_no_field (blocks : list (string * list store_op)) :
  Forall (fun b => snd b <> []) blocks ->
  forall buffer ptr v,
    stress_next_field ptr = None -> read_line blocks buffer ptr v = v.
Proof.
  induction 1 as [| [key ops] rest Hops Hrest IH]; intros buffer ptr v Hnone.
  - reflexivity.
  - cbn [read_line]. destruct (String.prefix key buffer).
    + cbn [snd] in Hops. destruct ops as [| op ops]; [congruence |].
      cbn [read_fields]. rewrite Hnone. reflexivity.
    + apply IH. exact Hnone.
Qed.

Lemma read_line_no_key (blocks : list (string * list store_op))
    (buffer : string) :
  no_key_matches blocks buffer ->
  forall ptr v, read_line blocks buffer ptr v = v.
Proof.
  unfold no_key_matches, block_keys.
  induction blocks as [| [key ops] rest IH]; intros Hk ptr v.
  - reflexivity.
  - cbn [map fst] in Hk. inversion Hk as [| ? ? H1 H2]; subst.
    cbn [read_line]. rewrite H1. apply IH. exact H2.
Qed.

(** X5.  A line changes nothing when it has no second field (a key alone,
    or an empty line), and when it begins with none of the keys of its
    table; this holds for the three tables read. *)
Theorem line_without_key_or_value_ignored (buffer : string)
    (v : stress_vmstat_t) :
  (stress_next_field buffer = None
   \/ no_key_matches proc_stat_blocks buffer ->
   read_proc_stat_line v buffer = v)
  /\ (stress_next_field buffer = None
      \/ no_key_matches proc_meminfo_blocks buffer ->
      read_proc_meminfo_line v buffer = v)
  /\ (stress_next_field buffer = None
      \/ no_key_matches proc_vmstat_blocks buffer ->
      read_proc_vmstat_line v buffer = v).
Proof.
  unfold read_proc_stat_line, read_proc_meminfo_line, read_proc_vmstat_line.
  repeat split; intros [Hnone | Hkey];
    try (destruct (String.prefix "cpu " buffer); [reflexivity |]);
    first [ apply read_line_no_key; exact Hkey
          | apply read_line_no_field; [| exact Hnone];
            repeat constructor; discriminate ].
Qed.

(* ================================================================== *)
(** * More on the delta engines *)
(* ================================================================== *)

Lemma STRESS_DELTA_same (x : Z) : STRESS_DELTA x x = 0.
Proof.
  unfold STRESS_DELTA. rewrite Z.gtb_ltb, Z.ltb_irrefl. reflexivity.
Qed.

Lemma STRESS_DELTA_from_zero (x : Z) : is_u64 x -> STRESS_DELTA x 0 = x.
Proof.
  intros Hx. unfold STRESS_DELTA.
  destruct (Z.gtb_spec x 0) as [Hpos | Hle].
  - rewrite Z.sub_0_r. apply wrap_u64_small, Hx.
  - unfold is_u64 in Hx. lia.
Qed.

Lemma STRESS_DELTA_to_zero (p : Z) : 0 <= p -> STRESS_DELTA 0 p = 0.
Proof.
  intros Hp. unfold STRESS_DELTA.
  destruct (Z.gtb_spec 0 p) as [Hlt | _]; [lia | reflexivity].
Qed.

(** X6.  When the tables have not changed between two samples, every
    differenced field of the second sample is 0, for vmstat and for
    iostat, and the gauges of vmstat are the values read. *)
Theorem unchanged_tables_give_zero_deltas (files : procfs)
    (scan : option (list Z)) :
  let vsnap := stress_read_vmstat files vmstat_zero in
  let isnap := stress_read_iostat scan iostat_zero in
  (forall f,
     vmstat_get f (fst (stress_get_vmstat vsnap files))
     = if vmstat_is_counter f then 0 else vmstat_get f vsnap)
  /\ fst (stress_get_iostat isnap scan) = iostat_zero.
Proof.
  intros vsnap isnap. split.
  - intros f. unfold stress_get_vmstat. fold vsnap.
    destruct f; cbn [fst vmstat_get vmstat_is_counter];
      unfold STRESS_VMSTAT_DELTA, STRESS_VMSTAT_COPY;
      rewrite ?STRESS_DELTA_same; reflexivity.
  - unfold stress_get_iostat. fold isnap. cbn [fst].
    unfold STRESS_IOSTAT_DELTA. rewrite !STRESS_DELTA_same. reflexivity.
Qed.

(** X7.  A read of the block device statistics that fails (the file
    cannot be opened, or holds fewer than 15 numbers) yields a sample of
    zeros and resets the previous snapshot to zeros; the sample after it
    therefore reports the absolute counters of the device, not their
    increase since the last good sample. *)
Theorem failed_iostat_read_resets_baseline
    (scan_prev scan_bad scan_next : option (list Z)) :
  scan_bad = None
  \/ (exists l, scan_bad = Some l /\ (List.length l < 15)%nat) ->
  let prev := stress_read_iostat scan_prev iostat_zero in
  stress_get_iostat prev scan_bad = (iostat_zero, iostat_zero)
  /\ fst (stress_get_iostat (snd (stress_get_iostat prev scan_bad)) scan_next)
     = stress_read_iostat scan_next iostat_zero.
Proof.
  intros Hbad prev.
  assert (Hread : stress_read_iostat scan_bad iostat_zero = iostat_zero).
  { destruct Hbad as [-> | (l & -> & Hlen)]; [reflexivity |].
    cbn [stress_read_iostat].
    do 15 (destruct l as [| ? l]; [reflexivity |]).
    cbn [List.length] in Hlen. lia. }
  assert (Hprev : iostat_wf prev)
    by (apply stress_read_iostat_wf, iostat_zero_wf).
  assert (E1 : stress_get_iostat prev scan_bad = (iostat_zero, iostat_zero)).
  { unfold stress_get_iostat. rewrite Hread.
    unfold STRESS_IOSTAT_DELTA. cbn [iostat_zero read_io read_merges
      read_sectors read_ticks write_io write_merges write_sectors
      write_ticks in_flight io_ticks time_in_queue discard_io
      discard_merges discard_sectors discard_ticks].
    pose proof (fun f => proj1 (Hprev f)) as Hp.
    pose proof (Hp Fread_io). pose proof (Hp Fread_merges).
    pose proof (Hp Fread_sectors). pose proof (Hp Fread_ticks).
    pose proof (Hp Fwrite_io). pose proof (Hp Fwrite_merges).
    pose proof (Hp Fwrite_sectors). pose proof (Hp Fwrite_ticks).
    pose proof (Hp Fin_flight). pose proof (Hp Fio_ticks).
    pose proof (Hp Ftime_in_queue). pose proof (Hp Fdiscard_io).
    pose proof (Hp Fdiscard_merges). pose proof (Hp Fdiscard_sectors).
    pose proof (Hp Fdiscard_ticks).
    cbn [iostat_get] in *.
    rewrite !STRESS_DELTA_to_zero by assumption. reflexivity. }
  split; [exact E1 |].
  rewrite E1. cbn [snd].
  pose proof (stress_read_iostat_wf scan_next iostat_zero iostat_zero_wf)
    as Hnext.
  unfold stress_get_iostat. cbn [fst].
  set (cur := stress_read_iostat scan_next iostat_zero) in *.
  unfold STRESS_IOSTAT_DELTA. cbn [iostat_zero read_io read_merges
    read_sectors read_ticks write_io write_merges write_sectors
    write_ticks in_flight io_ticks time_in_queue discard_io
    discard_merges discard_sectors discard_ticks].
  pose proof (Hnext Fread_io). pose proof (Hnext Fread_merges).
  pose proof (Hnext Fread_sectors). pose proof (Hnext Fread_ticks).
  pose proof (Hnext Fwrite_io). pose proof (Hnext Fwrite_merges).
  pose proof (Hnext Fwrite_sectors). pose proof (Hnext Fwrite_ticks).
  pose proof (Hnext Fin_flight). pose proof (Hnext Fio_ticks).
  pose proof (Hnext Ftime_in_queue). pose proof (Hnext Fdiscard_io).
  pose proof (Hnext Fdiscard_merges). pose proof (Hnext Fdiscard_sectors).
  pose proof (Hnext Fdiscard_ticks).
  cbn [iostat_get] in *.
  rewrite !STRESS_DELTA_from_zero by assumption.
  destruct cur; reflexivity.
Qed.

Lemma failed_iostat_read_resets_baseline_witness :
  let prev := stress_read_iostat
                (Some [1; 2; 3; 4; 5; 6; 7; 8; 9; 10; 11; 12; 13; 14; 15])
                iostat_zero in
  let scan_next :=
    Some [10; 20; 30; 40; 50; 60; 70; 80; 90; 100; 110; 120; 130; 140; 150] in
  stress_get_iostat prev (Some [1; 2; 3]) = (iostat_zero, iostat_zero)
  /\ fst (stress_get_iostat (snd (stress_get_iostat prev (Some [1; 2; 3])))
            scan_next)
     = stress_read_iostat scan_next iostat_zero.
Proof.
  apply (failed_iostat_read_resets_baseline
           (Some [1; 2; 3; 4; 5; 6; 7; 8; 9; 10; 11; 12; 13; 14; 15])
           (Some [1; 2; 3])
           (Some [10; 20; 30; 40; 50; 60; 70; 80; 90; 100; 110; 120; 130;
                  140; 150])).
  right. exists [1; 2; 3]. split; [reflexivity | cbn; lia].
Defined.

(* ================================================================== *)
(** * More on the schedule *)
(* ================================================================== *)

(** X8.  The countdown of a source with an interval never reaches 0 at
    the end of a pass: after any number of passes it lies in
    [1, interval] (for iostat, when the device was found). *)
Theorem active_countdown_stays_positive
    (k : knob) (c : config) (fs : fs_view) (zones : zone_list)
    (e0 : wake_env) (wakes : list wake_env) :
  config_ok c ->
  0 < get_delay k c ->
  (k = KIostat -> stress_iostat_iostat_name fs PATH_MAX <> None) ->
  0 < get_sleep k (fst (run_loop c zones (child_init c fs e0) wakes))
    <= get_delay k c.
Proof.
  intros Hc Hk Hio.
  pose proof (sleep_delay_pos c Hc) as Hm.
  pose proof (sleep_delay_le c k Hc Hk) as Hmd.
  assert (Hd : get_delay k c < 2 ^ 31).
  { destruct Hc as (Hv & Ht & Hi). destruct k; cbn [get_delay]; lia. }
  rewrite run_loop_sleep, (child_init_sleep k c fs e0 Hio).
  rewrite countdown_iter_closed by assumption.
  destruct (passes_per_sample_bounds (get_delay k c) (sleep_delay c) Hm Hk)
    as (HK1 & HK2 & HK3).
  pose proof (Z.mod_pos_bound (Z.of_nat (List.length wakes))
                (passes_per_sample (get_delay k c) (sleep_delay c))
                ltac:(lia)) as B.
  nia.
Qed.

Lemma active_countdown_stays_positive_witness :
  0 < get_sleep KIostat
        (fst (run_loop (mk_config 5 7 11) []
                (child_init (mk_config 5 7 11) fs_sda (quiet_env 0 no_procfs))
                (repeat (quiet_env 0 no_procfs) 4)))
    <= get_delay KIostat (mk_config 5 7 11).
Proof.
  apply (active_countdown_stays_positive KIostat (mk_config 5 7 11) fs_sda []
           (quiet_env 0 no_procfs) (repeat (quiet_env 0 no_procfs) 4)).
  - unfold config_ok. cbn. lia.
  - cbn. lia.
  - discriminate.
Defined.

(** A source that is not due prints nothing on the pass. *)
Lemma not_due_prints_nothing (k : knob) (c : config) (zones : zone_list)
    (st : loop_state) (e : wake_env) :
  due (get_delay k c) (get_sleep k (fst (loop_step c zones st e))) = false ->
  events_of k (snd (loop_step c zones st e)) = [].
Proof.
  rewrite loop_step_sleep.
  unfold loop_step, sleep_part, vmstat_part, therm_part, iostat_part.
  destruct (stress_get_vmstat (vmstat_prev st) (procfs_now e)) as [vm pv].
  destruct (stress_get_iostat (iostat_prev st) (iostat_scan e)) as [io pi].
  destruct k; cbn [get_delay get_sleep];
    destruct (due (vmstat_delay c) _);
    destruct (due (thermalstat_delay c) _);
    destruct (due (iostat_delay c) _);
    intros Hdue; try discriminate Hdue;
    destruct (therms_calloc e);
    destruct (header_due (vmstat_count st));
    destruct (header_due (thermalstat_count st));
    destruct (header_due (iostat_count st));
    destruct (0 <? _)%float;
    reflexivity.
Qed.

Lemma disabled_run_prints_nothing (k : knob) (c : config)
    (zones : zone_list) (wakes : list wake_env) :
  config_ok c -> get_delay k c = 0 ->
  forall st j,
    0 <= j -> get_sleep k st = - (j * sleep_delay c) ->
    (j + Z.of_nat (List.length wakes)) * sleep_delay c <= 2 ^ 31 ->
    events_of k (snd (run_loop c zones st wakes)) = [].
Proof.
  intros Hc Hk.
  pose proof (sleep_delay_pos c Hc) as Hm.
  induction wakes as [| e rest IH]; intros st j Hj Hs Hlen.
  - reflexivity.
  - cbn [run_loop]. cbn [List.length] in Hlen.
    rewrite Nat2Z.inj_succ in Hlen.
    pose proof (loop_step_sleep k c zones st e) as Hstep.
    pose proof (not_due_prints_nothing k c zones st e) as Hnot.
    destruct (loop_step c zones st e) as [st1 ev1]. cbn [fst snd] in *.
    assert (Hs1 : get_sleep k st1 = - ((j + 1) * sleep_delay c)).
    { rewrite Hstep, Hs, Hk. unfold countdown. cbn [Z.gtb Z.compare andb].
      rewrite wrap_i32_small by (unfold is_i32; nia). lia. }
    specialize (IH st1 (j + 1) ltac:(lia) Hs1 ltac:(lia)).
    destruct (run_loop c zones st1 rest) as [st2 ev2]. cbn [snd] in *.
    rewrite events_of_app, IH, Hnot; [reflexivity |].
    rewrite Hs1, Hk. unfold due. apply Z.eqb_neq. nia.
Qed.

(** X9.  A source whose knob was left out (delay 0) prints nothing, no
    header and no line, on any pass of the worker, while the other sources
    run; the statement is for runs that keep its [int32_t] countdown in
    range, 2^31 seconds of requested sleep. *)
Theorem disabled_source_prints_nothing
    (k : knob) (fork_ret : Z) (fs : fs_view) (zones : zone_list)
    (e0 : wake_env) (wakes : list wake_env) (p : process) :
  config_ok (delays p) ->
  get_delay k (delays p) = 0 ->
  Z.of_nat (List.length wakes) * sleep_delay (delays p) <= 2 ^ 31 ->
  events_of k (snd (stress_vmstat_start fork_ret fs zones e0 wakes p)) = [].
Proof.
  intros Hc Hk Hlen. unfold stress_vmstat_start.
  destruct ((vmstat_delay (delays p) =? 0)
            && (thermalstat_delay (delays p) =? 0)
            && (iostat_delay (delays p) =? 0)); [reflexivity |].
  destruct ((fork_ret <? 0) || (fork_ret >? 0)); [reflexivity |].
  pose proof (disabled_run_prints_nothing k (delays p) zones wakes Hc Hk
                (child_init (delays p) fs e0) 0) as H.
  destruct (run_loop (delays p) zones (child_init (delays p) fs e0) wakes)
    as [st evs]. cbn [snd] in *.
  apply H; [lia | | lia].
  unfold child_init.
  destruct k; cbn [get_sleep get_delay vmstat_sleep thermalstat_sleep
    iostat_sleep] in *; try lia.
  rewrite Hk. destruct (stress_iostat_iostat_name fs PATH_MAX); reflexivity.
Qed.

Lemma disabled_source_prints_nothing_witness :
  events_of KThermalstat
    (snd (stress_vmstat_start 0 fs_sda [] (quiet_env 0 no_procfs)
            (repeat (quiet_env 0 no_procfs) 10)
            (process_with (mk_config 1 0 3))))
  = [].
Proof.
  apply (disabled_source_prints_nothing KThermalstat 0 fs_sda []
           (quiet_env 0 no_procfs) (repeat (quiet_env 0 no_procfs) 10)
           (process_with (mk_config 1 0 3))).
  - unfold config_ok. cbn. lia.
  - reflexivity.
  - vm_compute. discriminate.
Defined.

(** X10.  When the block device discovery fails while an iostat interval
    is configured, the source is not switched off: [iostat_sleep] starts
    at 0, and the very first pass prints the iostat header and an iostat
    line. *)
Theorem failed_discovery_leaves_iostat_running
    (c : config) (fs : fs_view) (zones : zone_list) (e0 e : wake_env) :
  config_ok c -> 0 < iostat_delay c ->
  stress_iostat_iostat_name fs PATH_MAX = None ->
  iostat_sleep (child_init c fs e0) = 0
  /\ exists l,
       events_of KIostat (snd (loop_step c zones (child_init c fs e0) e))
       = [EvIostatHeader; EvIostatLine l].
Proof.
  intros Hc Hpos Hnone.
  destruct (iostat_due_after_failed_discovery c fs zones e0 e Hc Hpos Hnone)
    as [H0 Hdue].
  split; [exact H0 |].
  pose proof (printed_iff_due KIostat c zones (child_init c fs e0) e
                ltac:(discriminate)) as Hiff.
  cbn [get_delay get_sleep] in Hiff. apply Hiff in Hdue.
  destruct (loop_step_events_of KIostat c zones (child_init c fs e0) e)
    as [[Hnil _] | (l & Hev & Hl & _)]; [congruence |].
  cbn [get_count child_init iostat_count header_due header_event app] in Hev.
  change (header_due 0) with true in Hev. cbn [app] in Hev.
  assert (Hin : In l (events_of KIostat
                        (snd (loop_step c zones (child_init c fs e0) e)))).
  { rewrite Hev. right. left. reflexivity. }
  unfold events_of in Hin. apply filter_In in Hin. destruct Hin as [_ Hk].
  destruct l; try discriminate Hk; try discriminate Hl.
  eexists. exact Hev.
Qed.

Lemma failed_discovery_leaves_iostat_running_witness :
  iostat_sleep (child_init (mk_config 0 0 2) fs_nothing
                  (quiet_env 0 no_procfs)) = 0
  /\ exists l,
       events_of KIostat
         (snd (loop_step (mk_config 0 0 2) []
                 (child_init (mk_config 0 0 2) fs_nothing
                    (quiet_env 0 no_procfs))
                 (quiet_env 0 no_procfs)))
       = [EvIostatHeader; EvIostatLine l].
Proof.
  apply (failed_discovery_leaves_iostat_running (mk_config 0 0 2) fs_nothing
           [] (quiet_env 0 no_procfs) (quiet_env 0 no_procfs)).
  - unfold config_ok. cbn. lia.
  - cbn. lia.
  - reflexivity.
Defined.

(* ================================================================== *)
(** * More on the knobs *)
(* ================================================================== *)

Lemma configure_returned_in_range (opts : list (knob * Z)) :
  forall p p', configure opts p = Returned tt p' -> all_in_range opts.
Proof.
  induction opts as [| [k v] rest IH]; intros p p' Hrun.
  - constructor.
  - cbn [configure] in Hrun. unfold bind in Hrun.
    destruct (in_range v) eqn:Hv.
    + destruct (stress_set_knob_accepts k v p Hv) as (p1 & E1 & _).
      rewrite E1 in Hrun. constructor; [exact Hv | exact (IH p1 p' Hrun)].
    + destruct (stress_set_knob_rejects k v p Hv) as (p1 & E1 & _).
      rewrite E1 in Hrun. discriminate Hrun.
Qed.

(** X11.  Reading the knobs returns to its caller exactly when every
    value given lies in 1..3600; and then, starting from a fresh process,
    each of the three delays is 0 or lies in 1..3600, nothing was written
    to stderr and no process was forked. *)
Theorem configure_returns_iff_in_range (opts : list (knob * Z)) :
  (forall p,
     all_in_range opts <-> exists p', configure opts p = Returned tt p')
  /\ (forall p',
        configure opts process_init = Returned tt p' ->
        config_ok (delays p') /\ stderr p' = [] /\ forks p' = 0%nat).
Proof.
  split.
  - intros p. split.
    + intros Hr. destruct (configure_accepts opts Hr p) as (p' & E & _).
      exists p'. exact E.
    + intros [p' E]. exact (configure_returned_in_range opts p p' E).
  - intros p' E.
    pose proof (configure_returned_in_range opts process_init p' E) as Hr.
    destruct (configure_accepts opts Hr process_init)
      as (p1 & E1 & S1 & F1 & _).
    rewrite E in E1. injection E1 as <-.
    split; [| split; assumption].
    apply (configure_config_ok opts process_init p'); [| exact E].
    unfold config_ok. cbn. lia.
Qed.

Lemma knob_eqb_eq (a b : knob) : knob_eqb a b = true <-> a = b.
Proof. destruct a, b; cbn; split; intros H; congruence. Qed.

(** X12.  When every value is accepted, each knob ends with the value of
    its last occurrence in the option list and a knob that was not given
    keeps its delay; the thermal zone flag is set exactly when the
    thermalstat knob was given (or the flag was set before). *)
Theorem last_value_of_a_knob_wins (opts : list (knob * Z)) :
  forall p p',
    configure opts p = Returned tt p' ->
    (forall k,
       get_delay k (delays p') = last_setting k opts (get_delay k (delays p)))
    /\ opt_flags_tz_info p' = opt_flags_tz_info p || thermalstat_given opts.
Proof.
  induction opts as [| [k v] rest IH]; intros p p' Hrun.
  - cbn in Hrun. injection Hrun as <-. cbn [last_setting thermalstat_given
      existsb]. rewrite orb_false_r. split; reflexivity.
  - cbn [configure] in Hrun. unfold bind in Hrun.
    destruct (stress_set_knob k v p) as [r p1 | code p1] eqn:E1;
      [| discriminate Hrun].
    destruct (IH p1 p' Hrun) as [Hd Hf].
    assert (Hp1 : delays p1 = set_delay k v (delays p)
                  /\ opt_flags_tz_info p1
                     = opt_flags_tz_info p || knob_eqb KThermalstat k).
    { destruct k; cbn [stress_set_knob] in E1;
        unfold stress_set_vmstat, stress_set_thermalstat, stress_set_iostat,
          stress_set_generic_stat in E1;
        destruct ((v <? 1) || (v >? 3600)); try discriminate E1;
        injection E1 as _ <-; cbn; rewrite ?orb_false_r, ?orb_true_r;
        split; reflexivity. }
    destruct Hp1 as [D1 F1]. split.
    + intros k0. rewrite Hd, D1. cbn [last_setting]. f_equal.
      destruct k0, k; reflexivity.
    + rewrite Hf, F1. cbn [thermalstat_given existsb fst].
      rewrite orb_assoc. reflexivity.
Qed.

Lemma last_value_of_a_knob_wins_witness :
  let opts := [(KVmstat, 1); (KThermalstat, 10); (KVmstat, 5)] in
  let p' := mk_process (mk_config 5 10 0) true [] 0%nat 0 in
  (forall k,
     get_delay k (delays p')
     = last_setting k opts (get_delay k (delays process_init)))
  /\ opt_flags_tz_info p'
     = opt_flags_tz_info process_init || thermalstat_given opts.
Proof.
  apply (last_value_of_a_knob_wins
           [(KVmstat, 1); (KThermalstat, 10); (KVmstat, 5)] process_init
           (mk_process (mk_config 5 10 0) true [] 0%nat 0)).
  reflexivity.
Defined.

(* ================================================================== *)
(** * The output of one pass *)
(* ================================================================== *)

(** X13.  Within a pass the sources report in a fixed order: the sleep
    (if any) comes first, then what vmstat prints, then thermalstat, then
    iostat; and each source prints at most one data line. *)
Theorem pass_output_is_ordered (c : config) (zones : zone_list)
    (st : loop_state) (e : wake_env) :
  let evs := snd (loop_step c zones st e) in
  printed evs
  = events_of KVmstat evs ++ events_of KThermalstat evs
    ++ events_of KIostat evs
  /\ (evs = printed evs \/ exists nsec, evs = EvSleep nsec :: printed evs)
  /\ (forall k, (List.length (data_lines (events_of k evs)) <= 1)%nat).
Proof.
  unfold loop_step, sleep_part, vmstat_part, therm_part, iostat_part.
  destruct (stress_get_vmstat (vmstat_prev st) (procfs_now e)) as [vm pv].
  destruct (stress_get_iostat (iostat_prev st) (iostat_scan e)) as [io pi].
  destruct (due (vmstat_delay c) _);
    destruct (due (thermalstat_delay c) _);
    destruct (due (iostat_delay c) _);
    destruct (therms_calloc e);
    destruct (header_due (vmstat_count st));
    destruct (header_due (thermalstat_count st));
    destruct (header_due (iostat_count st));
    destruct (0 <? _)%float;
    cbn [snd app andb];
    (split; [reflexivity |]);
    (split; [first [left; reflexivity | right; eexists; reflexivity] |]);
    intros k; destruct k; cbn; lia.
Qed.

(** X14.  When the buffer for the thermal zones cannot be allocated, the
    thermal report of the pass is dropped without a trace: nothing is
    printed for the source and its report counter stays, while its
    countdown goes on as on any pass. *)
Theorem thermal_report_dropped_without_buffer (c : config)
    (zones : zone_list) (st : loop_state) (e : wake_env) :
  therms_calloc e = false ->
  events_of KThermalstat (snd (loop_step c zones st e)) = []
  /\ thermalstat_count (fst (loop_step c zones st e)) = thermalstat_count st
  /\ thermalstat_sleep (fst (loop_step c zones st e))
     = countdown (thermalstat_delay c) (thermalstat_sleep st) (sleep_delay c).
Proof.
  intros Hcalloc.
  pose proof (loop_step_sleep KThermalstat c zones st e) as Hs.
  cbn [get_sleep get_delay] in Hs. rewrite Hs. clear Hs.
  unfold loop_step, sleep_part, vmstat_part, therm_part, iostat_part.
  rewrite Hcalloc, andb_false_r.
  destruct (stress_get_vmstat (vmstat_prev st) (procfs_now e)) as [vm pv].
  destruct (stress_get_iostat (iostat_prev st) (iostat_scan e)) as [io pi].
  destruct (due (vmstat_delay c) _);
    destruct (due (iostat_delay c) _);
    destruct (header_due (vmstat_count st));
    destruct (header_due (iostat_count st));
    destruct (0 <? _)%float;
    repeat split; reflexivity.
Qed.

Lemma thermal_report_dropped_without_buffer_witness :
  let c := mk_config 0 1 0 in
  let st := child_init c fs_sda (quiet_env 0 no_procfs) in
  let e := mk_wake_env 0 100 2 no_procfs None false [] (0, 0, 0)%float None in
  events_of KThermalstat (snd (loop_step c [] st e)) = []
  /\ thermalstat_count (fst (loop_step c [] st e)) = thermalstat_count st
  /\ thermalstat_sleep (fst (loop_step c [] st e))
     = countdown (thermalstat_delay c) (thermalstat_sleep st) (sleep_delay c).
Proof.
  apply (thermal_report_dropped_without_buffer (mk_config 0 1 0) []
           (child_init (mk_config 0 1 0) fs_sda (quiet_env 0 no_procfs))
           (mk_wake_env 0 100 2 no_procfs None false [] (0, 0, 0)%float None)).
  reflexivity.
Defined.

(* ================================================================== *)
(** * Starting and stopping the worker *)
(* ================================================================== *)

(** X15.  On a process that has no worker yet: [stress_vmstat_start]
    returns without forking when no source has an interval, returns in the
    parent (and after a failed [fork]) having called [fork] once, and in
    the child never returns: the child ends with [_exit(0)].
    [stress_vmstat_stop] afterwards kills and reaps the child exactly when
    [fork] gave a pid; it leaves [vmstat_pid] as it is, so a second call
    makes the same calls again. *)
Theorem start_then_stop
    (fork_ret : Z) (fs : fs_view) (zones : zone_list) (e0 : wake_env)
    (wakes : list wake_env) (p : process) :
  vmstat_pid p = 0 ->
  let r := fst (stress_vmstat_start fork_ret fs zones e0 wakes p) in
  let p' := final_process r in
  let stop := snd (stress_vmstat_stop p') in
  (any_source (delays p) = false -> r = Returned tt p /\ stop = [])
  /\ (any_source (delays p) = true ->
      forks p' = S (forks p) /\ vmstat_pid p' = fork_ret
      /\ (0 < fork_ret ->
          r = Returned tt p'
          /\ stop = [SysKill fork_ret; SysWaitpid fork_ret])
      /\ (fork_ret < 0 -> r = Returned tt p' /\ stop = [])
      /\ (fork_ret = 0 -> r = Exited 0 p'))
  /\ stress_vmstat_stop (fst (stress_vmstat_stop p')) = stress_vmstat_stop p'.
Proof.
  intros Hpid r p' stop.
  assert (Htwice : forall q,
             stress_vmstat_stop (fst (stress_vmstat_stop q))
             = stress_vmstat_stop q).
  { intros q. unfold stress_vmstat_stop.
    destruct (vmstat_pid q >? 0) eqn:E; cbn [fst]; rewrite E; reflexivity. }
  split; [| split; [| apply Htwice]]; subst stop p' r;
    unfold stress_vmstat_start, any_source.
  - intros Hany. apply negb_false_iff in Hany. rewrite Hany.
    cbn [fst final_process]. unfold stress_vmstat_stop.
    rewrite Hpid. split; reflexivity.
  - intros Hany. apply negb_true_iff in Hany. rewrite Hany.
    destruct (Z.ltb_spec fork_ret 0) as [Hneg | Hnn];
      destruct (Z.gtb_spec fork_ret 0) as [Hpos | Hnp];
      cbn [orb];
      try (destruct (run_loop (delays p) zones
                       (child_init (delays p) fs e0) wakes) as [st evs]);
      cbn [fst final_process forks vmstat_pid];
      unfold stress_vmstat_stop; cbn [vmstat_pid];
      (split; [reflexivity |]); (split; [reflexivity |]);
      repeat split; intros; try lia; try reflexivity;
      destruct (Z.gtb_spec fork_ret 0); try lia; reflexivity.
Qed.

Lemma start_then_stop_witness :
  let p := process_with (mk_config 1 0 0) in
  let r := fst (stress_vmstat_start 4711 fs_sda [] (quiet_env 0 no_procfs)
                  [] p) in
  let p' := final_process r in
  let stop := snd (stress_vmstat_stop p') in
  (any_source (delays p) = false -> r = Returned tt p /\ stop = [])
  /\ (any_source (delays p) = true ->
      forks p' = S (forks p) /\ vmstat_pid p' = 4711
      /\ (0 < 4711 ->
          r = Returned tt p' /\ stop = [SysKill 4711; SysWaitpid 4711])
      /\ (4711 < 0 -> r = Returned tt p' /\ stop = [])
      /\ (4711 = 0 -> r = Exited 0 p'))
  /\ stress_vmstat_stop (fst (stress_vmstat_stop p')) = stress_vmstat_stop p'.
Proof.
  apply (start_then_stop 4711 fs_sda [] (quiet_env 0 no_procfs) []
           (process_with (mk_config 1 0 0))).
  reflexivity.
Defined.

(* ================================================================== *)
(** * The device discovery finds the least truncated name *)
(* ================================================================== *)

Lemma list_ascii_app (a b : string) :
  list_ascii_of_string (a ++ b)
  = list_ascii_of_string a ++ list_ascii_of_string b.
Proof.
  induction a as [| c a IH]; cbn [String.append list_ascii_of_string app].
  - reflexivity.
  - rewrite IH. reflexivity.
Qed.

Lemma string_of_list_app (a b : list ascii) :
  string_of_list_ascii (a ++ b)
  = (string_of_list_ascii a ++ string_of_list_ascii b)%string.
Proof.
  induction a as [| c a IH]; cbn [String.append string_of_list_ascii app].
  - reflexivity.
  - rewrite IH. reflexivity.
Qed.

Lemma digits_only_list (s : string) :
  digits_only s = forallb isdigit (list_ascii_of_string s).
Proof.
  induction s as [| c s IH]; cbn [digits_only list_ascii_of_string forallb].
  - reflexivity.
  - rewrite IH. reflexivity.
Qed.

(** The loop, on the reversed name: what it returns exists, and is the
    name of the device less a shortest run of final digits; when it
    returns nothing no such name exists. *)
Lemma try_iostat_names_spec (ok : string -> bool) (len : nat)
    (rdev : list ascii) :
  match try_iostat_names ok len rdev with
  | Some name =>
      ok name = true
      /\ exists rsuf rpre,
           rdev = rsuf ++ rpre /\ rpre <> []
           /\ forallb isdigit rsuf = true
           /\ name = snprintf_iostat_name len
                       (string_of_list_ascii (rev rpre))
           /\ forall rsuf' rpre',
                rdev = rsuf' ++ rpre' ->
                (List.length rsuf' < List.length rsuf)%nat ->
                ok (snprintf_iostat_name len
                      (string_of_list_ascii (rev rpre'))) = false
  | None =>
      forall rsuf rpre,
        rdev = rsuf ++ rpre -> rpre <> [] ->
        forallb isdigit rsuf = true ->
        ok (snprintf_iostat_name len (string_of_list_ascii (rev rpre)))
        = false
  end.
Proof.
  induction rdev as [| c rest IH].
  - cbn [try_iostat_names]. intros rsuf rpre E Hne _.
    symmetry in E. apply app_eq_nil in E. destruct E as [_ ->]. congruence.
  - cbn [try_iostat_names].
    destruct (ok (snprintf_iostat_name len
                    (string_of_list_ascii (rev (c :: rest))))) eqn:Hok.
    + split; [exact Hok |].
      exists [], (c :: rest). repeat split; try reflexivity.
      * discriminate.
      * intros rsuf' rpre' _ Hlen. cbn in Hlen. lia.
    + destruct (isdigit c) eqn:Hc.
      * destruct (try_iostat_names ok len rest) as [name |].
        -- destruct IH as (Hname & rsuf & rpre & E & Hne & Hdig & En & Hfirst).
           split; [exact Hname |].
           exists (c :: rsuf), rpre. subst rest.
           split; [reflexivity |]. split; [exact Hne |].
           split; [cbn [forallb]; rewrite Hc, Hdig; reflexivity |].
           split; [exact En |].
           intros rsuf' rpre' E' Hlen.
           destruct rsuf' as [| c' rsuf'].
           ++ cbn [app] in E'. subst rpre'. exact Hok.
           ++ cbn [app] in E'. injection E' as -> E'.
              apply (Hfirst rsuf' rpre' E'). cbn [List.length] in Hlen. lia.
        -- intros rsuf rpre E Hne Hdig.
           destruct rsuf as [| c' rsuf].
           ++ cbn [app] in E. subst rpre. exact Hok.
           ++ cbn [app] in E. injection E as -> E.
              cbn [forallb] in Hdig. apply andb_true_iff in Hdig.
              apply (IH rsuf rpre E Hne (proj2 Hdig)).
      * intros rsuf rpre E Hne Hdig.
        destruct rsuf as [| c' rsuf].
        -- cbn [app] in E. subst rpre. exact Hok.
        -- cbn [app] in E. injection E as -> E.
           cbn [forallb] in Hdig. rewrite Hc in Hdig. discriminate Hdig.
Qed.

(** X16.  The name [stress_iostat_iostat_name] returns is that of an
    existing statistics file: the one of the device name (less a leading
    [/dev/]) with the shortest run of final digits removed for which the
    file exists, at least one character being kept.  It returns nothing
    exactly when no such file exists (or the path or its device cannot be
    resolved). *)
Theorem discovery_finds_least_truncated_name (fs : fs_view) (len : nat)
    (temp dev : string) :
  realpath_temp fs = Some temp ->
  find_mount_dev fs temp = Some dev ->
  match stress_iostat_iostat_name fs len with
  | Some name =>
      stat_ok fs name = true
      /\ exists pre suf,
           skip_dev_prefix dev = (pre ++ suf)%string
           /\ pre <> EmptyString /\ digits_only suf = true
           /\ name = snprintf_iostat_name len pre
           /\ forall pre' suf',
                skip_dev_prefix dev = (pre' ++ suf')%string ->
                (String.length suf' < String.length suf)%nat ->
                stat_ok fs (snprintf_iostat_name len pre') = false
  | None =>
      forall pre suf,
        skip_dev_prefix dev = (pre ++ suf)%string ->
        pre <> EmptyString -> digits_only suf = true ->
        stat_ok fs (snprintf_iostat_name len pre) = false
  end.
Proof.
  intros Htemp Hdev. unfold stress_iostat_iostat_name.
  rewrite Htemp, Hdev.
  set (d := skip_dev_prefix dev).
  pose proof (try_iostat_names_spec (stat_ok fs) len
                (rev (list_ascii_of_string d))) as H.
  assert (Hsplit : forall pre suf : string,
             d = (pre ++ suf)%string ->
             rev (list_ascii_of_string d)
             = rev (list_ascii_of_string suf)
               ++ rev (list_ascii_of_string pre)).
  { intros pre suf ->. rewrite list_ascii_app. apply rev_app_distr. }
  assert (Hback : forall s : string,
             string_of_list_ascii (rev (rev (list_ascii_of_string s))) = s).
  { intros s. rewrite rev_involutive.
    apply string_of_list_ascii_of_string. }
  destruct (try_iostat_names (stat_ok fs) len (rev (list_ascii_of_string d)))
    as [name |].
  - destruct H as (Hok & rsuf & rpre & E & Hne & Hdig & En & Hfirst).
    split; [exact Hok |].
    exists (string_of_list_ascii (rev rpre)), (string_of_list_ascii (rev rsuf)).
    split; [| split; [| split; [| split]]].
    + rewrite <- string_of_list_app, <- rev_app_distr, <- E.
      symmetry. apply Hback.
    + intros Hempty. apply Hne.
      apply (f_equal list_ascii_of_string) in Hempty.
      rewrite list_ascii_of_string_of_list_ascii in Hempty.
      cbn in Hempty. apply (f_equal (@rev ascii)) in Hempty.
      rewrite rev_involutive in Hempty. exact Hempty.
    + rewrite digits_only_list, list_ascii_of_string_of_list_ascii.
      rewrite forallb_forall in Hdig |- *.
      intros x Hx. apply Hdig. apply in_rev. exact Hx.
    + exact En.
    + intros pre' suf' E' Hlen.
      specialize (Hfirst (rev (list_ascii_of_string suf'))
                    (rev (list_ascii_of_string pre')) (Hsplit pre' suf' E')).
      rewrite Hback in Hfirst. apply Hfirst.
      rewrite length_rev.
      assert (L : forall s, List.length (list_ascii_of_string s)
                            = String.length s).
      { intros s. induction s as [| x s IHs]; cbn; [reflexivity | now rewrite IHs]. }
      rewrite L.
      assert (L2 : List.length rsuf
                   = String.length (string_of_list_ascii (rev rsuf))).
      { rewrite <- L, list_ascii_of_string_of_list_ascii, length_rev.
        reflexivity. }
      rewrite L2. exact Hlen.
  - intros pre suf E Hne Hdig.
    specialize (H (rev (list_ascii_of_string suf))
                  (rev (list_ascii_of_string pre)) (Hsplit pre suf E)).
    rewrite Hback in H. apply H.
    + intros Hnil. apply Hne.
      apply (f_equal (@rev ascii)) in Hnil. rewrite rev_involutive in Hnil.
      cbn in Hnil. destruct pre; [reflexivity | discriminate Hnil].
    + rewrite digits_only_list in Hdig.
      rewrite forallb_forall in Hdig |- *.
      intros x Hx. apply Hdig. apply in_rev. exact Hx.
Qed.

Lemma discovery_finds_least_truncated_name_witness :
  match stress_iostat_iostat_name fs_sda PATH_MAX with
  | Some name =>
      stat_ok fs_sda name = true
      /\ exists pre suf,
           skip_dev_prefix "/dev/sda12" = (pre ++ suf)%string
           /\ pre <> EmptyString /\ digits_only suf = true
           /\ name = snprintf_iostat_name PATH_MAX pre
           /\ forall pre' suf',
                skip_dev_prefix "/dev/sda12" = (pre' ++ suf')%string ->
                (String.length suf' < String.length suf)%nat ->
                stat_ok fs_sda (snprintf_iostat_name PATH_MAX pre') = false
  | None =>
      forall pre suf,
        skip_dev_prefix "/dev/sda12" = (pre ++ suf)%string ->
        pre <> EmptyString -> digits_only suf = true ->
        stat_ok fs_sda (snprintf_iostat_name PATH_MAX pre) = false
  end.
Proof.
  apply (discovery_finds_least_truncated_name fs_sda PATH_MAX "/tmp"
           "/dev/sda12"); reflexivity.
Defined.

(* ================================================================== *)
(** * The device of a path *)
(* ================================================================== *)

Lemma getmntent_loop_spec (m : mount_view) (name : string) (dev : Z)
    (table : list mntent) :
  match getmntent_loop m name dev table with
  | Some mnt =>
      exists before after,
        table = before ++ mnt :: after
        /\ mount_matches m name dev mnt = true
        /\ Forall (fun x => mount_matches m name dev x = false) before
  | None => Forall (fun x => mount_matches m name dev x = false) table
  end.
Proof.
  induction table as [| x rest IH]; cbn [getmntent_loop].
  - constructor.
  - destruct (mount_matches m name dev x) eqn:Hx.
    + exists [], rest. repeat split; [exact Hx | constructor].
    + destruct (getmntent_loop m name dev rest) as [mnt |].
      * destruct IH as (before & after & -> & Hm & Hb).
        exists (x :: before), after.
        repeat split; [exact Hm | constructor; assumption].
      * constructor; assumption.
Qed.

(** X17.  [stress_find_mount_dev] answers with the resolved device name
    of the first entry of the mount table that names the path, or whose
    device or mount point is on the device of the path; [/etc/mtab] is
    read only when [/proc/mounts] cannot be opened.  It answers nothing
    when the path cannot be examined, no table can be opened, no entry
    matches, or the name cannot be resolved. *)
Theorem find_mount_dev_takes_first_match (m : mount_view) (name : string) :
  match stress_find_mount_dev m name with
  | Some path =>
      exists statbuf table before mnt after,
        sys_stat m name = Some statbuf
        /\ (proc_mounts m = Some table
            \/ (proc_mounts m = None /\ etc_mtab m = Some table))
        /\ table = before ++ mnt :: after
        /\ (let dev := if st_is_device statbuf then st_rdev statbuf
                       else st_dev statbuf in
            mount_matches m name dev mnt = true
            /\ Forall (fun x => mount_matches m name dev x = false) before)
        /\ sys_realpath m (mnt_fsname mnt) = Some path
  | None =>
      sys_stat m name = None
      \/ (proc_mounts m = None /\ etc_mtab m = None)
      \/ exists statbuf table,
           sys_stat m name = Some statbuf
           /\ open_mount_table m = Some table
           /\ (let dev := if st_is_device statbuf then st_rdev statbuf
                          else st_dev statbuf in
               Forall (fun x => mount_matches m name dev x = false) table
               \/ exists mnt,
                    getmntent_loop m name dev table = Some mnt
                    /\ sys_realpath m (mnt_fsname mnt) = None)
  end.
Proof.
  unfold stress_find_mount_dev.
  destruct (sys_stat m name) as [statbuf |] eqn:Hstat; [| left; reflexivity].
  set (dev := if st_is_device statbuf then st_rdev statbuf else st_dev statbuf).
  destruct (open_mount_table m) as [table |] eqn:Hopen.
  - pose proof (getmntent_loop_spec m name dev table) as Hloop.
    assert (Hwhich : proc_mounts m = Some table
                     \/ (proc_mounts m = None /\ etc_mtab m = Some table)).
    { unfold open_mount_table in Hopen.
      destruct (proc_mounts m) as [t |]; [left; exact Hopen |].
      right. split; [reflexivity | exact Hopen]. }
    destruct (getmntent_loop m name dev table) as [mnt |] eqn:Hfound.
    + destruct Hloop as (before & after & E & Hm & Hb).
      destruct (sys_realpath m (mnt_fsname mnt)) as [path |] eqn:Hreal.
      * exists statbuf, table, before, mnt, after.
        repeat split; assumption.
      * right. right. exists statbuf, table.
        split; [reflexivity |]. split; [reflexivity |].
        right. exists mnt. split; [exact Hfound | exact Hreal].
    + right. right. exists statbuf, table.
      split; [reflexivity |]. split; [reflexivity |]. left. exact Hloop.
  - right. left. unfold open_mount_table in Hopen.
    destruct (proc_mounts m); [discriminate Hopen |].
    split; [reflexivity | exact Hopen].
Qed.

(* ================================================================== *)
(** * The cpu frequencies *)
(* ================================================================== *)

Lemma ghz_step_unusable (a : ghz_acc) (e : cpu_entry) :
  usable_cpu_entry e = false -> ghz_step a e = a.
Proof.
  unfold usable_cpu_entry, ghz_step. intros H.
  destruct (is_cpu_dir (d_name e)); [| reflexivity].
  destruct (scaling_cur_freq e) as [freq |]; [| reflexivity].
  cbn [andb] in H. rewrite H. reflexivity.
Qed.

Lemma fold_ghz_filter (entries : list cpu_entry) :
  forall a,
    fold_left ghz_step (filter usable_cpu_entry entries) a
    = fold_left ghz_step entries a.
Proof.
  induction entries as [| e rest IH]; intros a.
  - reflexivity.
  - cbn [filter fold_left]. destruct (usable_cpu_entry e) eqn:He.
    + cbn [fold_left]. apply IH.
    + rewrite (ghz_step_unusable a e He). apply IH.
Qed.

(** X18.  Only the entries named [cpu] and a digit whose current
    frequency can be read and is not negative count for the average,
    minimum and maximum: every other entry of the directory can be
    removed without changing the three values; and when no entry counts
    the three values are 0 (the report then shows n/a). *)
Theorem cpu_ghz_ignores_unusable_entries (entries : list cpu_entry) :
  stress_get_cpu_ghz (filter usable_cpu_entry entries)
  = stress_get_cpu_ghz entries
  /\ (forallb (fun e => negb (usable_cpu_entry e)) entries = true ->
      stress_get_cpu_ghz entries = (0, 0, 0)%float).
Proof.
  split.
  - unfold stress_get_cpu_ghz. rewrite fold_ghz_filter. reflexivity.
  - intros Hnone. unfold stress_get_cpu_ghz.
    assert (E : fold_left ghz_step entries (mk_ghz_acc 0 DBL_MAX 0 0)
                = mk_ghz_acc 0 DBL_MAX 0 0).
    { generalize (mk_ghz_acc 0 DBL_MAX 0 0).
      induction entries as [| e rest IH]; intros a; [reflexivity |].
      cbn [forallb] in Hnone. apply andb_true_iff in Hnone.
      destruct Hnone as [He Hrest]. apply negb_true_iff in He.
      cbn [fold_left]. rewrite (ghz_step_unusable a e He).
      apply IH. exact Hrest. }
    rewrite E. reflexivity.
Qed.

(* ================================================================== *)
(** * The ping socket stressor *)
(* ================================================================== *)

Lemma wrap_i32_succ (i : Z) : wrap_i32 (wrap_i32 i + 1) = wrap_i32 (i + 1).
Proof.
  unfold wrap_i32.
  replace ((i + 2 ^ 31) mod 2 ^ 32 - 2 ^ 31 + 1 + 2 ^ 31)
    with ((i + 2 ^ 31) mod 2 ^ 32 + 1) by lia.
  rewrite Zplus_mod_idemp_l.
  replace (i + 2 ^ 31 + 1) with (i + 1 + 2 ^ 31) by lia. reflexivity.
Qed.

Lemma wrap_u16_succ (i : Z) : wrap_u16 (wrap_u16 i + 1) = wrap_u16 (i + 1).
Proof. unfold wrap_u16. apply Zplus_mod_idemp_l. Qed.

Lemma land_63_wrap_i32 (i : Z) : Z.land (wrap_i32 i) 63 = i mod 64.
Proof.
  change 63 with (Z.ones 6). rewrite Z.land_ones by lia.
  change (2 ^ 6) with 64. unfold wrap_i32.
  pose proof (Z.div_mod (i + 2 ^ 31) (2 ^ 32) ltac:(lia)) as E.
  replace ((i + 2 ^ 31) mod 2 ^ 32 - 2 ^ 31)
    with (i + (- (2 ^ 26 * ((i + 2 ^ 31) / 2 ^ 32))) * 64) by lia.
  apply Z_mod_plus_full.
Qed.

Lemma ping_loop_length (sents : list Z) :
  forall st, List.length (snd (ping_loop st sents)) = List.length sents.
Proof.
  induction sents as [| s rest IH]; intros st.
  - reflexivity.
  - cbn [ping_loop]. destruct (ping_step st s) as [st1 pkt].
    specialize (IH st1). destruct (ping_loop st1 rest) as [st2 pkts].
    cbn [snd List.length] in *. rewrite IH. reflexivity.
Qed.

Lemma ping_loop_counter (sents : list Z) :
  forall st c0,
    ps_counter st = wrap_u64 c0 ->
    ps_counter (fst (ping_loop st sents))
    = wrap_u64 (c0 + Z.of_nat (sent_count sents)).
Proof.
  unfold sent_count.
  induction sents as [| s rest IH]; intros st c0 H0.
  - cbn. rewrite Z.add_0_r. exact H0.
  - cbn [ping_loop filter].
    destruct (ping_step st s) as [st1 pkt] eqn:Estep.
    assert (Hc : ps_counter st1
                 = if s >? 0 then wrap_u64 (ps_counter st + 1)
                   else ps_counter st).
    { unfold ping_step in Estep. injection Estep as <- _. reflexivity. }
    pose proof (IH st1) as IH1. destruct (ping_loop st1 rest) as [st2 pkts].
    cbn [fst] in *. destruct (s >? 0).
    + rewrite (IH1 (c0 + 1)).
      * cbn [List.length]. rewrite Nat2Z.inj_succ. f_equal. lia.
      * rewrite Hc, H0. apply wrap_u64_add_l.
    + apply IH1. rewrite Hc. exact H0.
Qed.

(** X19.  When [socket] fails nothing is sent: the stressor returns
    [EXIT_NOT_IMPLEMENTED] for an unsupported protocol and for a denied
    permission, [EXIT_FAILURE] for any other error.  When the socket
    opens it returns [EXIT_SUCCESS] after one [sendto] per pass of the
    loop, at least one, and the bogo counter is the number of calls that
    sent something (in [uint64_t] arithmetic). *)
Theorem ping_sock_outcome (sock : Z + socket_errno) (r first : Z)
    (more : list Z) (duration : float) :
  let res := stress_ping_sock sock r first more duration in
  match sock with
  | inr e =>
      ping_packets res = [] /\ ping_counter res = 0
      /\ ping_rc res = match e with
                       | EOTHER => RC_EXIT_FAILURE
                       | _ => RC_EXIT_NOT_IMPLEMENTED
                       end
  | inl fd =>
      ping_rc res = RC_EXIT_SUCCESS
      /\ List.length (ping_packets res) = S (List.length more)
      /\ ping_counter res
         = wrap_u64 (Z.of_nat (sent_count (first :: more)))
  end.
Proof.
  intros res. subst res. unfold stress_ping_sock.
  destruct sock as [fd | e].
  - pose proof (ping_loop_length (first :: more)
                  (mk_ping_state 0 1 (1024 + r) 0)) as Hlen.
    pose proof (ping_loop_counter (first :: more)
                  (mk_ping_state 0 1 (1024 + r) 0)) as Hcnt.
    cbn [ps_counter] in Hcnt.
    destruct (ping_loop (mk_ping_state 0 1 (1024 + r) 0) (first :: more))
      as [st pkts].
    cbn [ping_rc ping_packets ping_counter fst snd ps_counter] in *.
    split; [reflexivity |]. split; [exact Hlen |].
    apply (Hcnt 0). reflexivity.
  - destruct e; repeat split; reflexivity.
Qed.

(** The state before pass number [i] (from 0), the port having started at
    [1024 + r]. *)
Lemma ping_loop_nth (r : Z) (sents : list Z) :
  0 <= r < 64511 ->
  forall st i,
    0 <= i ->
    ps_j st = wrap_i32 i ->
    ps_sequence st = wrap_u16 (1 + i) ->
    ps_rand_port st = (1024 + r + i) mod 65536 ->
    forall k pkt,
      nth_error (snd (ping_loop st sents)) k = Some pkt ->
      pk_port pkt = (1024 + r + (i + Z.of_nat k)) mod 65536
      /\ pk_sequence pkt = (1 + (i + Z.of_nat k)) mod 65536
      /\ pk_payload pkt
         = repeat (ping_data_at ((i + Z.of_nat k) mod 64)) PING_PAYLOAD_SIZE.
Proof.
  intros Hr. induction sents as [| s rest IH];
    intros st i Hi Hj Hseq Hport k pkt Hk.
  - destruct k; discriminate Hk.
  - cbn [ping_loop] in Hk.
    destruct (ping_step st s) as [st1 pkt0] eqn:Estep.
    unfold ping_step in Estep. injection Estep as Est1 Epkt.
    pose proof (IH st1 (i + 1)) as IH1.
    destruct (ping_loop st1 rest) as [st2 pkts]. cbn [snd] in *.
    pose proof (Z.mod_pos_bound (1024 + r + i) 65536 ltac:(lia)) as B.
    destruct k as [| k].
    + cbn [nth_error] in Hk. injection Hk as <-. subst pkt0.
      cbn [pk_port pk_sequence pk_payload Z.of_nat].
      rewrite Z.add_0_r, Hj, Hseq, Hport, land_63_wrap_i32.
      unfold wrap_u16. change (2 ^ 16) with 65536.
      rewrite Zmod_mod. repeat split; reflexivity.
    + cbn [nth_error] in Hk.
      replace (i + Z.of_nat (S k)) with (i + 1 + Z.of_nat k) by lia.
      apply (IH1 ltac:(lia)); [| | | exact Hk]; subst st1;
        cbn [ps_j ps_sequence ps_rand_port].
      * rewrite Hj. apply wrap_i32_succ.
      * rewrite Hseq, wrap_u16_succ. f_equal. lia.
      * rewrite Hport.
        replace (1024 + r + (i + 1)) with (1024 + r + i + 1) by lia.
        rewrite (mod_succ (1024 + r + i) 65536) by lia.
        destruct (Z.gtb_spec ((1024 + r + i) mod 65536 + 1) 65535);
          destruct (Z.eqb_spec ((1024 + r + i) mod 65536 + 1) 65536);
          lia.
Qed.

(** X20.  The packets of a run follow a fixed pattern.  The pass number
    [i] (from 0) sends to port [(1024 + r + i) mod 65536], [r] being the
    random offset below 64511 drawn at the start: the port climbs to
    65535 and then restarts from 0, not from 1024.  The echo sequence
    number is [(1 + i) mod 65536], and the payload is four times the
    character [i mod 64] of the 64 character table. *)
Theorem ping_packets_follow_pattern (fd r first : Z) (more : list Z)
    (duration : float) (i : nat) (pkt : ping_packet) :
  0 <= r < 64511 ->
  nth_error (ping_packets (stress_ping_sock (inl fd) r first more duration)) i
  = Some pkt ->
  pk_port pkt = (1024 + r + Z.of_nat i) mod 65536
  /\ pk_sequence pkt = (1 + Z.of_nat i) mod 65536
  /\ pk_payload pkt
     = repeat (ping_data_at (Z.of_nat i mod 64)) PING_PAYLOAD_SIZE.
Proof.
  intros Hr Hnth. unfold stress_ping_sock in Hnth.
  pose proof (ping_loop_nth r (first :: more) Hr
                (mk_ping_state 0 1 (1024 + r) 0) 0 ltac:(lia)) as H.
  destruct (ping_loop (mk_ping_state 0 1 (1024 + r) 0) (first :: more))
    as [st pkts].
  cbn [ping_packets fst snd] in *.
  specialize (H eq_refl eq_refl).
  cbn [ps_rand_port] in H. rewrite Z.add_0_r in H.
  assert (Hp : 1024 + r = (1024 + r) mod 65536)
    by (symmetry; apply Z.mod_small; lia).
  specialize (H Hp i pkt Hnth). cbn [Z.add] in H. exact H.
Qed.

Lemma ping_packets_follow_pattern_witness :
  let pkt := mk_ping_packet 0 3 (repeat "2"%char 4) in
  pk_port pkt = (1024 + 64510 + Z.of_nat 2) mod 65536
  /\ pk_sequence pkt = (1 + Z.of_nat 2) mod 65536
  /\ pk_payload pkt
     = repeat (ping_data_at (Z.of_nat 2 mod 64)) PING_PAYLOAD_SIZE.
Proof.
  apply (ping_packets_follow_pattern 3 64510 8 [8; -1; 8] 1%float 2%nat
           (mk_ping_packet 0 3 (repeat "2"%char 4))).
  - lia.
  - vm_compute. reflexivity.
Defined.
